(** * cbase2influxdb: a shallow embedding of [cbase2influxdb.py]

    The script fetches a CSV forecast, validates every row against the
    pydantic model [CBaseResponseData], reshapes the rows into InfluxDB
    points and writes or prints them.  This file embeds the script's
    functions and data models and proves properties of them.

    Conventions.
    - A Python [str] is a [string]; its characters are the code points
      below 256.
    - A Python [float] is a binary64 number, Rocq's primitive [float].
    - A Python [int] is a [Z].
    - A [dict] whose order is irrelevant is a [gmap]; a [dict] whose
      iteration order is observable (a model's attributes, the result of
      [model_dump]) is an association list in insertion order.
    - A raised exception is the [Raise] case of [result].

    The definitions come first: the Python values, the pydantic models,
    the [csv] module, the script's models and functions, the run of the
    script as a trace of events, and the inputs of the examples.  The
    properties follow, then their instances at the examples. *)

From Stdlib Require Import Floats ZArith Ascii String.
From stdpp Require Import base option gmap strings list pretty.

Local Open Scope string_scope.
Local Open Scope Z_scope.

(** ** Python values *)

(** [datetime.datetime]: the calendar fields and, for an aware value, the
    offset from UTC in seconds. *)
Record datetime := mk_datetime {
  year : Z; month : Z; day : Z;
  hour : Z; minute : Z; second : Z; microsecond : Z;
  utcoffset : option Z
}.

(** [class CBaseTrackingParam(IntEnum)] *)
Inductive CBaseTrackingParam :=
  | FIXED
  | Y_AXIS_TRACKING
  | X_AXIS_TRACKING
  | DUAL_AXIS_TRACKING.

(** The integer value of a member, [int(member)]. *)
Definition tracking_value (t : CBaseTrackingParam) : Z :=
  match t with
  | FIXED => 0
  | Y_AXIS_TRACKING => 1
  | X_AXIS_TRACKING => 2
  | DUAL_AXIS_TRACKING => 3
  end.

(** [CBaseTrackingParam(z)]: the member with value [z], if any. *)
Definition tracking_of_value (z : Z) : option CBaseTrackingParam :=
  if decide (z = 0) then Some FIXED
  else if decide (z = 1) then Some Y_AXIS_TRACKING
  else if decide (z = 2) then Some X_AXIS_TRACKING
  else if decide (z = 3) then Some DUAL_AXIS_TRACKING
  else None.

(** The Python objects the script handles: what [csv.DictReader] and
    [yaml.safe_load] produce and what the models hold. *)
#[warnings="-register-all"]
Inductive pyval :=
  | PNone
  | PBool (b : bool)
  | PInt (z : Z)
  | PFloat (f : float)
  | PStr (s : string)
  | PDatetime (d : datetime)
  | PEnum (t : CBaseTrackingParam)
  | PList (l : list pyval)
  | PDict (d : gmap string pyval).

(** [float(z)] for an [int]: the nearest binary64 number. *)
Definition Z_to_float (z : Z) : float :=
  SF2Prim (binary_normalize prec emax z 0 false).

(** The integer a float is equal to, when it is finite and has no
    fractional part. *)
Definition float_to_Z (f : float) : option Z :=
  match Prim2SF f with
  | S754_zero _ => Some 0
  | S754_finite s m e =>
      let sign := if s then (-1) else 1 in
      if 0 <=? e then Some (sign * Z.pos m * 2 ^ e)
      else if Z.pos m mod 2 ^ (- e) =? 0 then Some (sign * (Z.pos m / 2 ^ (- e)))
      else None
  | _ => None
  end.

(** ** Exceptions and results *)

(** One entry of a pydantic [ValidationError]. *)
Inductive error_type :=
  | missing
  | string_type
  | int_invalid
  | float_invalid
  | datetime_invalid
  | enum_invalid
  | model_type
  | greater_than_equal (bound : Z)
  | less_than_equal (bound : Z)
  | value_error.

Record line_error := mk_line_error {
  loc : list string;
  type : error_type
}.

Inductive exn :=
  | ValidationError (errors : list line_error)
  | TypeError
  | KeyError (key : string)
  | AttributeError (attr : string)
  | FileNotFoundError (path : string)
  | ValueError
  | csv_Error
  | YAMLError
  | ClientError
  | InfluxDBClientError.

Inductive result (A : Type) :=
  | Ok (a : A)
  | Raise (e : exn).
Arguments Ok {A} a.
Arguments Raise {A} e.

#[global] Instance result_ret : MRet result := λ A a, Ok a.
#[global] Instance result_bind : MBind result := λ A B f m,
  match m with
  | Ok a => f a
  | Raise e => Raise e
  end.
#[global] Instance result_fmap : FMap result := λ A B f m,
  match m with
  | Ok a => Ok (f a)
  | Raise e => Raise e
  end.

(** A list comprehension [[f(x) for x in l]] whose body may raise. *)
Fixpoint comprehension {A B} (f : A → result B) (l : list A) : result (list B) :=
  match l with
  | [] => Ok []
  | x :: l' =>
      y ← f x;
      ys ← comprehension f l';
      Ok (y :: ys)
  end.

(** ** The libraries' conversions

    What the script takes from Python and its libraries without defining
    it: the text-to-number and text-to-date conversions, the printers and
    the YAML loader.  [None] stands for the conversion's failure. *)
Class PyLibs := {
  (** the builtin [float(s)] on a [str]; failure is [ValueError] *)
  float_of_str : string → option float;
  (** pydantic's lax conversions of a [str] *)
  str_as_float : string → option float;
  str_as_int : string → option Z;
  str_as_datetime : string → option datetime;
  (** pydantic's JSON text of a float and of a datetime *)
  float_to_json : float → string;
  datetime_isoformat : datetime → string;
  (** [str(float(v))], as yarl writes a float in a query string *)
  float_str : float → string;
  (** [yaml.safe_load] on a file's text *)
  yaml_safe_load : string → result pyval
}.

(** ** pydantic models

    A [BaseModel] subclass is its table of fields, in declaration order,
    and its [field_validator]s.  An instance is the association list of
    its attributes in the same order. *)

(** The annotations the script's models use. *)
Inductive annotation :=
  | Tstr
  | Tint
  | Tfloat
  | Tdatetime
  | TCBaseTrackingParam
  | TOptional (t : annotation).

Record FieldInfo := mk_FieldInfo {
  name : string;
  ann : annotation;
  default : option pyval;
  ge : option Z;
  le : option Z;
  alias : option string;
  serialization_alias : option string
}.

(** The keyword arguments of [Field(...)]; [default_ v] also stands for
    the [= v] of an attribute declared with a plain default. *)
Inductive field_arg :=
  | default_ (v : pyval)
  | ge_ (bound : Z)
  | le_ (bound : Z)
  | alias_ (a : string)
  | serialization_alias_ (a : string).

Definition apply_arg (f : FieldInfo) (a : field_arg) : FieldInfo :=
  match a with
  | default_ v => mk_FieldInfo (name f) (ann f) (Some v) (ge f) (le f) (alias f) (serialization_alias f)
  | ge_ b => mk_FieldInfo (name f) (ann f) (default f) (Some b) (le f) (alias f) (serialization_alias f)
  | le_ b => mk_FieldInfo (name f) (ann f) (default f) (ge f) (Some b) (alias f) (serialization_alias f)
  | alias_ a => mk_FieldInfo (name f) (ann f) (default f) (ge f) (le f) (Some a) (serialization_alias f)
  | serialization_alias_ a => mk_FieldInfo (name f) (ann f) (default f) (ge f) (le f) (alias f) (Some a)
  end.

(** [name: ann = Field(args)] *)
Definition Field (n : string) (t : annotation) (args : list field_arg) : FieldInfo :=
  foldl apply_arg (mk_FieldInfo n t None None None None None) args.

(** What validating one field gives: the validated value, an entry of the
    [ValidationError] being collected, or an exception that is not caught
    (pydantic turns only [ValueError] and [AssertionError] raised in a
    validator into entries). *)
Inductive outcome :=
  | Valid (v : pyval)
  | Invalid (t : error_type)
  | Raises (e : exn).

Definition and_then (o : outcome) (k : pyval → outcome) : outcome :=
  match o with
  | Valid v => k v
  | Invalid t => Invalid t
  | Raises e => Raises e
  end.

Record BaseModel := mk_BaseModel {
  model_fields : list FieldInfo;
  (** [@field_validator(names, mode="before")] functions *)
  before_validators : list (list string * (pyval → outcome))
}.

(** An instance: attribute name and value, in declaration order. *)
Abbreviation instance := (list (string * pyval)).

(** [obj.attr] *)
Fixpoint getattr (obj : instance) (attr : string) : option pyval :=
  match obj with
  | [] => None
  | (n, v) :: obj' => if String.eqb n attr then Some v else getattr obj' attr
  end.

(** The key under which a field is read from the input: its alias when it
    has one ([populate_by_name] is off), else its name. *)
Definition validation_key (f : FieldInfo) : string :=
  match alias f with
  | Some a => a
  | None => name f
  end.

(** The key [model_dump] writes a field under. *)
Definition dump_key (by_alias : bool) (f : FieldInfo) : string :=
  if by_alias then
    match serialization_alias f with
    | Some a => a
    | None => match alias f with Some a => a | None => name f end
    end
  else name f.

Section Pydantic.
Context `{PyLibs}.

(** pydantic's lax (default) conversions of an input to the annotated
    type.  A float is an [int] when it has no fractional part and lies
    strictly between -2^63 and 2^63. *)
Definition as_int (v : pyval) : option Z :=
  match v with
  | PInt z => Some z
  | PBool b => Some (if b then 1 else 0)
  | PFloat f =>
      z ← float_to_Z f;
      if bool_decide (- 2 ^ 63 < z < 2 ^ 63) then Some z else None
  | PEnum t => Some (tracking_value t)
  | PStr s => str_as_int s
  | _ => None
  end.

(** An [int] is a float when the nearest binary64 number is finite. *)
Definition as_float (v : pyval) : option float :=
  match v with
  | PFloat f => Some f
  | PInt z =>
      let f := Z_to_float z in
      if PrimFloat.is_finite f then Some f else None
  | PBool b => Some (if b then 1%float else 0%float)
  | PEnum t => Some (Z_to_float (tracking_value t))
  | PStr s => str_as_float s
  | _ => None
  end.

(** A datetime field gets a [datetime] or the text of a CSV column in
    this script, nothing else. *)
Definition as_datetime (v : pyval) : option datetime :=
  match v with
  | PDatetime d => Some d
  | PStr s => str_as_datetime s
  | _ => None
  end.

Definition as_tracking (v : pyval) : option CBaseTrackingParam :=
  match v with
  | PEnum t => Some t
  | _ => as_int v ≫= tracking_of_value
  end.

Fixpoint validate_annotation (t : annotation) (v : pyval) : outcome :=
  match t with
  | Tstr => match v with PStr s => Valid (PStr s) | _ => Invalid string_type end
  | Tint => match as_int v with Some z => Valid (PInt z) | None => Invalid int_invalid end
  | Tfloat => match as_float v with Some f => Valid (PFloat f) | None => Invalid float_invalid end
  | Tdatetime =>
      match as_datetime v with Some d => Valid (PDatetime d) | None => Invalid datetime_invalid end
  | TCBaseTrackingParam =>
      match as_tracking v with Some e => Valid (PEnum e) | None => Invalid enum_invalid end
  | TOptional t' => match v with PNone => Valid PNone | _ => validate_annotation t' v end
  end.

(** [Field(ge=..., le=...)]: the bounds of a numeric field, checked on the
    converted value; a float is compared with the bound as a float. *)
Definition ge_holds (bound : Z) (v : pyval) : bool :=
  match v with
  | PInt z => bool_decide (bound ≤ z)
  | PFloat f => PrimFloat.leb (Z_to_float bound) f
  | _ => true
  end.

Definition le_holds (bound : Z) (v : pyval) : bool :=
  match v with
  | PInt z => bool_decide (z ≤ bound)
  | PFloat f => PrimFloat.leb f (Z_to_float bound)
  | _ => true
  end.

Definition check_ge (f : FieldInfo) (v : pyval) : outcome :=
  match ge f with
  | Some b => if ge_holds b v then Valid v else Invalid (greater_than_equal b)
  | None => Valid v
  end.

Definition check_le (f : FieldInfo) (v : pyval) : outcome :=
  match le f with
  | Some b => if le_holds b v then Valid v else Invalid (less_than_equal b)
  | None => Valid v
  end.

Definition check_bounds (f : FieldInfo) (v : pyval) : outcome :=
  and_then (check_le f v) (check_ge f).

(** The "before" validators registered for a field, applied in order to
    the raw input. *)
Fixpoint run_before (vs : list (list string * (pyval → outcome))) (n : string) (v : pyval)
  : outcome :=
  match vs with
  | [] => Valid v
  | (names, fn) :: vs' =>
      if bool_decide (n ∈ names) then and_then (fn v) (run_before vs' n) else run_before vs' n v
  end.

(** One field of [Model( **kw )]: a missing key takes the default (which is
    not validated) or is an error; a present one goes through the before
    validators, the conversion to the annotation and the bounds. *)
Definition validate_field (m : BaseModel) (f : FieldInfo) (kw : gmap string pyval) : outcome :=
  match kw !! validation_key f with
  | None => match default f with Some v => Valid v | None => Invalid missing end
  | Some v =>
      and_then (run_before (before_validators m) (name f) v) (λ v1,
      and_then (validate_annotation (ann f) v1) (check_bounds f))
  end.

(** All fields in order.  Errors are collected; an uncaught exception ends
    the validation at once.  Keys of [kw] that name no field are ignored. *)
Fixpoint validate_fields (m : BaseModel) (fs : list FieldInfo) (kw : gmap string pyval)
  : result (instance * list line_error) :=
  match fs with
  | [] => Ok ([], [])
  | f :: fs' =>
      match validate_field m f kw with
      | Raises e => Raise e
      | Valid v =>
          r ← validate_fields m fs' kw;
          Ok ((name f, v) :: fst r, snd r)
      | Invalid t =>
          r ← validate_fields m fs' kw;
          Ok (fst r, mk_line_error [validation_key f] t :: snd r)
      end
  end.

(** [Model( **kw )] *)
Definition model_init (m : BaseModel) (kw : gmap string pyval) : result instance :=
  r ← validate_fields m (model_fields m) kw;
  match snd r with
  | [] => Ok (fst r)
  | errs => Raise (ValidationError errs)
  end.

End Pydantic.

(** [obj.model_dump(by_alias=..., exclude=...)]: the attributes in order,
    without the excluded ones, under the name or the alias. *)
Fixpoint model_dump (fs : list FieldInfo) (by_alias : bool) (exclude : list string)
    (obj : instance) : list (string * pyval) :=
  match fs, obj with
  | f :: fs', (n, v) :: obj' =>
      if bool_decide (n ∈ exclude) then model_dump fs' by_alias exclude obj'
      else (dump_key by_alias f, v) :: model_dump fs' by_alias exclude obj'
  | _, _ => []
  end.

(** ** The [csv] module, as [parse_csv] uses it

    [str.splitlines], [csv.reader] with the default ("excel") dialect
    (delimiter comma, quote character the double quote, doubled quotes,
    no escape character, not strict) as of Python 3.11, and
    [csv.DictReader] with its default [restkey] and [restval], both
    [None]. *)

Definition is_newline (c : ascii) : bool :=
  bool_decide (c = "010"%char) || bool_decide (c = "013"%char).

(** The line boundaries of [str.splitlines] below code point 256, CR LF
    apart: LF, VT, FF, CR, FS, GS, RS and NEL. *)
Definition is_linebreak (c : ascii) : bool :=
  bool_decide (nat_of_ascii c ∈ [10; 11; 12; 13; 28; 29; 30; 133]%nat).

Fixpoint splitlines_from (s : string) (line : string) : list string :=
  match s with
  | EmptyString => if bool_decide (line = "") then [] else [line]
  | String c s' =>
      if bool_decide (c = "013"%char) then
        match s' with
        | String "010"%char s'' => line :: splitlines_from s'' ""
        | _ => line :: splitlines_from s' ""
        end
      else if is_linebreak c then line :: splitlines_from s' ""
      else splitlines_from s' (line +:+ String c "")
  end.

(** [s.splitlines()] *)
Definition splitlines (s : string) : list string := splitlines_from s "".

Module csv.

Inductive ParserState :=
  | START_RECORD
  | START_FIELD
  | IN_FIELD
  | IN_QUOTED_FIELD
  | QUOTE_IN_QUOTED_FIELD
  | EAT_CRNL.

#[global] Instance ParserState_eq_dec : EqDecision ParserState.
Proof. solve_decision. Defined.

(** The reader's state: the parser state, the fields of the record being
    read and the characters of the field being read. *)
Record ReaderObj := mk_ReaderObj {
  state : ParserState;
  fields : list string;
  field : string
}.

Definition field_limit : Z := 131072.
Definition delimiter : ascii := ","%char.
Definition quotechar : ascii := "034"%char.

Definition parse_reset : ReaderObj := mk_ReaderObj START_RECORD [] "".

Definition set_state (st : ParserState) (self : ReaderObj) : ReaderObj :=
  mk_ReaderObj st (fields self) (field self).

Definition parse_save_field (self : ReaderObj) : ReaderObj :=
  mk_ReaderObj (state self) (fields self ++ [field self]) "".

Definition parse_add_char (self : ReaderObj) (c : ascii) : result ReaderObj :=
  if field_limit <=? Z.of_nat (String.length (field self)) then Raise csv_Error
  else Ok (mk_ReaderObj (state self) (fields self) (field self +:+ String c "")).

(** The end of a record: a line end inside the line ([Some c]) or the end
    of the line itself ([None]). *)
Definition is_eol (c : option ascii) : bool :=
  match c with
  | None => true
  | Some ch => is_newline ch
  end.

Definition after_eol (c : option ascii) : ParserState :=
  match c with
  | None => START_RECORD
  | Some _ => EAT_CRNL
  end.

(** One step of the parser on a character of the line, or on the end of
    the line ([None]). *)
Definition parse_process_char (self : ReaderObj) (c : option ascii) : result ReaderObj :=
  let start_field (self : ReaderObj) : result ReaderObj :=
    match c with
    | Some ch =>
        if is_newline ch then Ok (set_state EAT_CRNL (parse_save_field self))
        else if bool_decide (ch = quotechar) then Ok (set_state IN_QUOTED_FIELD self)
        else if bool_decide (ch = delimiter) then Ok (parse_save_field self)
        else set_state IN_FIELD <$> parse_add_char self ch
    | None => Ok (set_state START_RECORD (parse_save_field self))
    end in
  match state self with
  | START_RECORD =>
      match c with
      | None => Ok self
      | Some ch =>
          if is_newline ch then Ok (set_state EAT_CRNL self)
          else start_field (set_state START_FIELD self)
      end
  | START_FIELD => start_field self
  | IN_FIELD =>
      match c with
      | Some ch =>
          if is_newline ch then Ok (set_state EAT_CRNL (parse_save_field self))
          else if bool_decide (ch = delimiter) then Ok (set_state START_FIELD (parse_save_field self))
          else parse_add_char self ch
      | None => Ok (set_state START_RECORD (parse_save_field self))
      end
  | IN_QUOTED_FIELD =>
      match c with
      | None => Ok self
      | Some ch =>
          if bool_decide (ch = quotechar) then Ok (set_state QUOTE_IN_QUOTED_FIELD self)
          else parse_add_char self ch
      end
  | QUOTE_IN_QUOTED_FIELD =>
      match c with
      | Some ch =>
          if bool_decide (ch = quotechar) then set_state IN_QUOTED_FIELD <$> parse_add_char self ch
          else if bool_decide (ch = delimiter) then Ok (set_state START_FIELD (parse_save_field self))
          else if is_newline ch then Ok (set_state EAT_CRNL (parse_save_field self))
          else set_state IN_FIELD <$> parse_add_char self ch
      | None => Ok (set_state START_RECORD (parse_save_field self))
      end
  | EAT_CRNL =>
      match c with
      | None => Ok (set_state START_RECORD self)
      | Some ch => if is_newline ch then Ok self else Raise csv_Error
      end
  end.

Fixpoint parse_line (self : ReaderObj) (line : string) : result ReaderObj :=
  match line with
  | EmptyString => parse_process_char self None
  | String c line' =>
      self' ← parse_process_char self (Some c);
      parse_line self' line'
  end.

(** The records [csv.reader(lines)] yields, and the error that ends the
    iteration if there is one.  A record goes on over the next line while
    the parser is inside a quoted field; at the end of the input an
    unfinished record is yielded as it stands. *)
Fixpoint read_records (self : ReaderObj) (lines : list string)
  : list (list string) * option exn :=
  match lines with
  | [] =>
      if bool_decide (field self ≠ "") || bool_decide (state self = IN_QUOTED_FIELD)
      then ([fields (parse_save_field self)], None)
      else ([], None)
  | line :: lines' =>
      match parse_line self line with
      | Raise e => ([], Some e)
      | Ok self' =>
          if bool_decide (state self' = START_RECORD)
          then let r := read_records parse_reset lines' in (fields self' :: fst r, snd r)
          else read_records self' lines'
      end
  end.

Definition reader (lines : list string) : list (list string) * option exn :=
  read_records parse_reset lines.

(** The dict [DictReader.__next__] builds from the field names and a row:
    the zipped pairs, then the surplus values under [restkey] (the key
    [None]) or [restval] ([None]) for the field names without a value. *)
Definition row_dict (fieldnames row : list string) : gmap (option string) pyval :=
  let d := foldl (λ d kv, <[Some (fst kv) := PStr (snd kv)]> d) ∅ (zip fieldnames row) in
  let lf := length fieldnames in
  let lr := length row in
  if bool_decide (lf < lr)%nat then <[None := PList (PStr <$> drop lf row)]> d
  else if bool_decide (lr < lf)%nat then foldl (λ d k, <[Some k := PNone]> d) d (drop lr fieldnames)
  else d.

(** The rows [csv.DictReader(lines)] yields: the first record gives the
    field names, empty records are skipped. *)
Definition DictReader (lines : list string)
  : list (gmap (option string) pyval) * option exn :=
  let r := reader lines in
  match fst r with
  | [] => ([], snd r)
  | fieldnames :: rows =>
      (row_dict fieldnames <$> filter (λ row, row ≠ []) rows, snd r)
  end.

End csv.

(** [f( **d )]: the keyword arguments a dict unpacks to; a key that is not
    a [str] is a [TypeError]. *)
Definition str_keys (d : gmap (option string) pyval) : gmap string pyval :=
  list_to_map (omap (λ kv, k ← fst kv; Some (k, snd kv)) (map_to_list d)).

Definition unpack (d : gmap (option string) pyval) : result (gmap string pyval) :=
  match d !! None with
  | Some _ => Raise TypeError
  | None => Ok (str_keys d)
  end.

(** ** The script's models *)

(** [class AppArgs(BaseModel)]; [parse_args] passes all three. *)
Record AppArgs := mk_AppArgs {
  config_file : string;
  csv_file : option string;
  dry_run : bool
}.

(** [class InfluxDBConfig(BaseModel)] *)
Definition InfluxDBConfig : BaseModel := mk_BaseModel [
  Field "host" Tstr [];
  Field "port" Tint [default_ (PInt 8086)];
  Field "database" Tstr [default_ (PStr "cbase")];
  Field "retention_policy" (TOptional Tstr) []
] [].

(** [class CBaseSystemParams(BaseModel)] *)
Definition CBaseSystemParams : BaseModel := mk_BaseModel [
  Field "latitude" Tfloat [ge_ (-90); le_ 90; serialization_alias_ "lat"];
  Field "longitude" Tfloat [ge_ (-90); le_ 90; serialization_alias_ "lon"];
  Field "slope" Tint [ge_ 0; le_ 90];
  Field "azimuth" Tint [ge_ 0; le_ 359; serialization_alias_ "azi"];
  Field "tracking" TCBaseTrackingParam [default_ (PEnum FIXED)];
  Field "panel_output" Tint [ge_ 0; le_ 1000; serialization_alias_ "panel_out"];
  Field "panel_quantity" Tint [ge_ 0; le_ 1000; serialization_alias_ "panel_qty"];
  Field "inverter_capacity" Tint
    [default_ (PInt 0); ge_ 0; le_ 100000; serialization_alias_ "inv_cap"]
] [].

(** [class CBaseConfig(BaseModel)] *)
Record CBaseConfig := mk_CBaseConfig {
  api_host : string;
  system : instance
}.

(** [class AppConfig(BaseModel)] *)
Record AppConfig := mk_AppConfig {
  influxdb : instance;
  cbase : CBaseConfig
}.

(** [class InfluxDBPoint(BaseModel)] *)
Record InfluxDBPoint := mk_InfluxDBPoint {
  measurement : string;
  tags : option (list (string * string));
  fields : list (string * float);
  time : datetime
}.

(** [v is not None] *)
Definition is_not_None (v : pyval) : bool :=
  match v with
  | PNone => false
  | _ => true
  end.

(** [v == s] for a [str] literal [s] *)
Definition eq_str (v : pyval) (s : string) : bool :=
  match v with
  | PStr s' => String.eqb s' s
  | _ => false
  end.

Section Script.
Context `{PyLibs}.

(** A field whose annotation is a model: a dict is validated by the model
    and its errors are reported below the field's key; anything else is
    not a model. *)
Definition nested_model {A} (key : string) (init : gmap string pyval → result A)
    (v : option pyval) : result (option A * list line_error) :=
  match v with
  | None => Ok (None, [mk_line_error [key] missing])
  | Some (PDict d) =>
      match init d with
      | Ok a => Ok (Some a, [])
      | Raise (ValidationError errs) =>
          Ok (None, (λ e, mk_line_error (key :: loc e) (type e)) <$> errs)
      | Raise e => Raise e
      end
  | Some _ => Ok (None, [mk_line_error [key] model_type])
  end.

(** [CBaseConfig( **kw )] *)
Definition CBaseConfig_init (kw : gmap string pyval) : result CBaseConfig :=
  let host := validate_field (mk_BaseModel [] []) (Field "api_host" Tstr []) kw in
  sys ← nested_model "system" (model_init CBaseSystemParams) (kw !! "system");
  match host, fst sys with
  | Valid (PStr h), Some s => Ok (mk_CBaseConfig h s)
  | Invalid t, _ => Raise (ValidationError (mk_line_error ["api_host"] t :: snd sys))
  | _, _ => Raise (ValidationError (snd sys))
  end.

(** [AppConfig( **kw )] *)
Definition AppConfig_init (kw : gmap string pyval) : result AppConfig :=
  db ← nested_model "influxdb" (model_init InfluxDBConfig) (kw !! "influxdb");
  cb ← nested_model "cbase" CBaseConfig_init (kw !! "cbase");
  match fst db, fst cb with
  | Some i, Some c => Ok (mk_AppConfig i c)
  | _, _ => Raise (ValidationError (snd db ++ snd cb))
  end.

(** The builtin [float(value)]: a [ValueError] on a [str] that is no
    numeral, a [TypeError] on an object that is neither a number nor a
    [str]. *)
Definition float_ (value : pyval) : outcome :=
  match value with
  | PStr s => match float_of_str s with Some f => Valid (PFloat f) | None => Invalid value_error end
  | PFloat f => Valid (PFloat f)
  | PInt z => Valid (PFloat (Z_to_float z))
  | PBool b => Valid (PFloat (if b then 1%float else 0%float))
  | PEnum t => Valid (PFloat (Z_to_float (tracking_value t)))
  | _ => Raises TypeError
  end.

(** The module's [parse_na(value, type)], which the script never calls. *)
Definition parse_na (value : pyval) (type : pyval → outcome) : outcome :=
  if eq_str value "NA" then Valid PNone else type value.

(** [CBaseResponseData.parse_na], the validator of [pv_T] and [pv_eta] *)
Definition CBaseResponseData_parse_na (value : pyval) : outcome :=
  if eq_str value "NA" then Valid PNone else float_ value.

(** [class CBaseResponseData(BaseModel)] *)
Definition CBaseResponseData : BaseModel := mk_BaseModel [
  Field "Time_UTC" Tdatetime [alias_ "Time.UTC"];
  Field "temp_avg" Tfloat [];
  Field "wind_avg" Tfloat [];
  Field "cl_tot" Tfloat [];
  Field "cl_low" Tfloat [];
  Field "cl_med" Tfloat [];
  Field "cl_high" Tfloat [];
  Field "prec_amt" Tfloat [];
  Field "s_glob" Tfloat [];
  Field "s_dif" Tfloat [];
  Field "s_dir_hor" Tfloat [];
  Field "s_dir" Tfloat [];
  Field "s_sw_net" Tfloat [];
  Field "solar_angle_vs_panel" Tfloat [];
  Field "albedo" Tfloat [];
  Field "s_glob_pv" Tfloat [];
  Field "s_ground_dif_pv" Tfloat [];
  Field "s_dir_pv" Tfloat [];
  Field "s_dif_pv" Tfloat [];
  Field "pv_po" Tfloat [];
  Field "pv_T" (TOptional Tfloat) [];
  Field "pv_eta" (TOptional Tfloat) []
] [(["pv_T"; "pv_eta"], CBaseResponseData_parse_na)].

(** [InfluxDBPoint(measurement=..., tags=..., fields=..., time=...)]: the
    values of [fields] are validated as floats and [time] as a datetime. *)
Definition InfluxDBPoint_init (measurement : string) (tags : list (string * string))
    (fields : list (string * pyval)) (time : pyval) : result InfluxDBPoint :=
  match mapM (λ kv, (fst kv,.) <$> as_float (snd kv)) fields, as_datetime time with
  | Some fs, Some t => Ok (mk_InfluxDBPoint measurement (Some tags) fs t)
  | _, _ =>
      Raise (ValidationError
        (omap (λ kv, match as_float (snd kv) with
                     | Some _ => None
                     | None => Some (mk_line_error ["fields"; fst kv] float_invalid)
                     end) fields
         ++ match as_datetime time with
            | Some _ => []
            | None => [mk_line_error ["time"] datetime_invalid]
            end))
  end.

(** [CBaseResponseData( **row )] *)
Definition CBaseResponseData_init (row : gmap (option string) pyval) : result instance :=
  kw ← unpack row;
  model_init CBaseResponseData kw.

(** [parse_csv] *)
Definition parse_csv (csv_text : string) : result (list instance) :=
  let lines := splitlines csv_text in
  let reader := csv.DictReader lines in
  data ← comprehension CBaseResponseData_init (fst reader);
  match snd reader with
  | Some e => Raise e
  | None => Ok data
  end.

(** The body of the comprehension in [csv_to_influxdb_points]. *)
Definition to_point (data : instance) : result InfluxDBPoint :=
  match getattr data "Time_UTC" with
  | None => Raise (AttributeError "Time_UTC")
  | Some t =>
      InfluxDBPoint_init "cbase" [("system", "home")]
        (filter (λ kv, is_not_None (snd kv) = true)
           (model_dump (model_fields CBaseResponseData) false ["Time_UTC"] data))
        t
  end.

(** [csv_to_influxdb_points] *)
Definition csv_to_influxdb_points (csv_text : string) : result (list InfluxDBPoint) :=
  weather_data_list ← parse_csv csv_text;
  comprehension to_point weather_data_list.

End Script.

(** ** Text output: JSON and [repr] *)

Definition hex_digit (n : nat) : ascii :=
  match n with
  | 0 => "0" | 1 => "1" | 2 => "2" | 3 => "3" | 4 => "4" | 5 => "5" | 6 => "6" | 7 => "7"
  | 8 => "8" | 9 => "9" | 10 => "a" | 11 => "b" | 12 => "c" | 13 => "d" | 14 => "e" | _ => "f"
  end%nat%char.

(** The two hexadecimal digits of a character's code. *)
Definition hex2 (c : ascii) : string :=
  let n := nat_of_ascii c in
  String (hex_digit (n / 16)%nat) (String (hex_digit (n mod 16)%nat) "").

(** [sep.join(l)] *)
Fixpoint join (sep : string) (l : list string) : string :=
  match l with
  | [] => ""
  | [s] => s
  | s :: l' => s +:+ sep +:+ join sep l'
  end.

Module json.

Definition escape_char (c : ascii) : string :=
  if bool_decide (c = "034"%char) then "\" +:+ String "034" ""
  else if bool_decide (c = "\"%char) then "\\"
  else if bool_decide (c = "008"%char) then "\b"
  else if bool_decide (c = "012"%char) then "\f"
  else if bool_decide (c = "010"%char) then "\n"
  else if bool_decide (c = "013"%char) then "\r"
  else if bool_decide (c = "009"%char) then "\t"
  else if bool_decide (nat_of_ascii c < 32)%nat then "\u00" +:+ hex2 c
  else String c "".

Fixpoint escape (s : string) : string :=
  match s with
  | EmptyString => ""
  | String c s' => escape_char c +:+ escape s'
  end.

(** A JSON string literal. *)
Definition str (s : string) : string :=
  String "034" (escape s) +:+ String "034" "".

(** A JSON object of members already serialized, without blanks. *)
Definition object (members : list (string * string)) : string :=
  "{" +:+ join "," ((λ kv, str (fst kv) +:+ ":" +:+ snd kv) <$> members) +:+ "}".

End json.

Section Dump.
Context `{PyLibs}.

(** [p.model_dump_json()] for an [InfluxDBPoint] *)
Definition model_dump_json (p : InfluxDBPoint) : string :=
  json.object [
    ("measurement", json.str (measurement p));
    ("tags", match tags p with
             | None => "null"
             | Some t => json.object ((λ kv, (fst kv, json.str (snd kv))) <$> t)
             end);
    ("fields", json.object ((λ kv, (fst kv, float_to_json (snd kv))) <$> fields p));
    ("time", json.str (datetime_isoformat (time p)))
  ].

End Dump.

(** [repr(s)] for a [str]: single quotes, unless the text has a single
    quote and no double quote; the quote, the backslash and the characters
    that are not printable are escaped. *)
Fixpoint contains (c : ascii) (s : string) : bool :=
  match s with
  | EmptyString => false
  | String c' s' => bool_decide (c' = c) || contains c s'
  end.

Definition printable (c : ascii) : bool :=
  let n := nat_of_ascii c in
  (bool_decide (32 ≤ n)%nat && bool_decide (n < 127)%nat)
  || (bool_decide (161 ≤ n)%nat && negb (bool_decide (n = 173)%nat)).

Definition repr_char (quote c : ascii) : string :=
  if bool_decide (c = quote) || bool_decide (c = "\"%char) then String "\" (String c "")
  else if bool_decide (c = "009"%char) then "\t"
  else if bool_decide (c = "010"%char) then "\n"
  else if bool_decide (c = "013"%char) then "\r"
  else if printable c then String c ""
  else "\x" +:+ hex2 c.

Fixpoint repr_chars (quote : ascii) (s : string) : string :=
  match s with
  | EmptyString => ""
  | String c s' => repr_char quote c +:+ repr_chars quote s'
  end.

Definition repr_str (s : string) : string :=
  let quote := if contains "'" s && negb (contains "034" s) then "034"%char else "'"%char in
  String quote (repr_chars quote s) +:+ String quote "".

(** [repr(l)] for a list of [str], which is what [print(l)] writes. *)
Definition repr_list (l : list string) : string :=
  "[" +:+ join ", " (repr_str <$> l) +:+ "]".

(** ** The run of the script

    What the script does to its environment is a trace of events; what it
    gets from it is the [World]. *)

Inductive log_record :=
  | response_logged
  | send_data_dry_run (json_body : list InfluxDBPoint).

Inductive event :=
  (** [open(path, "r")] *)
  | Open (path : string)
  (** [print(text)] on standard output *)
  | Print (text : string)
  (** [logging.debug] *)
  | Log (record : log_record)
  (** the GET of [aiohttp]'s session *)
  | Get (url : string) (params : list (string * string))
  (** [InfluxDBClient.write_points] *)
  | WritePoints (json_body : list InfluxDBPoint) (retention_policy : option string)
  (** the session's [close] *)
  | Close.

Record World := mk_World {
  (** [os.environ] *)
  environ : gmap string string;
  (** the text of the files that can be read *)
  files : gmap string string;
  (** the response to a GET, or the client's error; the response gives
      its body when it is read, or the error of the reading *)
  http_get : string → list (string * string) → result (result string);
  (** the outcome of a write to the database *)
  influx_write : list InfluxDBPoint → option string → result unit
}.

(** A computation: the events so far and the value or the exception that
    ended it. *)
Definition prog (A : Type) : Type := list event * result A.

#[global] Instance prog_ret : MRet prog := λ A a, ([], Ok a).
#[global] Instance prog_bind : MBind prog := λ A B f m,
  match snd m with
  | Ok a => ((fst m ++ fst (f a))%list, snd (f a))
  | Raise e => (fst m, Raise e)
  end.

Definition emit (ev : event) : prog unit := ([ev], Ok ()).
Definition lift {A} (r : result A) : prog A := ([], r).

(** [with open(path, "r") as f: f.read()] *)
Definition read_file (w : World) (path : string) : prog string :=
  ([Open path],
   match files w !! path with
   | Some text => Ok text
   | None => Raise (FileNotFoundError path)
   end).

Definition API_URL (host : string) : string :=
  "https://" +:+ host +:+ "/api/pvfcst_request".

Section Run.
Context `{PyLibs}.

(** How the HTTP client writes a query parameter's value: a [str] as it
    is, an [int] other than a [bool] (so also an [IntEnum] member) as
    [str(int(v))], a finite [float] as [str(float(v))]. *)
Definition query_var (v : pyval) : result string :=
  match v with
  | PStr s => Ok s
  | PInt z => Ok (pretty z)
  | PEnum t => Ok (pretty (tracking_value t))
  | PFloat f => if PrimFloat.is_finite f then Ok (float_str f) else Raise ValueError
  | _ => Raise TypeError
  end.

(** [d[key] = value] on a dict in insertion order. *)
Fixpoint setitem (d : list (string * pyval)) (key : string) (value : pyval)
  : list (string * pyval) :=
  match d with
  | [] => [(key, value)]
  | (k, v) :: d' =>
      if String.eqb k key then (k, value) :: d' else (k, v) :: setitem d' key value
  end.

(** The [params] of the GET in [collect_data]. *)
Definition request_params (system : instance) (API_KEY : string) : list (string * pyval) :=
  let params := model_dump (model_fields CBaseSystemParams) true [] system in
  setitem params "apikey" (PStr API_KEY).

Definition retention_policy_of (influx_config : instance) : option string :=
  match getattr influx_config "retention_policy" with
  | Some (PStr s) => Some s
  | _ => None
  end.

(** [collect_data] *)
Definition collect_data (w : World) (API_KEY : string) (cbase_config : CBaseConfig)
    (influx_config : instance) (dry_run : bool) : prog unit :=
  let params := request_params (system cbase_config) API_KEY in
  query ← lift (comprehension (λ kv, (fst kv,.) <$> query_var (snd kv)) params);
  let url := API_URL (api_host cbase_config) in
  emit (Get url query);;
  response ← lift (http_get w url query);
  emit (Log response_logged);;
  text ← lift response;
  influxdb_points ← lift (csv_to_influxdb_points text);
  let json_body := influxdb_points in
  (if dry_run then emit (Log (send_data_dry_run json_body))
   else
     emit (WritePoints json_body (retention_policy_of influx_config));;
     lift (influx_write w json_body (retention_policy_of influx_config)));;
  emit Close.

(** [AppConfig( **config )] on what the YAML loader returned. *)
Definition AppConfig_of (config : pyval) : result AppConfig :=
  match config with
  | PDict d => AppConfig_init d
  | _ => Raise TypeError
  end.

(** [run] *)
Definition run (w : World) (API_KEY : string) (args : AppArgs) : prog unit :=
  text ← read_file w (config_file args);
  config ← lift (yaml_safe_load text);
  app_config ← lift (AppConfig_of config);
  let influx_config := influxdb app_config in
  let cbase_config := cbase app_config in
  collect_data w API_KEY cbase_config influx_config (dry_run args).

(** [main], after [parse_args] has returned [app_args]. *)
Definition main (w : World) (API_KEY : string) (app_args : AppArgs) : prog unit :=
  match csv_file app_args with
  | Some path =>
      if bool_decide (path ≠ "") then
        csv_text ← read_file w path;
        points ← lift (csv_to_influxdb_points csv_text);
        emit (Print (repr_list (model_dump_json <$> points)))
      else run w API_KEY app_args
  | None => run w API_KEY app_args
  end.

(** The module run as a script: the import reads the API key from the
    environment, then [main] runs. *)
Definition script (w : World) (app_args : AppArgs) : prog unit :=
  match environ w !! "CBASE_API_KEY" with
  | None => lift (Raise (KeyError "CBASE_API_KEY"))
  | Some API_KEY => main w API_KEY app_args
  end.

End Run.

(** ** A sample of the libraries

    The theorems below hold for every [PyLibs].  The examples need one to
    compute with: [sample_libs] reads and writes the plain decimal
    numerals and the plain date-times of the examples as Python does, and
    treats every other text as invalid. *)

Module Sample.

Definition digit_value (c : ascii) : option Z :=
  let n := nat_of_ascii c in
  if bool_decide (48 ≤ n)%nat && bool_decide (n ≤ 57)%nat then Some (Z.of_nat n - 48) else None.

(** The value of a non-empty run of decimal digits. *)
Fixpoint digits_from (acc : Z) (s : string) : option Z :=
  match s with
  | EmptyString => Some acc
  | String c s' => d ← digit_value c; digits_from (10 * acc + d) s'
  end.

Definition digits (s : string) : option Z :=
  if bool_decide (s = "") then None else digits_from 0 s.

(** An optional sign, then the rest. *)
Definition signed (s : string) : bool * string :=
  match s with
  | String "-" s' => (true, s')
  | String "+" s' => (false, s')
  | _ => (false, s)
  end.

(** [sign digits]: an integer numeral. *)
Definition int_of_str (s : string) : option Z :=
  let (neg, body) := signed s in
  z ← digits body;
  Some (if neg then - z else z).

Fixpoint split_at_dot (s : string) : string * option string :=
  match s with
  | EmptyString => ("", None)
  | String "." s' => ("", Some s')
  | String c s' => let r := split_at_dot s' in (String c (fst r), snd r)
  end.

(** [sign digits] or [sign digits . digits] with at most 15 digits in all:
    the quotient of two floats that are exact, so the nearest float to the
    numeral's value. *)
Definition float_of_decimal (s : string) : option float :=
  let (neg, body) := signed s in
  let (int_part, frac) := split_at_dot body in
  let frac_part := from_option id "" frac in
  if bool_decide (frac = Some "") then None
  else if bool_decide (15 < String.length int_part + String.length frac_part)%nat then None
  else
    m ← digits (int_part +:+ frac_part);
    let x := (Z_to_float m / Z_to_float (10 ^ Z.of_nat (String.length frac_part)))%float in
    Some (if neg then (- x)%float else x).

Fixpoint zeros (n : nat) : string :=
  match n with
  | O => ""
  | S n' => String "0" (zeros n')
  end.

(** [s.zfill(width)] for a run of digits. *)
Definition pad_left (width : nat) (s : string) : string :=
  zeros (width - String.length s)%nat +:+ s.

(** The shortest [digits . digits] numeral with at most six decimals that
    reads back as the float; [nan] when there is none. *)
Fixpoint decimal_of_float_from (k : nat) (fuel : nat) (f : float) : string :=
  match fuel with
  | O => "nan"
  | S fuel' =>
      let scale := Z_to_float (10 ^ Z.of_nat k) in
      match float_to_Z (PrimFloat.abs f * scale)%float with
      | Some m =>
          if PrimFloat.eqb (Z_to_float m / scale)%float (PrimFloat.abs f)
          then (if PrimFloat.ltb f 0 then "-" else "")
               +:+ pretty (m / 10 ^ Z.of_nat k) +:+ "."
               +:+ (if bool_decide (k = 0)%nat then "0"
                    else pad_left k (pretty (m mod 10 ^ Z.of_nat k)))
          else decimal_of_float_from (S k) fuel' f
      | None => decimal_of_float_from (S k) fuel' f
      end
  end.

Definition decimal_of_float (f : float) : string := decimal_of_float_from 0 7 f.

Definition two (s : string) (i : nat) : option Z := digits (substring i 2 s).

(** [YYYY-MM-DD HH:MM:SS], with a blank or a [T] in the middle, for the
    days 1 to 28 of a month. *)
Definition datetime_of_str (s : string) : option datetime :=
  if bool_decide (String.length s = 19)%nat
     && bool_decide (substring 4 1 s = "-") && bool_decide (substring 7 1 s = "-")
     && (bool_decide (substring 10 1 s = " ") || bool_decide (substring 10 1 s = "T"))
     && bool_decide (substring 13 1 s = ":") && bool_decide (substring 16 1 s = ":")
  then
    y ← digits (substring 0 4 s);
    mo ← two s 5; d ← two s 8; h ← two s 11; mi ← two s 14; se ← two s 17;
    if bool_decide (1 ≤ mo ≤ 12) && bool_decide (1 ≤ d ≤ 28)
       && bool_decide (h ≤ 23) && bool_decide (mi ≤ 59) && bool_decide (se ≤ 59)
    then Some (mk_datetime y mo d h mi se 0 None)
    else None
  else None.

(** [YYYY-MM-DDTHH:MM:SS] for a naive date-time without microseconds. *)
Definition isoformat (d : datetime) : string :=
  pad_left 4 (pretty (year d)) +:+ "-" +:+ pad_left 2 (pretty (month d)) +:+ "-"
  +:+ pad_left 2 (pretty (day d)) +:+ "T" +:+ pad_left 2 (pretty (hour d)) +:+ ":"
  +:+ pad_left 2 (pretty (minute d)) +:+ ":" +:+ pad_left 2 (pretty (second d)).

(** The configuration file of the examples. *)
Definition config_yaml : string :=
  join (String "010" "") [
    "influxdb:";
    "  host: localhost";
    "  retention_policy: null";
    "cbase:";
    "  api_host: api.example.org";
    "  system:";
    "    latitude: 60.25";
    "    longitude: 24.5";
    "    slope: 30";
    "    azimuth: 180";
    "    panel_output: 300";
    "    panel_quantity: 12";
    ""
  ].

Definition config_document : pyval :=
  PDict {[
    "influxdb" := PDict {[ "host" := PStr "localhost"; "retention_policy" := PNone ]};
    "cbase" := PDict {[
      "api_host" := PStr "api.example.org";
      "system" := PDict {[
        "latitude" := PFloat 60.25%float;
        "longitude" := PFloat 24.5%float;
        "slope" := PInt 30;
        "azimuth" := PInt 180;
        "panel_output" := PInt 300;
        "panel_quantity" := PInt 12
      ]}
    ]}
  ]}.

Definition safe_load (text : string) : result pyval :=
  if bool_decide (text = config_yaml) then Ok config_document else Raise YAMLError.

End Sample.

Definition sample_libs : PyLibs := {|
  float_of_str := Sample.float_of_decimal;
  str_as_float := Sample.float_of_decimal;
  str_as_int := Sample.int_of_str;
  str_as_datetime := Sample.datetime_of_str;
  float_to_json := Sample.decimal_of_float;
  datetime_isoformat := Sample.isoformat;
  float_str := Sample.decimal_of_float;
  yaml_safe_load := Sample.safe_load
|}.

(** * Definitions for the statements *)

(** A value of the annotated type. *)
Fixpoint isinstance (t : annotation) (v : pyval) : Prop :=
  match t with
  | Tstr => ∃ s, v = PStr s
  | Tint => ∃ z, v = PInt z
  | Tfloat => ∃ x, v = PFloat x
  | Tdatetime => ∃ d, v = PDatetime d
  | TCBaseTrackingParam => ∃ e, v = PEnum e
  | TOptional t' => v = PNone ∨ isinstance t' v
  end.

(** The names of the fields that must hold a number, and of the two that
    may hold the marker [NA]. *)
Definition required_float_names : list string := [
  "temp_avg"; "wind_avg"; "cl_tot"; "cl_low"; "cl_med"; "cl_high"; "prec_amt"; "s_glob";
  "s_dif"; "s_dir_hor"; "s_dir"; "s_sw_net"; "solar_angle_vs_panel"; "albedo"; "s_glob_pv";
  "s_ground_dif_pv"; "s_dir_pv"; "s_dif_pv"; "pv_po"
].

Definition nullable_names : list string := ["pv_T"; "pv_eta"].

(** Plain CSV text: fields without a comma, a double quote or a line
    break, no longer than the reader's limit; rows of such fields, the row
    of one empty field apart (its line is empty, and an empty line is no
    row); each row on a line of its own. *)
Definition plain_char (c : ascii) : bool :=
  negb (is_linebreak c)
  && negb (bool_decide (c = csv.delimiter)) && negb (bool_decide (c = csv.quotechar)).

Fixpoint plain_chars (s : string) : bool :=
  match s with
  | EmptyString => true
  | String c s' => plain_char c && plain_chars s'
  end.

Definition plain_field (s : string) : Prop :=
  plain_chars s = true ∧ Z.of_nat (String.length s) ≤ csv.field_limit.

Definition plain_row (row : list string) : Prop :=
  Forall plain_field row ∧ row ≠ [""].

Definition csv_lines (rows : list (list string)) : string :=
  join (String "010" "") ((join "," <$> rows) ++ [""]).

(** The fields of a point as a map. *)
Definition fields_map (p : InfluxDBPoint) : gmap string float := list_to_map (fields p).

(** The instance [CBaseResponseData] builds from its validated values. *)
Definition weather_record (t : datetime) (xs : list float) (pv_T pv_eta : pyval) : instance :=
  (("Time_UTC", PDatetime t) :: zip required_float_names (PFloat <$> xs))
  ++ [("pv_T", pv_T); ("pv_eta", pv_eta)].

(** The value a float-or-[None] attribute gives to the fields. *)
Definition float_of_attr (v : pyval) : option float :=
  match v with
  | PFloat x => Some x
  | _ => None
  end.

Section Statements.
Context `{PyLibs}.

(** A malformed row: text that is no number in a required field, text
    that is neither [NA] nor a number in a nullable field, or text that is
    no date-time in the timestamp column. *)
Definition malformed (row : gmap (option string) pyval) : Prop :=
  (∃ n s, n ∈ required_float_names ∧ row !! Some n = Some (PStr s) ∧ str_as_float s = None)
  ∨ (∃ n s, n ∈ nullable_names ∧ row !! Some n = Some (PStr s)
       ∧ s ≠ "NA" ∧ float_of_str s = None)
  ∨ (∃ s, row !! Some "Time.UTC" = Some (PStr s) ∧ str_as_datetime s = None).

(** The text of the cell a row holds under a column's name. *)
Definition cell (row : gmap (option string) pyval) (n : string) : option string :=
  match row !! Some n with
  | Some (PStr s) => Some s
  | _ => None
  end.

(** What the text of a nullable column stands for: [None] for the marker
    [NA], else the float the text is a numeral of. *)
Definition nullable_cell (s : string) : option pyval :=
  if String.eqb s "NA" then Some PNone else PFloat <$> float_of_str s.

(** A well-formed row, by the text of its cells: no surplus field, a
    date-time in the timestamp column, a number in each of the nineteen
    numeric columns, and [NA] or a number in the two nullable columns. *)
Definition well_formed (row : gmap (option string) pyval) : Prop :=
  row !! None = None
  ∧ (∃ s d, row !! Some "Time.UTC" = Some (PStr s) ∧ str_as_datetime s = Some d)
  ∧ (∀ n, n ∈ required_float_names →
       ∃ s x, row !! Some n = Some (PStr s) ∧ str_as_float s = Some x)
  ∧ (∀ n, n ∈ nullable_names →
       ∃ s, row !! Some n = Some (PStr s) ∧ (s = "NA" ∨ ∃ x, float_of_str s = Some x)).

(** The record a row stands for, read off the text of its cells. *)
Definition record_of_row (row : gmap (option string) pyval) : option instance :=
  t ← cell row "Time.UTC" ≫= str_as_datetime;
  xs ← mapM (λ n, cell row n ≫= str_as_float) required_float_names;
  pv_T ← cell row "pv_T" ≫= nullable_cell;
  pv_eta ← cell row "pv_eta" ≫= nullable_cell;
  Some (weather_record t xs pv_T pv_eta).

(** The point of a validated record: the constants, the record's
    timestamp, and the other attributes that are not [None], each under
    its name, in the order of the declaration. *)
Definition point_of_record (data : instance) (p : InfluxDBPoint) : Prop :=
  measurement p = "cbase"
  ∧ tags p = Some [("system", "home")]
  ∧ getattr data "Time_UTC" = Some (PDatetime (time p))
  ∧ fields p =
      omap (λ n, x ← getattr data n ≫= float_of_attr; Some (n, x))
        (required_float_names ++ nullable_names)%list.

End Statements.

(** What the specification calls a JSON array of point objects: the
    points' JSON objects between brackets, separated by commas. *)
Definition json_array_of_points `{PyLibs} (points : list InfluxDBPoint) : string :=
  "[" +:+ join "," (model_dump_json <$> points) +:+ "]".

Definition is_blank (c : ascii) : bool :=
  bool_decide (c = " "%char) || bool_decide (c = "009"%char)
  || bool_decide (c = "010"%char) || bool_decide (c = "013"%char).

Fixpoint skip_blanks (s : string) : string :=
  match s with
  | String c s' => if is_blank c then skip_blanks s' else s
  | EmptyString => s
  end.

(** How every JSON array of objects opens: a bracket, then, blanks apart,
    a brace or the closing bracket. *)
Definition opens_array_of_objects (text : string) : bool :=
  match skip_blanks text with
  | String "[" s =>
      match skip_blanks s with
      | String "{" _ => true
      | String "]" _ => true
      | _ => false
      end
  | _ => false
  end.


(** ** The inputs of the examples *)

Module Examples.

(** Writes the double quote for each backquote, so that the texts of the
    examples can be read. *)
Fixpoint quoted (s : string) : string :=
  match s with
  | EmptyString => EmptyString
  | String c s' => String (if bool_decide (c = "`"%char) then "034"%char else c) (quoted s')
  end.

(** The header of the CSV text: the timestamp column and the model's
    fields. *)
Definition fieldnames : list string :=
  "Time.UTC" :: required_float_names ++ nullable_names.

(** A row without the panel temperature, a row with all the values and a
    row whose average temperature is no number. *)
Definition row_1 : list string := [
  "2024-06-01 12:00:00"; "18.5"; "3.25"; "50"; "10"; "20"; "30"; "0"; "600"; "200"; "400";
  "500"; "450"; "35.5"; "0.25"; "650"; "10"; "450"; "190"; "2500"; "NA"; "3.2"
].

Definition row_2 : list string := [
  "2024-06-01 13:00:00"; "19"; "2.5"; "40"; "10"; "10"; "30"; "0.5"; "620"; "210"; "410";
  "510"; "460"; "30"; "0.25"; "660"; "10"; "460"; "190"; "2600"; "41.5"; "3.25"
].

Definition row_bad : list string := [
  "2024-06-01 14:00:00"; "n/a"; "2.5"; "40"; "10"; "10"; "30"; "0.5"; "620"; "210"; "410";
  "510"; "460"; "30"; "0.25"; "660"; "10"; "460"; "190"; "2600"; "41.5"; "3.25"
].

Definition csv_text : string := csv_lines [fieldnames; row_1; row_2].
Definition csv_text_one_row : string := csv_lines [fieldnames; row_1].
Definition csv_text_bad : string := csv_lines [fieldnames; row_1; row_bad; row_2].

(** The records and the points of the two rows. *)
Definition record_1 : instance :=
  weather_record (mk_datetime 2024 6 1 12 0 0 0 None)
    [18.5; 3.25; 50; 10; 20; 30; 0; 600; 200; 400; 500; 450; 35.5; 0.25; 650; 10; 450; 190;
     2500]%float
    PNone (PFloat 0x1.999999999999ap+1%float).

Definition record_2 : instance :=
  weather_record (mk_datetime 2024 6 1 13 0 0 0 None)
    [19; 2.5; 40; 10; 10; 30; 0.5; 620; 210; 410; 510; 460; 30; 0.25; 660; 10; 460; 190;
     2600]%float
    (PFloat 41.5%float) (PFloat 3.25%float).

Definition point_1 : InfluxDBPoint := {|
  measurement := "cbase";
  tags := Some [("system", "home")];
  fields := zip required_float_names
              [18.5; 3.25; 50; 10; 20; 30; 0; 600; 200; 400; 500; 450; 35.5; 0.25; 650; 10;
               450; 190; 2500]%float
            ++ [("pv_eta", 0x1.999999999999ap+1%float)];
  time := mk_datetime 2024 6 1 12 0 0 0 None
|}.

Definition point_2 : InfluxDBPoint := {|
  measurement := "cbase";
  tags := Some [("system", "home")];
  fields := zip required_float_names
              [19; 2.5; 40; 10; 10; 30; 0.5; 620; 210; 410; 510; 460; 30; 0.25; 660; 10;
               460; 190; 2600]%float
            ++ [("pv_T", 41.5%float); ("pv_eta", 3.25%float)];
  time := mk_datetime 2024 6 1 13 0 0 0 None
|}.

(** The line the script prints for the file with the first row alone. *)
Definition printed_one_row : string :=
  quoted ("['{`measurement`:`cbase`,`tags`:{`system`:`home`},`fields`:{`temp_avg`:18.5,"
    +:+ "`wind_avg`:3.25,`cl_tot`:50.0,`cl_low`:10.0,`cl_med`:20.0,`cl_high`:30.0,"
    +:+ "`prec_amt`:0.0,`s_glob`:600.0,`s_dif`:200.0,`s_dir_hor`:400.0,`s_dir`:500.0,"
    +:+ "`s_sw_net`:450.0,`solar_angle_vs_panel`:35.5,`albedo`:0.25,`s_glob_pv`:650.0,"
    +:+ "`s_ground_dif_pv`:10.0,`s_dir_pv`:450.0,`s_dif_pv`:190.0,`pv_po`:2500.0,"
    +:+ "`pv_eta`:3.2},`time`:`2024-06-01T12:00:00`}']").

(** The system parameters of the examples. *)
Definition system_params : gmap string pyval :=
  {[ "latitude" := PFloat 60.25%float; "longitude" := PFloat 24.5%float;
     "slope" := PInt 30; "azimuth" := PInt 180;
     "panel_output" := PInt 300; "panel_quantity" := PInt 12 ]}.

Definition system : instance := [
  ("latitude", PFloat 60.25%float); ("longitude", PFloat 24.5%float); ("slope", PInt 30);
  ("azimuth", PInt 180); ("tracking", PEnum FIXED); ("panel_output", PInt 300);
  ("panel_quantity", PInt 12); ("inverter_capacity", PInt 0)
].

(** What the YAML loader returns for a configuration file with these
    system parameters. *)
Definition config_with (system : gmap string pyval) : pyval :=
  PDict {[
    "influxdb" := PDict {[ "host" := PStr "localhost"; "retention_policy" := PNone ]};
    "cbase" := PDict {[ "api_host" := PStr "api.example.org"; "system" := PDict system ]}
  ]}.

(** A world with the API key, the configuration file and a CSV file, in
    which the API answers with the CSV text and the database takes the
    write. *)
Definition world (csv : string) : World := {|
  environ := {[ "CBASE_API_KEY" := "secret" ]};
  files := {[ "config.yaml" := Sample.config_yaml; "data.csv" := csv ]};
  http_get := λ _ _, Ok (Ok csv);
  influx_write := λ _ _, Ok ()
|}.

End Examples.

(** ** Definitions for further statements *)

(** The traces a run of the script can leave: nothing, when the import
    fails; the opening of one file; then either the printed line, or the
    request, its log, and the dry-run log or the write, and the closing of
    the session. *)
Inductive trace_shape : list event → Prop :=
  | shape_nothing : trace_shape []
  | shape_opened path : trace_shape [Open path]
  | shape_printed path text : trace_shape [Open path; Print text]
  | shape_requested path url query : trace_shape [Open path; Get url query]
  | shape_answered path url query :
      trace_shape [Open path; Get url query; Log response_logged]
  | shape_dry_run path url query body :
      trace_shape [Open path; Get url query; Log response_logged;
                   Log (send_data_dry_run body); Close]
  | shape_write_failed path url query body policy :
      trace_shape [Open path; Get url query; Log response_logged; WritePoints body policy]
  | shape_written path url query body policy :
      trace_shape [Open path; Get url query; Log response_logged; WritePoints body policy;
                   Close].

(** The columns of the CSV text: the keys [CBaseResponseData] reads. *)
Definition column_names : list string :=
  "Time.UTC" :: required_float_names ++ nullable_names.

(** The prefix a nested model's errors get. *)
Definition located (path : list string) (e : line_error) : line_error :=
  mk_line_error (path ++ loc e) (type e).

(** The query string's parameters, as the HTTP client writes them. *)
Definition query_of `{PyLibs} (params : list (string * pyval)) : result (list (string * string)) :=
  comprehension (λ kv, (fst kv,.) <$> query_var (snd kv)) params.

(** The errors of the fields of a model on an input, in the fields'
    order. *)
Definition field_errors `{PyLibs} (m : BaseModel) (kw : gmap string pyval) : list line_error :=
  omap (λ f, match validate_field m f kw with
             | Invalid t => Some (mk_line_error [validation_key f] t)
             | _ => None
             end) (model_fields m).

(** Further inputs of the examples. *)
Module Cases.

(** A row with a field too many and a row that stops after the average
    temperature. *)
Definition row_long : list string := (Examples.row_1 ++ ["7"])%list.
Definition row_short : list string := ["2024-06-01 15:00:00"; "18.5"].

Definition csv_text_long : string := csv_lines [column_names; Examples.row_1; row_long].
Definition csv_text_short : string := csv_lines [column_names; Examples.row_1; row_short].

(** A configuration with two errors: no retention policy, and a latitude
    of 95. *)
Definition influxdb_section : gmap string pyval := {[ "host" := PStr "localhost" ]}.
Definition system_section : gmap string pyval :=
  <["latitude" := PInt 95]> Examples.system_params.
Definition cbase_section : gmap string pyval :=
  {[ "api_host" := PStr "api.example.org"; "system" := PDict system_section ]}.
Definition config : gmap string pyval :=
  {[ "influxdb" := PDict influxdb_section; "cbase" := PDict cbase_section ]}.

(** What the configuration file of the examples loads as. *)
Definition app_config : AppConfig := {|
  influxdb := [("host", PStr "localhost"); ("port", PInt 8086); ("database", PStr "cbase");
               ("retention_policy", PNone)];
  cbase := {| api_host := "api.example.org"; system := Examples.system |}
|}.

(** The system of the examples with the tracking mode of code 2. *)
Definition system_x_axis : instance := [
  ("latitude", PFloat 60.25%float); ("longitude", PFloat 24.5%float); ("slope", PInt 30);
  ("azimuth", PInt 180); ("tracking", PEnum X_AXIS_TRACKING); ("panel_output", PInt 300);
  ("panel_quantity", PInt 12); ("inverter_capacity", PInt 0)
].

(** The query of the request for the system of the examples. *)
Definition query : list (string * string) := [
  ("lat", "60.25"); ("lon", "24.5"); ("slope", "30"); ("azi", "180"); ("tracking", "0");
  ("panel_out", "300"); ("panel_qty", "12"); ("inv_cap", "0"); ("apikey", "secret")
].

(** The world of the examples with a database that refuses the write. *)
Definition world_write_fails : World := {|
  environ := {[ "CBASE_API_KEY" := "secret" ]};
  files := {[ "config.yaml" := Sample.config_yaml ]};
  http_get := λ _ _, Ok (Ok Examples.csv_text_one_row);
  influx_write := λ _ _, Raise InfluxDBClientError
|}.

End Cases.

(** * Properties *)

(** ** Results and comprehensions *)

Lemma bind_Ok {A B} (m : result A) (f : A → result B) (b : B) :
  m ≫= f = Ok b ↔ ∃ a, m = Ok a ∧ f a = Ok b.
Proof.
  destruct m as [a|e]; simpl; split.
  - intros Hf. exists a. done.
  - intros (a' & [= ->] & Hf). done.
  - done.
  - intros (a & [=] & _).
Qed.

Lemma comprehension_Ok {A B} (f : A → result B) (l : list A) (l' : list B) :
  comprehension f l = Ok l' ↔ Forall2 (λ x y, f x = Ok y) l l'.
Proof.
  revert l'. induction l as [|x l IH]; intros l'; simpl.
  - split.
    + intros [= <-]. constructor.
    + intros Hl. apply Forall2_nil_inv_l in Hl as ->. done.
  - split.
    + intros Hb. apply bind_Ok in Hb as (y & Hy & Hb).
      apply bind_Ok in Hb as (ys & Hys & [= <-]).
      constructor; [done | by apply IH].
    + intros Hl. apply Forall2_cons_inv_l in Hl as (y & ys & Hy & Hys & ->).
      apply IH in Hys. rewrite Hy. simpl. rewrite Hys. done.
Qed.

Lemma comprehension_Raise {A B} (f : A → result B) (l : list A) (x : A) (e : exn) :
  x ∈ l → f x = Raise e → ∃ e', comprehension f l = Raise e'.
Proof.
  intros Hin Hx. induction Hin as [x l|x y l Hin IH]; simpl.
  - rewrite Hx. eauto.
  - destruct (f y) as [b|e1]; simpl; [|eauto].
    destruct (IH Hx) as [e' ->]. eauto.
Qed.

(** ** Model validation *)

Section PydanticFacts.
Context `{PyLibs}.

Lemma check_bounds_Valid f v w :
  check_bounds f v = Valid w → w = v ∧ check_le f v = Valid v ∧ check_ge f v = Valid v.
Proof.
  unfold check_bounds, check_le, check_ge.
  destruct (le f) as [b|]; [destruct (le_holds b v)|]; simpl; try done;
    (destruct (ge f) as [c|]; [destruct (ge_holds c v)|]; simpl; try done);
    intros [= <-]; done.
Qed.

Lemma validate_annotation_isinstance t v w :
  validate_annotation t v = Valid w → isinstance t w.
Proof.
  revert v w. induction t as [| | | | |t IH]; intros v w; simpl.
  - destruct v; intros [= <-]; eauto.
  - destruct (as_int v); intros [= <-]; eauto.
  - destruct (as_float v); intros [= <-]; eauto.
  - destruct (as_datetime v); intros [= <-]; eauto.
  - destruct (as_tracking v); intros [= <-]; eauto.
  - destruct v; try (intros Hv; right; by eapply IH). intros [= <-]. by left.
Qed.

(** A field is valid either by its default, when its key is absent, or by
    a present value that passed the validators and the bounds. *)
Lemma validate_field_Valid m f kw w :
  validate_field m f kw = Valid w ↔
    (kw !! validation_key f = None ∧ default f = Some w)
    ∨ (∃ v v1, kw !! validation_key f = Some v
         ∧ run_before (before_validators m) (name f) v = Valid v1
         ∧ validate_annotation (ann f) v1 = Valid w
         ∧ check_le f w = Valid w ∧ check_ge f w = Valid w).
Proof.
  unfold validate_field. destruct (kw !! validation_key f) as [v|]; split.
  - intros Hv. right.
    destruct (run_before _ _ v) as [v1| |] eqn:Hb; simpl in Hv; try done.
    destruct (validate_annotation (ann f) v1) as [w1| |] eqn:Ha; simpl in Hv; try done.
    apply check_bounds_Valid in Hv as (-> & Hle & Hge). eauto 10.
  - intros [[? _]|(v' & v1 & [= <-] & -> & Ha & Hle & Hge)]; [done|].
    simpl. rewrite Ha. simpl. unfold check_bounds. rewrite Hle. done.
  - destruct (default f); [intros [= ->]; by left | done].
  - intros [[_ ->]|(v & v1 & ? & _)]; done.
Qed.

Lemma validate_field_present m f kw v :
  kw !! validation_key f = Some v →
  validate_field m f kw
  = and_then (run_before (before_validators m) (name f) v) (λ v1,
    and_then (validate_annotation (ann f) v1) (check_bounds f)).
Proof. intros Hk. unfold validate_field. by rewrite Hk. Qed.

Lemma validate_field_absent m f kw :
  kw !! validation_key f = None →
  validate_field m f kw = match default f with Some v => Valid v | None => Invalid missing end.
Proof. intros Hk. unfold validate_field. by rewrite Hk. Qed.

Lemma validate_field_missing m f kw :
  kw !! validation_key f = None → default f = None → validate_field m f kw = Invalid missing.
Proof. intros Hk Hd. unfold validate_field. rewrite Hk, Hd. done. Qed.

Lemma validate_fields_Ok m fs kw obj errs :
  validate_fields m fs kw = Ok (obj, errs) →
  errs = [] ↔ Forall2 (λ f nv, fst nv = name f ∧ validate_field m f kw = Valid (snd nv)) fs obj.
Proof.
  revert obj errs. induction fs as [|f fs IH]; intros obj errs; simpl.
  - intros [= <- <-]. split; [constructor | done].
  - destruct (validate_field m f kw) as [v|t|e] eqn:Hf; [| |done].
    + intros Hb. apply bind_Ok in Hb as ([obj' errs'] & Hfs & [= <- <-]).
      specialize (IH _ _ Hfs). simpl. split.
      * intros He. constructor; [done | by apply IH].
      * intros Hall. apply Forall2_cons_1 in Hall as [_ Hall]. by apply IH.
    + intros Hb. apply bind_Ok in Hb as ([obj' errs'] & Hfs & [= <- <-]).
      simpl. split; [done|].
      intros Hall. exfalso. specialize (IH _ _ Hfs).
      assert (Hlen : (length obj' ≤ length fs)%nat).
      { clear -Hfs. revert obj' errs' Hfs. induction fs as [|g fs IHfs]; intros obj' errs'; simpl.
        - intros [= <- <-]. done.
        - destruct (validate_field m g kw); [| |done]; intros Hb;
            apply bind_Ok in Hb as ([o e] & Hfs & [= <- <-]); simpl;
            specialize (IHfs _ _ Hfs); lia. }
      apply Forall2_length in Hall. simpl in Hall. lia.
Qed.

(** [Model( **kw )] returns an instance exactly when every field is valid;
    the instance holds the validated values under the fields' names. *)
Lemma model_init_Ok m kw obj :
  model_init m kw = Ok obj ↔
  Forall2 (λ f nv, fst nv = name f ∧ validate_field m f kw = Valid (snd nv)) (model_fields m) obj.
Proof.
  unfold model_init. split.
  - intros Hb. apply bind_Ok in Hb as ([obj' errs] & Hfs & Hm). simpl in Hm.
    destruct errs; [|done]. injection Hm as <-.
    by apply (validate_fields_Ok _ _ _ _ _ Hfs).
  - intros Hall.
    assert (Hfs : ∃ errs, validate_fields m (model_fields m) kw = Ok (obj, errs)).
    { clear -Hall. revert obj Hall. induction (model_fields m) as [|f fs IH]; intros obj Hall.
      - apply Forall2_nil_inv_l in Hall as ->. by exists [].
      - apply Forall2_cons_inv_l in Hall as ([n v] & obj' & [Hn Hv] & Hall & ->).
        simpl in *. destruct (IH _ Hall) as [errs Hfs]. rewrite Hv, Hfs. simpl.
        subst n. eauto. }
    destruct Hfs as [errs Hfs]. rewrite Hfs. simpl.
    apply (validate_fields_Ok _ _ _ _ _ Hfs) in Hall as ->. done.
Qed.

(** A field that is not valid makes the construction raise. *)
Lemma model_init_Raise m kw f :
  f ∈ model_fields m → (∀ v, validate_field m f kw ≠ Valid v) → ∃ e, model_init m kw = Raise e.
Proof.
  intros Hin Hf. destruct (model_init m kw) as [obj|e] eqn:Hm; [|eauto].
  exfalso. apply model_init_Ok in Hm.
  apply list_elem_of_lookup in Hin as [i Hi].
  destruct (Forall2_lookup_l _ _ _ _ _ Hm Hi) as (nv & _ & _ & Hv).
  by eapply Hf.
Qed.

(** The keys of the input that name no field's key do not matter. *)
Lemma validate_field_insert_ne m f kw k v :
  validation_key f ≠ k → validate_field m f (<[k := v]> kw) = validate_field m f kw.
Proof. intros Hne. unfold validate_field. by rewrite lookup_insert_ne. Qed.


(** A valid field holds a value of its annotation, provided its default
    does. *)
Lemma validate_field_isinstance m f kw w :
  (∀ d, default f = Some d → isinstance (ann f) d) →
  validate_field m f kw = Valid w → isinstance (ann f) w.
Proof.
  intros Hd Hv. apply validate_field_Valid in Hv as [[_ Hw]|(v & v1 & _ & _ & Ha & _)].
  - by apply Hd.
  - by eapply validate_annotation_isinstance.
Qed.

(** Every field valid is the same as the construction returning. *)
Lemma model_init_loads m kw :
  (∃ obj, model_init m kw = Ok obj)
  ↔ Forall (λ f, ∃ v, validate_field m f kw = Valid v) (model_fields m).
Proof.
  setoid_rewrite model_init_Ok. induction (model_fields m) as [|f fs IH].
  - split; [constructor | by exists []].
  - split.
    + intros (obj & Hall). apply Forall2_cons_inv_l in Hall as (nv & obj' & [_ Hv] & Hall & ->).
      constructor; [eauto | apply IH; eauto].
    + intros Hall. apply Forall_cons in Hall as [[v Hv] Hall].
      apply IH in Hall as [obj Hall]. exists ((name f, v) :: obj). by constructor.
Qed.

(** Changing the value under one field's key leaves the other fields as
    they were: the input loads again exactly when that field is valid. *)
Lemma model_init_insert m kw f v :
  f ∈ model_fields m →
  (∀ g, g ∈ model_fields m → validation_key g = validation_key f → g = f) →
  (∃ obj, model_init m kw = Ok obj) →
  (∃ obj, model_init m (<[validation_key f := v]> kw) = Ok obj)
  ↔ ∃ w, validate_field m f (<[validation_key f := v]> kw) = Valid w.
Proof.
  intros Hf Hkeys Hkw. rewrite model_init_loads in Hkw. rewrite model_init_loads.
  rewrite Forall_forall in Hkw. rewrite Forall_forall. split.
  - intros Hall. by apply Hall.
  - intros Hv g Hg. destruct (decide (validation_key g = validation_key f)) as [Heq|Hne].
    + by rewrite (Hkeys g Hg Heq).
    + rewrite validate_field_insert_ne by done. by apply Hkw.
Qed.

End PydanticFacts.

(** Takes a [Forall2] over a model's fields apart, one field at a time,
    and records the type of each validated value. *)
Ltac invert_fields H :=
  repeat match type of H with
  | Forall2 _ (_ :: _) _ =>
      let n := fresh "n" in let v := fresh "v" in
      let Hn := fresh "Hn" in let Hv := fresh "Hv" in
      apply Forall2_cons_inv_l in H as ([n v] & ? & [Hn Hv] & H & ->);
      simpl in Hn, Hv; subst n;
      let Ht := fresh "Ht" in
      pose proof Hv as Ht; apply validate_field_isinstance in Ht;
      [|simpl; intros ? ?; simplify_eq; simpl; eauto];
      simpl in Ht
  | Forall2 _ [] _ => apply Forall2_nil_inv_l in H as ->
  end.

(** ** The reader on plain text *)

Lemma plain_char_spec c :
  plain_char c = true →
  is_newline c = false ∧ is_linebreak c = false ∧ c ≠ csv.delimiter ∧ c ≠ csv.quotechar.
Proof.
  unfold plain_char. intros Hc.
  apply andb_prop in Hc as [Hc Hq]. apply andb_prop in Hc as [Hl Hd].
  apply negb_true_iff in Hl, Hd, Hq. apply bool_decide_eq_false in Hd, Hq.
  repeat split; try done.
  unfold is_newline. destruct (bool_decide (c = "010"%char)) eqn:H10.
  - apply bool_decide_eq_true in H10. subst c. done.
  - destruct (bool_decide (c = "013"%char)) eqn:H13; [|done].
    apply bool_decide_eq_true in H13. subst c. done.
Qed.

Lemma append_assoc (a b c : string) : (a +:+ b) +:+ c = a +:+ (b +:+ c).
Proof.
  induction a as [|x a IH]; [done|].
  change (String x ((a +:+ b) +:+ c) = String x (a +:+ (b +:+ c))). by rewrite IH.
Qed.

Lemma append_nil_r (a : string) : a +:+ "" = a.
Proof.
  induction a as [|x a IH]; [done|].
  change (String x (a +:+ "") = String x a). by rewrite IH.
Qed.

Lemma length_append (a b : string) :
  String.length (a +:+ b) = (String.length a + String.length b)%nat.
Proof.
  induction a as [|x a IH]; [done|].
  change (S (String.length (a +:+ b)) = S (String.length a + String.length b)).
  by rewrite IH.
Qed.

Lemma join_cons sep s l : l ≠ [] → join sep (s :: l) = s +:+ sep +:+ join sep l.
Proof. by destruct l. Qed.

Lemma parse_add_char_Ok self c :
  Z.of_nat (String.length (csv.field self)) < csv.field_limit →
  csv.parse_add_char self c
  = Ok (csv.mk_ReaderObj (csv.state self) (csv.fields self) (csv.field self +:+ String c "")).
Proof.
  intros Hlen. unfold csv.parse_add_char.
  destruct (Z.leb_spec csv.field_limit (Z.of_nat (String.length (csv.field self)))); [lia|done].
Qed.

Lemma parse_line_cons self c line :
  csv.parse_line self (String c line)
  = csv.parse_process_char self (Some c) ≫= λ self', csv.parse_line self' line.
Proof. done. Qed.

(** The steps of the parser on a plain character and on a comma. *)
Lemma step_in_field fs f c :
  plain_char c = true →
  Z.of_nat (String.length f) < csv.field_limit →
  csv.parse_process_char (csv.mk_ReaderObj csv.IN_FIELD fs f) (Some c)
  = Ok (csv.mk_ReaderObj csv.IN_FIELD fs (f +:+ String c "")).
Proof.
  intros Hc Hlen. apply plain_char_spec in Hc as (Hnl & _ & Hd & _).
  unfold csv.parse_process_char. cbn [csv.state]. rewrite Hnl.
  rewrite bool_decide_false by done. by rewrite parse_add_char_Ok.
Qed.

Lemma step_start_field fs c :
  plain_char c = true →
  csv.parse_process_char (csv.mk_ReaderObj csv.START_FIELD fs "") (Some c)
  = Ok (csv.mk_ReaderObj csv.IN_FIELD fs (String c "")).
Proof.
  intros Hc. apply plain_char_spec in Hc as (Hnl & _ & Hd & Hq).
  unfold csv.parse_process_char. cbn [csv.state]. rewrite Hnl.
  rewrite !bool_decide_false by done. by rewrite parse_add_char_Ok.
Qed.

Lemma step_comma_in_field fs f :
  csv.parse_process_char (csv.mk_ReaderObj csv.IN_FIELD fs f) (Some ","%char)
  = Ok (csv.mk_ReaderObj csv.START_FIELD (fs ++ [f]) "").
Proof. done. Qed.

Lemma step_comma_start_field fs :
  csv.parse_process_char (csv.mk_ReaderObj csv.START_FIELD fs "") (Some ","%char)
  = Ok (csv.mk_ReaderObj csv.START_FIELD (fs ++ [""]) "").
Proof. done. Qed.

Lemma step_start_record fs c :
  is_newline c = false →
  csv.parse_process_char (csv.mk_ReaderObj csv.START_RECORD fs "") (Some c)
  = csv.parse_process_char (csv.mk_ReaderObj csv.START_FIELD fs "") (Some c).
Proof. intros Hc. unfold csv.parse_process_char. cbn [csv.state]. by rewrite Hc. Qed.

(** Inside a field, plain characters are added to it. *)
Lemma parse_line_in_field s fs f tail :
  plain_chars s = true →
  Z.of_nat (String.length f + String.length s) ≤ csv.field_limit →
  csv.parse_line (csv.mk_ReaderObj csv.IN_FIELD fs f) (s +:+ tail)
  = csv.parse_line (csv.mk_ReaderObj csv.IN_FIELD fs (f +:+ s)) tail.
Proof.
  revert f. induction s as [|c s IH]; intros f Hs Hlen.
  - by rewrite append_nil_r.
  - cbn [plain_chars] in Hs. apply andb_prop in Hs as [Hc Hs].
    cbn [String.length] in Hlen.
    change (String c s +:+ tail) with (String c (s +:+ tail)).
    rewrite parse_line_cons, step_in_field by (done || lia).
    cbn [mbind result_bind]. rewrite IH; [|done|].
    + by rewrite append_assoc.
    + rewrite length_append. cbn [String.length]. lia.
Qed.

(** At the start of a field, a plain field is read up to the comma or the
    end of the line that follows it. *)
Lemma parse_line_field fld fs rest :
  plain_field fld →
  csv.parse_line (csv.mk_ReaderObj csv.START_FIELD fs "") (fld +:+ "," +:+ rest)
  = csv.parse_line (csv.mk_ReaderObj csv.START_FIELD (fs ++ [fld]) "") rest.
Proof.
  intros [Hs Hlen]. destruct fld as [|c s].
  - change ("" +:+ "," +:+ rest) with (String "," rest).
    by rewrite parse_line_cons, step_comma_start_field.
  - cbn [plain_chars] in Hs. apply andb_prop in Hs as [Hc Hs].
    cbn [String.length] in Hlen.
    change (String c s +:+ "," +:+ rest) with (String c (s +:+ String "," rest)).
    rewrite parse_line_cons, step_start_field by done. cbn [mbind result_bind].
    rewrite parse_line_in_field by (done || (cbn [String.length]; lia)).
    by rewrite parse_line_cons, step_comma_in_field.
Qed.

Lemma parse_line_last_field fld fs :
  plain_field fld →
  csv.parse_line (csv.mk_ReaderObj csv.START_FIELD fs "") fld
  = Ok (csv.mk_ReaderObj csv.START_RECORD (fs ++ [fld]) "").
Proof.
  intros [Hs Hlen]. destruct fld as [|c s]; [done|].
  cbn [plain_chars] in Hs. apply andb_prop in Hs as [Hc Hs].
  cbn [String.length] in Hlen.
  rewrite parse_line_cons, step_start_field by done. cbn [mbind result_bind].
  pose proof (parse_line_in_field s fs (String c "") "") as Hrun.
  rewrite append_nil_r in Hrun. by rewrite Hrun by (done || (cbn [String.length]; lia)).
Qed.

Lemma parse_line_fields row fs :
  row ≠ [] → Forall plain_field row →
  csv.parse_line (csv.mk_ReaderObj csv.START_FIELD fs "") (join "," row)
  = Ok (csv.mk_ReaderObj csv.START_RECORD (fs ++ row) "").
Proof.
  revert fs. induction row as [|fld row IH]; intros fs Hne Hrow; [done|].
  apply Forall_cons in Hrow as [Hfld Hrow].
  destruct row as [|fld' row].
  - by apply parse_line_last_field.
  - rewrite join_cons by done. rewrite parse_line_field by done.
    rewrite IH by done. by rewrite <- app_assoc.
Qed.

(** A line of plain fields is read as the row of these fields. *)
Lemma parse_line_row row :
  plain_row row →
  csv.parse_line csv.parse_reset (join "," row)
  = Ok (csv.mk_ReaderObj csv.START_RECORD row "").
Proof.
  intros [Hrow Hne]. destruct row as [|fld row]; [done|].
  transitivity (csv.parse_line (csv.mk_ReaderObj csv.START_FIELD [] "")
                  (join "," (fld :: row)));
    [|by apply (parse_line_fields (fld :: row) [])].
  destruct (join "," (fld :: row)) as [|c line] eqn:Hline.
  - exfalso. destruct row as [|fld' row].
    + cbn in Hline. by subst.
    + rewrite join_cons in Hline by done. by destruct fld.
  - assert (Hc : is_newline c = false).
    { apply Forall_cons in Hrow as [[Hfld _] _]. destruct row as [|fld' row].
      - cbn in Hline. subst fld. cbn [plain_chars] in Hfld.
        apply andb_prop in Hfld as [Hc _]. by apply plain_char_spec in Hc as [? _].
      - rewrite join_cons in Hline by done. destruct fld as [|c' s].
        + by injection Hline as <- _.
        + injection Hline as <- _. cbn [plain_chars] in Hfld.
          apply andb_prop in Hfld as [Hc _]. by apply plain_char_spec in Hc as [? _]. }
    unfold csv.parse_reset. by rewrite !parse_line_cons, step_start_record.
Qed.

Lemma read_records_rows rows :
  Forall plain_row rows →
  csv.read_records csv.parse_reset (join "," <$> rows) = (rows, None).
Proof.
  induction 1 as [|row rows Hrow _ IH]; [done|].
  rewrite fmap_cons. cbn [csv.read_records]. rewrite parse_line_row by done.
  cbn [csv.state csv.fields]. rewrite bool_decide_true by done. by rewrite IH.
Qed.

(** A line of plain fields has no line break. *)
Lemma plain_row_line row :
  Forall plain_field row →
  ∀ c, c ∈ list_ascii_of_string (join "," row) → is_linebreak c = false.
Proof.
  assert (Hchars : ∀ s, plain_chars s = true →
            ∀ c, c ∈ list_ascii_of_string s → is_linebreak c = false).
  { induction s as [|x s IH]; simpl; intros Hs c Hc; [by apply elem_of_nil in Hc|].
    apply andb_prop in Hs as [Hx Hs]. apply elem_of_cons in Hc as [->|Hc].
    - by apply plain_char_spec in Hx as (_ & ? & _).
    - by apply IH. }
  assert (Happ : ∀ a b c, c ∈ list_ascii_of_string (a +:+ b) →
            c ∈ list_ascii_of_string a ∨ c ∈ list_ascii_of_string b).
  { induction a as [|x a IH]; simpl; intros b c Hc; [by right|].
    apply elem_of_cons in Hc as [->|Hc]; [left; by left|].
    destruct (IH _ _ Hc); [left; by right | by right]. }
  induction 1 as [|fld row [Hfld _] Hrow IH]; intros c Hc; [by apply elem_of_nil in Hc|].
  destruct row as [|fld' row].
  - simpl in Hc. by eapply Hchars.
  - rewrite join_cons in Hc by done.
    apply Happ in Hc as [Hc|Hc]; [by eapply Hchars|].
    apply Happ in Hc as [Hc|Hc]; [|by apply IH].
    simpl in Hc. apply elem_of_cons in Hc as [->|Hc]; [done | by apply elem_of_nil in Hc].
Qed.

(** Lines without a line break, each ended by a line feed, are split
    into these lines. *)
Lemma splitlines_from_line line acc rest :
  (∀ c, c ∈ list_ascii_of_string line → is_linebreak c = false) →
  splitlines_from (line +:+ String "010" rest) acc = (acc +:+ line) :: splitlines_from rest "".
Proof.
  revert acc. induction line as [|c line IH]; intros acc Hline; simpl.
  - by rewrite append_nil_r.
  - assert (Hc : is_linebreak c = false) by (apply Hline; simpl; by left).
    rewrite bool_decide_false.
    + rewrite Hc. rewrite IH.
      * by rewrite append_assoc.
      * intros c' Hc'. apply Hline. simpl. by right.
    + intros ->. done.
Qed.

Lemma splitlines_lines ls :
  Forall (λ line, ∀ c, c ∈ list_ascii_of_string line → is_linebreak c = false) ls →
  splitlines (join (String "010" "") (ls ++ [""])) = ls.
Proof.
  unfold splitlines. induction 1 as [|line ls Hline _ IH]; [done|].
  change ((line :: ls) ++ [""])%list with (line :: (ls ++ [""]))%list.
  rewrite join_cons by (by destruct ls).
  change (String "010" "" +:+ ?s) with (String "010" s).
  rewrite splitlines_from_line by done. simpl. by rewrite IH.
Qed.

(** The reader on plain CSV text yields its rows. *)
Lemma reader_csv_lines rows :
  Forall plain_row rows → csv.reader (splitlines (csv_lines rows)) = (rows, None).
Proof.
  intros Hrows. unfold csv_lines, csv.reader. rewrite splitlines_lines.
  - by apply read_records_rows.
  - apply Forall_fmap. eapply Forall_impl; [done|].
    intros row [Hrow _]. exact (plain_row_line row Hrow).
Qed.

(** ** Reading the CSV text *)

Lemma lookup_str_keys (d : gmap (option string) pyval) (k : string) :
  str_keys d !! k = d !! Some k.
Proof.
  unfold str_keys.
  set (f := λ kv : option string * pyval, k' ← fst kv; Some (k', snd kv)).
  assert (Hnd : ∀ l : list (option string * pyval), NoDup (fst <$> l) → NoDup (fst <$> omap f l)).
  { induction l as [|[[k1|] v1] l IH]; simpl; intros Hl; [constructor | |].
    - apply NoDup_cons in Hl as [Hk1 Hl]. apply NoDup_cons. split; [|by apply IH].
      intros Hin. apply Hk1.
      apply list_elem_of_fmap in Hin as ([k2 v2] & -> & Hin).
      apply list_elem_of_omap in Hin as ([[k3|] v3] & Hin & Hf); [|done].
      injection Hf as -> ->. apply list_elem_of_fmap. by exists (Some k2, v2).
    - apply NoDup_cons in Hl as [_ Hl]. by apply IH. }
  apply option_eq. intros v.
  rewrite <- elem_of_list_to_map by apply Hnd, NoDup_fst_map_to_list.
  rewrite list_elem_of_omap. split.
  - intros ([[k1|] v1] & Hin & Hf); [|done]. injection Hf as -> ->.
    by apply elem_of_map_to_list in Hin.
  - intros Hd. exists (Some k, v). split; [by apply elem_of_map_to_list | done].
Qed.

(** A row without a value names no text: [row_dict] binds every field
    name to [None]. *)
Lemma foldl_restval_lookup (l : list string) (d : gmap (option string) pyval) k v :
  foldl (λ d k, <[Some k := PNone]> d) d l !! k = Some v → v = PNone ∨ d !! k = Some v.
Proof.
  revert d. induction l as [|k1 l IH]; intros d; simpl; [by right|].
  intros Hl. apply IH in Hl as [->|Hl]; [by left|].
  destruct (decide (Some k1 = k)) as [<-|Hne].
  - rewrite lookup_insert_eq in Hl. injection Hl as <-. by left.
  - rewrite lookup_insert_ne in Hl by done. by right.
Qed.

Lemma row_dict_nil_lookup (fieldnames : list string) k s :
  csv.row_dict fieldnames [] !! k ≠ Some (PStr s).
Proof.
  unfold csv.row_dict. replace (zip fieldnames []) with (@nil (string * string))
    by (by destruct fieldnames).
  simpl. destruct (bool_decide _).
  - intros Hl. apply foldl_restval_lookup in Hl as [?|Hl]; [done|].
    by rewrite lookup_empty in Hl.
  - by rewrite lookup_empty.
Qed.

Section CsvFacts.
Context `{PyLibs}.

Lemma CBaseResponseData_init_Ok row data :
  CBaseResponseData_init row = Ok data ↔
  row !! None = None ∧ model_init CBaseResponseData (str_keys row) = Ok data.
Proof.
  unfold CBaseResponseData_init, unpack. destruct (row !! None); simpl; split.
  - done.
  - by intros [? _].
  - done.
  - by intros [_ ?].
Qed.

(** [parse_csv] returns the records exactly when the reader ends without
    an error and every row it yields validates, in the reader's order. *)
Lemma parse_csv_Ok csv_text data :
  parse_csv csv_text = Ok data ↔
  snd (csv.DictReader (splitlines csv_text)) = None
  ∧ Forall2 (λ row d, CBaseResponseData_init row = Ok d)
      (fst (csv.DictReader (splitlines csv_text))) data.
Proof.
  unfold parse_csv. rewrite bind_Ok. split.
  - intros (d & Hd & He). destruct (snd (csv.DictReader _)); [done|].
    injection He as <-. split; [done | by apply comprehension_Ok].
  - intros [He Hd]. exists data. rewrite He. split; [by apply comprehension_Ok | done].
Qed.

Lemma malformed_Raise row :
  malformed row → ∃ e, CBaseResponseData_init row = Raise e.
Proof.
  intros Hrow. unfold CBaseResponseData_init, unpack.
  destruct (row !! None); simpl; [eauto|].
  destruct Hrow as [(n & s & Hn & Hs & Hf)|[(n & s & Hn & Hs & Hna & Hf)|(s & Hs & Hd)]].
  - apply (model_init_Raise _ _ (Field n Tfloat [])).
    + unfold required_float_names in Hn.
      repeat (apply elem_of_cons in Hn as [->|Hn]; [simpl; repeat constructor|]).
      by apply elem_of_nil in Hn.
    + intros v. unfold validate_field. simpl.
      change (validation_key (Field n Tfloat [])) with n.
      rewrite lookup_str_keys, Hs.
      change (name (Field n Tfloat [])) with n.
      destruct (bool_decide (n ∈ ["pv_T"; "pv_eta"])) eqn:Hb.
      * exfalso. apply bool_decide_eq_true in Hb. unfold required_float_names in Hn.
        repeat (apply elem_of_cons in Hb as [->|Hb];
                [by repeat (apply elem_of_cons in Hn as [?|Hn]; [done|]);
                    apply elem_of_nil in Hn|]).
        by apply elem_of_nil in Hb.
      * simpl. by rewrite Hf.
  - apply (model_init_Raise _ _ (Field n (TOptional Tfloat) [])).
    + unfold nullable_names in Hn.
      repeat (apply elem_of_cons in Hn as [->|Hn]; [simpl; repeat constructor|]).
      by apply elem_of_nil in Hn.
    + intros v. unfold validate_field. simpl.
      change (validation_key (Field n (TOptional Tfloat) [])) with n.
      rewrite lookup_str_keys, Hs.
      change (name (Field n (TOptional Tfloat) [])) with n.
      rewrite bool_decide_true by done. simpl.
      unfold CBaseResponseData_parse_na. simpl.
      assert (String.eqb s "NA" = false) as -> by by apply String.eqb_neq.
      simpl. by rewrite Hf.
  - apply (model_init_Raise _ _ (Field "Time_UTC" Tdatetime [alias_ "Time.UTC"])).
    + simpl. repeat constructor.
    + intros v. unfold validate_field. simpl.
      change (validation_key _) with "Time.UTC".
      rewrite lookup_str_keys, Hs. simpl. by rewrite Hd.
Qed.

(** C3: a malformed row anywhere in the input makes [parse_csv] raise: no
    list of records, complete or partial, is returned. *)
Theorem parse_csv_aborts_on_malformed_row (csv_text : string)
    (fieldnames : list string) (rows : list (list string)) (err : option exn)
    (row : list string) :
  csv.reader (splitlines csv_text) = (fieldnames :: rows, err) →
  row ∈ rows →
  malformed (csv.row_dict fieldnames row) →
  ∃ e, parse_csv csv_text = Raise e.
Proof.
  intros Hreader Hin Hrow.
  assert (Hne : row ≠ []).
  { intros ->. destruct Hrow as [(n & s & _ & Hs & _)|[(n & s & _ & Hs & _)|(s & Hs & _)]];
      by apply row_dict_nil_lookup in Hs. }
  destruct (malformed_Raise _ Hrow) as [e He].
  unfold parse_csv, csv.DictReader. rewrite Hreader. simpl.
  destruct (comprehension_Raise CBaseResponseData_init
              (csv.row_dict fieldnames <$> filter (λ row, row ≠ []) rows)
              (csv.row_dict fieldnames row) e) as [e' ->]; [|done|by eauto].
  apply list_elem_of_fmap. exists row. split; [done|].
  by apply list_elem_of_filter.
Qed.

(** What the validation makes of the text of a cell. *)
Lemma time_field_cell kw s d :
  kw !! "Time.UTC" = Some (PStr s) → str_as_datetime s = Some d →
  validate_field CBaseResponseData (Field "Time_UTC" Tdatetime [alias_ "Time.UTC"]) kw
  = Valid (PDatetime d).
Proof.
  intros Hkw Hd.
  rewrite (validate_field_present _ (Field "Time_UTC" Tdatetime [alias_ "Time.UTC"]) kw _ Hkw).
  simpl. by rewrite Hd.
Qed.

Lemma float_field_cell kw n s x :
  n ∈ required_float_names → kw !! n = Some (PStr s) → str_as_float s = Some x →
  validate_field CBaseResponseData (Field n Tfloat []) kw = Valid (PFloat x).
Proof.
  intros Hn Hkw Hx.
  rewrite (validate_field_present _ (Field n Tfloat []) kw _ Hkw).
  change (name (Field n Tfloat [])) with n.
  assert (Hrun : run_before (before_validators CBaseResponseData) n (PStr s) = Valid (PStr s)).
  { simpl. rewrite bool_decide_false; [done|].
    unfold required_float_names in Hn. intros Hv.
    repeat (apply elem_of_cons in Hv as [->|Hv];
            [by repeat (apply elem_of_cons in Hn as [?|Hn]; [done|]);
                apply elem_of_nil in Hn|]).
    by apply elem_of_nil in Hv. }
  rewrite Hrun. simpl. by rewrite Hx.
Qed.

Lemma nullable_field_cell kw n s v :
  n ∈ nullable_names → kw !! n = Some (PStr s) → nullable_cell s = Some v →
  validate_field CBaseResponseData (Field n (TOptional Tfloat) []) kw = Valid v.
Proof.
  intros Hn Hkw Hv.
  rewrite (validate_field_present _ (Field n (TOptional Tfloat) []) kw _ Hkw).
  change (name (Field n (TOptional Tfloat) [])) with n.
  assert (Hrun : run_before (before_validators CBaseResponseData) n (PStr s)
                 = CBaseResponseData_parse_na (PStr s)).
  { simpl. rewrite bool_decide_true by done.
    by destruct (CBaseResponseData_parse_na (PStr s)). }
  rewrite Hrun. unfold CBaseResponseData_parse_na, nullable_cell in *. simpl.
  destruct (String.eqb s "NA"); [by injection Hv as <-|].
  simpl. destruct (float_of_str s) as [x|]; [|done]. by injection Hv as <-.
Qed.

Lemma cell_Some row n s : cell row n = Some s ↔ row !! Some n = Some (PStr s).
Proof.
  unfold cell. destruct (row !! Some n) as [[]|]; split; try done; by intros [= ->].
Qed.

(** A well-formed row is a row that stands for a record. *)
Lemma well_formed_record row :
  well_formed row ↔ row !! None = None ∧ ∃ data, record_of_row row = Some data.
Proof.
  unfold well_formed, record_of_row. split.
  - intros (Hnone & (s & d & Hs & Hd) & Hreq & Hnull). split; [done|].
    assert (Ht : cell row "Time.UTC" ≫= str_as_datetime = Some d).
    { apply bind_Some. exists s. by rewrite cell_Some. }
    assert (Hxs : is_Some (mapM (λ n, cell row n ≫= str_as_float) required_float_names)).
    { apply mapM_is_Some, Forall_forall. intros n Hn.
      destruct (Hreq n Hn) as (s' & x & Hs' & Hx).
      exists x. apply bind_Some. exists s'. by rewrite cell_Some. }
    destruct Hxs as [xs Hxs].
    assert (Hcell : ∀ n, n ∈ nullable_names → is_Some (cell row n ≫= nullable_cell)).
    { intros n Hn. destruct (Hnull n Hn) as (s' & Hs' & Hv).
      assert (Hv' : is_Some (nullable_cell s')).
      { unfold nullable_cell. destruct Hv as [->|[x Hx]]; [by eexists|].
        destruct (String.eqb s' "NA"); [by eexists|]. rewrite Hx. by eexists. }
      destruct Hv' as [v Hv']. exists v. apply bind_Some. exists s'. by rewrite cell_Some. }
    destruct (Hcell "pv_T") as [pv_T HT]; [repeat constructor|].
    destruct (Hcell "pv_eta") as [pv_eta Heta]; [repeat constructor|].
    exists (weather_record d xs pv_T pv_eta).
    apply bind_Some. exists d. split; [done|].
    apply bind_Some. exists xs. split; [done|].
    apply bind_Some. exists pv_T. split; [done|].
    apply bind_Some. exists pv_eta. split; [done|]. done.
  - intros (Hnone & data & Hdata).
    apply bind_Some in Hdata as (t & Ht & Hdata).
    apply bind_Some in Hdata as (xs & Hxs & Hdata).
    apply bind_Some in Hdata as (pv_T & HT & Hdata).
    apply bind_Some in Hdata as (pv_eta & Heta & _).
    split; [done|]. split; [|split].
    + apply bind_Some in Ht as (s & Hs & Hd). apply cell_Some in Hs. eauto.
    + intros n Hn.
      assert (Hall : Forall (is_Some ∘ (λ n, cell row n ≫= str_as_float))
                       required_float_names) by (apply mapM_is_Some; eauto).
      rewrite Forall_forall in Hall. destruct (Hall n Hn) as [x Hx].
      apply bind_Some in Hx as (s & Hs & Hx). apply cell_Some in Hs. eauto.
    + assert (Hcell : ∀ n v, cell row n ≫= nullable_cell = Some v →
                ∃ s, row !! Some n = Some (PStr s) ∧ (s = "NA" ∨ ∃ x, float_of_str s = Some x)).
      { intros n v Hv. apply bind_Some in Hv as (s & Hs & Hv). apply cell_Some in Hs.
        exists s. split; [done|]. unfold nullable_cell in Hv.
        destruct (String.eqb_spec s "NA") as [->|_]; [by left|].
        right. destruct (float_of_str s) as [x|]; [eauto | done]. }
      intros n Hn. unfold nullable_names in Hn.
      apply elem_of_cons in Hn as [->|Hn]; [by eapply Hcell|].
      apply elem_of_cons in Hn as [->|Hn]; [by eapply Hcell|].
      by apply elem_of_nil in Hn.
Qed.

Lemma float_fields_cells row names xs :
  Forall (λ n, n ∈ required_float_names) names →
  Forall2 (λ n x, cell row n ≫= str_as_float = Some x) names xs →
  Forall2 (λ f nv, fst nv = name f
                   ∧ validate_field CBaseResponseData f (str_keys row) = Valid (snd nv))
    ((λ n, Field n Tfloat []) <$> names) (zip names (PFloat <$> xs)).
Proof.
  intros Hnames Hxs. induction Hxs as [|n x names xs Hx _ IH]; simpl; [constructor|].
  apply Forall_cons in Hnames as [Hn Hnames].
  apply bind_Some in Hx as (s & Hs & Hx). apply cell_Some in Hs.
  rewrite <- lookup_str_keys in Hs.
  apply List.Forall2_cons; [split; [reflexivity | by eapply float_field_cell]|].
  by apply IH.
Qed.

(** The record of a row without a surplus field is the record the model
    validates the row to. *)
Lemma record_of_row_init row data :
  row !! None = None → record_of_row row = Some data →
  CBaseResponseData_init row = Ok data.
Proof.
  intros Hnone Hdata. apply CBaseResponseData_init_Ok. split; [done|].
  unfold record_of_row in Hdata.
  apply bind_Some in Hdata as (t & Ht & Hdata).
  apply bind_Some in Hdata as (xs & Hxs & Hdata).
  apply bind_Some in Hdata as (pv_T & HT & Hdata).
  apply bind_Some in Hdata as (pv_eta & Heta & [= <-]).
  apply bind_Some in Ht as (s & Hs & Hd). apply cell_Some in Hs.
  apply bind_Some in HT as (sT & HsT & HT). apply cell_Some in HsT.
  apply bind_Some in Heta as (se & Hse & Heta). apply cell_Some in Hse.
  rewrite <- lookup_str_keys in Hs, HsT, Hse.
  apply mapM_Some in Hxs.
  apply model_init_Ok. unfold weather_record.
  change (model_fields CBaseResponseData)
    with ((Field "Time_UTC" Tdatetime [alias_ "Time.UTC"]
           :: ((λ n, Field n Tfloat []) <$> required_float_names))
          ++ [Field "pv_T" (TOptional Tfloat) []; Field "pv_eta" (TOptional Tfloat) []])%list.
  apply Forall2_app.
  - apply List.Forall2_cons; [split; [reflexivity | by eapply time_field_cell]|].
    apply float_fields_cells; [by apply Forall_forall | done].
  - apply List.Forall2_cons;
      [split; [reflexivity | eapply nullable_field_cell; [repeat constructor | done | done]]|].
    apply List.Forall2_cons;
      [split; [reflexivity | eapply nullable_field_cell; [repeat constructor | done | done]]|].
    apply List.Forall2_nil.
Qed.

(** C4: when the reader yields a header and then rows whose non-empty
    ones are well-formed, [parse_csv] returns one record per non-empty
    row, in the rows' order: the record the text of the row's cells stands
    for; so it does on plain CSV text, a line for the header and a line
    for each of N well-formed rows, where the records are N; a header
    alone, or no line at all, gives the empty list. *)
Theorem parse_csv_one_record_per_row :
  (∀ csv_text fieldnames rows,
     csv.reader (splitlines csv_text) = (fieldnames :: rows, None) →
     Forall (λ row, well_formed (csv.row_dict fieldnames row))
       (filter (λ row, row ≠ []) rows) →
     ∃ data, parse_csv csv_text = Ok data
       ∧ length data = length (filter (λ row, row ≠ []) rows)
       ∧ Forall2 (λ row d, record_of_row (csv.row_dict fieldnames row) = Some d)
           (filter (λ row, row ≠ []) rows) data)
  ∧ (∀ fieldnames rows,
       Forall plain_row (fieldnames :: rows) →
       Forall (λ row, well_formed (csv.row_dict fieldnames row)) rows →
       ∃ data, parse_csv (csv_lines (fieldnames :: rows)) = Ok data
         ∧ length data = length rows
         ∧ Forall2 (λ row d, record_of_row (csv.row_dict fieldnames row) = Some d) rows data)
  ∧ (∀ fieldnames, plain_row fieldnames → parse_csv (csv_lines [fieldnames]) = Ok [])
  ∧ parse_csv "" = Ok [].
Proof.
  assert (Hrows : ∀ csv_text fieldnames rows,
     csv.reader (splitlines csv_text) = (fieldnames :: rows, None) →
     Forall (λ row, well_formed (csv.row_dict fieldnames row))
       (filter (λ row, row ≠ []) rows) →
     ∃ data, parse_csv csv_text = Ok data
       ∧ length data = length (filter (λ row, row ≠ []) rows)
       ∧ Forall2 (λ row d, record_of_row (csv.row_dict fieldnames row) = Some d)
           (filter (λ row, row ≠ []) rows) data).
  { intros csv_text fieldnames rows Hreader Hall.
    assert (Hdata : ∃ data,
              Forall2 (λ row d, record_of_row (csv.row_dict fieldnames row) = Some d
                                ∧ CBaseResponseData_init (csv.row_dict fieldnames row) = Ok d)
                (filter (λ row, row ≠ []) rows) data).
    { induction Hall as [|row l Hrow _ [data IH]]; [by exists []|].
      apply well_formed_record in Hrow as (Hnone & d & Hd).
      exists (d :: data). constructor; [|done].
      split; [done | by apply record_of_row_init]. }
    destruct Hdata as [data Hdata]. exists data. split; [|split].
    - apply parse_csv_Ok. unfold csv.DictReader. rewrite Hreader. simpl. split; [done|].
      apply Forall2_fmap_l. eapply Forall2_impl; [done|]. by intros row d [_ ?].
    - symmetry. by eapply Forall2_length.
    - eapply Forall2_impl; [done|]. by intros row d [? _]. }
  split; [done|]. split; [|split].
  - intros fieldnames rows Hplain Hall.
    assert (Hne : filter (λ row, row ≠ []) rows = rows).
    { clear Hplain. induction Hall as [|row l Hrow _ IH]; [done|].
      rewrite filter_cons_True; [by rewrite IH|].
      intros ->. destruct Hrow as (_ & (s & d & Hs & _) & _).
      by apply row_dict_nil_lookup in Hs. }
    destruct (Hrows _ fieldnames rows (reader_csv_lines _ Hplain)) as (data & Hdata);
      [by rewrite Hne|].
    rewrite Hne in Hdata. eauto.
  - intros fieldnames Hplain.
    destruct (Hrows (csv_lines [fieldnames]) fieldnames []) as (data & Hdata & Hlen & _);
      [|constructor|].
    + apply reader_csv_lines. constructor; [done | constructor].
    + by destruct data.
  - reflexivity.
Qed.

End CsvFacts.

(** ** From records to points *)

Section PointFacts.
Context `{PyLibs}.

(** A validated record has a date-time, nineteen floats and two values
    that are a float or [None], under the attributes' names. *)
Lemma CBaseResponseData_shape kw data :
  model_init CBaseResponseData kw = Ok data →
  ∃ t xs pv_T pv_eta,
    length xs = 19%nat
    ∧ data = weather_record t xs pv_T pv_eta
    ∧ (pv_T = PNone ∨ ∃ x, pv_T = PFloat x)
    ∧ (pv_eta = PNone ∨ ∃ x, pv_eta = PFloat x)
    ∧ validate_field CBaseResponseData (Field "Time_UTC" Tdatetime [alias_ "Time.UTC"]) kw
      = Valid (PDatetime t)
    ∧ validate_field CBaseResponseData (Field "pv_T" (TOptional Tfloat) []) kw = Valid pv_T
    ∧ validate_field CBaseResponseData (Field "pv_eta" (TOptional Tfloat) []) kw = Valid pv_eta.
Proof.
  intros Hm. apply model_init_Ok in Hm. simpl in Hm. invert_fields Hm.
  repeat match goal with
  | Ht : ∃ _, _ = _ |- _ => destruct Ht as [? ->]
  end.
  eexists _, [_; _; _; _; _; _; _; _; _; _; _; _; _; _; _; _; _; _; _], _, _.
  split; [reflexivity|]. split; [reflexivity|]. done.
Qed.

Lemma to_point_validated kw data :
  model_init CBaseResponseData kw = Ok data →
  ∃ p, to_point data = Ok p ∧ point_of_record data p.
Proof.
  intros Hm. apply CBaseResponseData_shape in Hm
    as (t & xs & pv_T & pv_eta & Hlen & -> & HT & Heta & _).
  do 19 (destruct xs as [|? xs]; [done|]). destruct xs; [|done]. clear Hlen.
  destruct HT as [->|[? ->]], Heta as [->|[? ->]];
    (eexists; split; [reflexivity|]); repeat split.
Qed.

End PointFacts.

Section PointTheorems.
Context `{PyLibs}.

Ltac rewrite_present Hkw :=
  match goal with
  | |- context [validate_field ?m ?f ?kw] => rewrite (validate_field_present m f kw _ Hkw)
  end.

(** What the validator of the two nullable fields makes of the row's
    text. *)
Lemma nullable_field_NA kw n w :
  n ∈ nullable_names → kw !! n = Some (PStr "NA") →
  validate_field CBaseResponseData (Field n (TOptional Tfloat) []) kw = Valid w → w = PNone.
Proof.
  intros Hn Hkw. unfold nullable_names in Hn.
  repeat (apply elem_of_cons in Hn as [->|Hn];
          [rewrite_present Hkw; simpl; intros Hv;
           by apply check_bounds_Valid in Hv as [-> _]|]).
  by apply elem_of_nil in Hn.
Qed.

Lemma nullable_field_numeral kw n s x w :
  n ∈ nullable_names → kw !! n = Some (PStr s) → s ≠ "NA" → float_of_str s = Some x →
  validate_field CBaseResponseData (Field n (TOptional Tfloat) []) kw = Valid w → w = PFloat x.
Proof.
  intros Hn Hkw Hna Hx. unfold nullable_names in Hn.
  assert (String.eqb s "NA" = false) as Heq by by apply String.eqb_neq.
  repeat (apply elem_of_cons in Hn as [->|Hn];
          [rewrite_present Hkw; simpl;
           unfold CBaseResponseData_parse_na; simpl; rewrite Heq; simpl; rewrite Hx; simpl; intros Hv;
           by apply check_bounds_Valid in Hv as [-> _]|]).
  by apply elem_of_nil in Hn.
Qed.

Lemma nullable_field_of_point kw data p n :
  model_init CBaseResponseData kw = Ok data →
  to_point data = Ok p →
  n ∈ nullable_names →
  (kw !! n = Some (PStr "NA") → fields_map p !! n = None)
  ∧ (∀ s x, kw !! n = Some (PStr s) → s ≠ "NA" → float_of_str s = Some x →
       fields_map p !! n = Some x).
Proof.
  intros Hm Hp Hn. apply CBaseResponseData_shape in Hm
    as (t & xs & pv_T & pv_eta & Hlen & -> & HT & Heta & _ & HvT & Hveta).
  do 19 (destruct xs as [|? xs]; [done|]). destruct xs; [|done]. clear Hlen.
  pose proof Hn as Hn'. unfold nullable_names in Hn'.
  apply elem_of_cons in Hn' as [->|Hn']; [|apply elem_of_cons in Hn' as [->|Hn']];
    [| |by apply elem_of_nil in Hn'].
  - split.
    + intros Hkw. apply (nullable_field_NA _ _ _ Hn Hkw) in HvT as ->.
      destruct Heta as [->|[? ->]]; injection Hp as <-; reflexivity.
    + intros s x Hkw Hna Hx. apply (nullable_field_numeral _ _ _ _ _ Hn Hkw Hna Hx) in HvT as ->.
      destruct Heta as [->|[? ->]]; injection Hp as <-; reflexivity.
  - split.
    + intros Hkw. apply (nullable_field_NA _ _ _ Hn Hkw) in Hveta as ->.
      destruct HT as [->|[? ->]]; injection Hp as <-; reflexivity.
    + intros s x Hkw Hna Hx. apply (nullable_field_numeral _ _ _ _ _ Hn Hkw Hna Hx) in Hveta as ->.
      destruct HT as [->|[? ->]]; injection Hp as <-; reflexivity.
Qed.

(** [csv_to_influxdb_points] returns the points exactly when [parse_csv]
    returns the records and each record gives its point. *)
Lemma csv_to_influxdb_points_Ok csv_text pts :
  csv_to_influxdb_points csv_text = Ok pts ↔
  ∃ data_list, parse_csv csv_text = Ok data_list
    ∧ Forall2 (λ data p, to_point data = Ok p) data_list pts.
Proof.
  unfold csv_to_influxdb_points. rewrite bind_Ok.
  by setoid_rewrite comprehension_Ok.
Qed.

(** C1: in the point of a row, a nullable field ([pv_T], [pv_eta]) whose
    text in the row is [NA] has no key in the fields, and one whose text
    is a numeral is bound to the float the numeral reads as. *)
Theorem nullable_fields_of_points (csv_text : string) (pts : list InfluxDBPoint)
    (fieldnames : list string) (rows : list (list string)) (err : option exn)
    (i : nat) (row : list string) (p : InfluxDBPoint) (n : string) :
  csv_to_influxdb_points csv_text = Ok pts →
  csv.reader (splitlines csv_text) = (fieldnames :: rows, err) →
  filter (λ row, row ≠ []) rows !! i = Some row →
  pts !! i = Some p →
  n ∈ nullable_names →
  (csv.row_dict fieldnames row !! Some n = Some (PStr "NA") → fields_map p !! n = None)
  ∧ (∀ s x, csv.row_dict fieldnames row !! Some n = Some (PStr s) →
            s ≠ "NA" → float_of_str s = Some x →
            fields_map p !! n = Some x).
Proof.
  intros Hpts Hreader Hrow Hp Hn.
  apply csv_to_influxdb_points_Ok in Hpts as (data_list & Hdata & Hpts).
  apply parse_csv_Ok in Hdata as [_ Hdata].
  unfold csv.DictReader in Hdata. rewrite Hreader in Hdata. simpl in Hdata.
  apply Forall2_fmap_l in Hdata.
  destruct (Forall2_lookup_l _ _ _ _ _ Hdata Hrow) as (data & Hdi & Hinit).
  destruct (Forall2_lookup_l _ _ _ _ _ Hpts Hdi) as (p' & Hp' & Hpoint).
  assert (p' = p) as -> by congruence.
  apply CBaseResponseData_init_Ok in Hinit as [_ Hinit].
  destruct (nullable_field_of_point _ data p n Hinit Hpoint Hn) as [HNA Hnum].
  split.
  - intros Hr. apply HNA. by rewrite lookup_str_keys.
  - intros s x Hr Hna Hx. eapply Hnum; [by rewrite lookup_str_keys | done | done].
Qed.

(** C2: every record [parse_csv] returns gives a point, and the point has
    the measurement [cbase], the tag [system] = [home], the record's
    timestamp, and as fields the other attributes of the record that are
    not [None], in the order of the declaration, each under its own name,
    none of them declaring another wire name. *)
Theorem points_of_records (csv_text : string) (data_list : list instance) :
  parse_csv csv_text = Ok data_list →
  ∃ pts, csv_to_influxdb_points csv_text = Ok pts
    ∧ Forall2 (λ data p,
        measurement p = "cbase"
        ∧ tags p = Some [("system", "home")]
        ∧ getattr data "Time_UTC" = Some (PDatetime (time p))
        ∧ fields p =
            omap (λ n, x ← getattr data n ≫= float_of_attr; Some (n, x))
              ["temp_avg"; "wind_avg"; "cl_tot"; "cl_low"; "cl_med"; "cl_high"; "prec_amt";
               "s_glob"; "s_dif"; "s_dir_hor"; "s_dir"; "s_sw_net"; "solar_angle_vs_panel";
               "albedo"; "s_glob_pv"; "s_ground_dif_pv"; "s_dir_pv"; "s_dif_pv"; "pv_po";
               "pv_T"; "pv_eta"])
       data_list pts.
Proof.
  intros Hdata. pose proof Hdata as Hrows. apply parse_csv_Ok in Hrows as [_ Hrows].
  assert (Hall : Forall (λ data, ∃ kw, model_init CBaseResponseData kw = Ok data) data_list).
  { apply Forall_forall. intros data Hin. apply list_elem_of_lookup in Hin as [i Hi].
    destruct (Forall2_lookup_r _ _ _ _ _ Hrows Hi) as (row & _ & Hinit).
    apply CBaseResponseData_init_Ok in Hinit as [_ Hinit]. eauto. }
  assert (Hpts : ∃ pts, Forall2 (λ data p, to_point data = Ok p) data_list pts
                        ∧ Forall2 point_of_record data_list pts).
  { clear -Hall. induction Hall as [|data l [kw Hm] _ (pts & Hto & Hof)].
    - exists []. split; constructor.
    - destruct (to_point_validated _ _ Hm) as (p & Hp & Hrec).
      exists (p :: pts). split; by constructor. }
  destruct Hpts as (pts & Hto & Hof). exists pts. split; [|done].
  apply csv_to_influxdb_points_Ok. eauto.
Qed.

End PointTheorems.

(** ** The configuration *)

(** The member a code stands for is the member with that code. *)
Lemma tracking_of_value_Some z t : tracking_of_value z = Some t ↔ tracking_value t = z.
Proof.
  unfold tracking_of_value. repeat destruct (decide _); subst; split;
    try (intros [= <-]; done); destruct t; simpl; first [done | lia].
Qed.

Section ConfigFacts.
Context `{PyLibs}.

(** The keys of [CBaseSystemParams] are its fields' names, all different. *)
Lemma CBaseSystemParams_keys f g :
  f ∈ model_fields CBaseSystemParams → g ∈ model_fields CBaseSystemParams →
  validation_key g = validation_key f → g = f.
Proof.
  intros Hf Hg. simpl in Hf, Hg.
  repeat (apply elem_of_cons in Hf as [->|Hf]);
    try (by apply elem_of_nil in Hf);
    repeat (apply elem_of_cons in Hg as [->|Hg]);
    try (by apply elem_of_nil in Hg); done.
Qed.

(** An integer field with both bounds takes an input exactly when the
    input converts to an integer within the bounds. *)
Lemma bounded_int_field m n lo hi args kw v :
  Field n Tint args = mk_FieldInfo n Tint (default (Field n Tint args)) (Some lo) (Some hi)
                        None (serialization_alias (Field n Tint args)) →
  (∀ names fn, (names, fn) ∈ before_validators m → n ∉ names) →
  (∃ w, validate_field m (Field n Tint args) (<[n := v]> kw) = Valid w)
  ↔ ∃ z, as_int v = Some z ∧ lo ≤ z ≤ hi.
Proof.
  intros Hf Hbefore. rewrite Hf.
  set (f := mk_FieldInfo _ _ _ _ _ _ _).
  assert (Hrun : run_before (before_validators m) n v = Valid v).
  { induction (before_validators m) as [|[names fn] vs IH]; simpl; [done|].
    rewrite bool_decide_false by (eapply Hbefore; left).
    apply IH. intros names' fn' Hin. eapply Hbefore. by right. }
  rewrite (validate_field_present m f (<[n := v]> kw) v) by apply lookup_insert_eq.
  change (name f) with n. rewrite Hrun. simpl.
  unfold check_bounds, check_le, check_ge. simpl.
  destruct (as_int v) as [z|]; simpl.
  - destruct (bool_decide (z ≤ hi)) eqn:Hhi; simpl;
      [destruct (bool_decide (lo ≤ z)) eqn:Hlo; simpl|].
    + apply bool_decide_eq_true in Hhi, Hlo. split; [|by eauto].
      intros _. exists z. split; [done | lia].
    + apply bool_decide_eq_false in Hlo. split; [by intros [? ?]|].
      intros (z' & [= <-] & Hz). lia.
    + apply bool_decide_eq_false in Hhi. split; [by intros [? ?]|].
      intros (z' & [= <-] & Hz). lia.
  - split; [by intros [? ?] | by intros (? & ? & _)].
Qed.

Lemma bounded_int_param n lo hi args kw v :
  Field n Tint args ∈ model_fields CBaseSystemParams →
  Field n Tint args = mk_FieldInfo n Tint (default (Field n Tint args)) (Some lo) (Some hi)
                        None (serialization_alias (Field n Tint args)) →
  (∃ sys, model_init CBaseSystemParams kw = Ok sys) →
  (∃ sys, model_init CBaseSystemParams (<[n := v]> kw) = Ok sys)
  ↔ ∃ z, as_int v = Some z ∧ lo ≤ z ≤ hi.
Proof.
  intros Hin Hf Hkw.
  assert (Hk : validation_key (Field n Tint args) = n) by (rewrite Hf; reflexivity).
  pose proof (model_init_insert CBaseSystemParams kw (Field n Tint args) v Hin
                (λ g Hg, CBaseSystemParams_keys _ _ Hin Hg) Hkw) as Hins.
  rewrite Hk in Hins. rewrite Hins.
  apply bounded_int_field; [done|].
  intros names fn Hx. by apply elem_of_nil in Hx.
Qed.

(** C7, as the code has it: in a configuration that loads, a value for
    the panel output or the panel quantity is accepted exactly when it
    converts to an integer from 0 to 1000, and one for the inverter
    capacity exactly when it converts to an integer from 0 to 100000. *)
Theorem panel_fields_bounds (kw : gmap string pyval) (v : pyval) :
  (∃ sys, model_init CBaseSystemParams kw = Ok sys) →
  ((∃ sys, model_init CBaseSystemParams (<["panel_output" := v]> kw) = Ok sys)
     ↔ ∃ z, as_int v = Some z ∧ 0 ≤ z ≤ 1000)
  ∧ ((∃ sys, model_init CBaseSystemParams (<["panel_quantity" := v]> kw) = Ok sys)
       ↔ ∃ z, as_int v = Some z ∧ 0 ≤ z ≤ 1000)
  ∧ ((∃ sys, model_init CBaseSystemParams (<["inverter_capacity" := v]> kw) = Ok sys)
       ↔ ∃ z, as_int v = Some z ∧ 0 ≤ z ≤ 100000).
Proof.
  intros Hkw. split; [|split].
  - apply (bounded_int_param "panel_output" 0 1000
             [ge_ 0; le_ 1000; serialization_alias_ "panel_out"]);
      [simpl; repeat constructor | reflexivity | done].
  - apply (bounded_int_param "panel_quantity" 0 1000
             [ge_ 0; le_ 1000; serialization_alias_ "panel_qty"]);
      [simpl; repeat constructor | reflexivity | done].
  - apply (bounded_int_param "inverter_capacity" 0 100000
             [default_ (PInt 0); ge_ 0; le_ 100000; serialization_alias_ "inv_cap"]);
      [simpl; repeat constructor | reflexivity | done].
Qed.

End ConfigFacts.

(** Runs [tac] on the first field of the list on which it succeeds. *)
Ltac find_field tac l :=
  match l with
  | ?f :: ?l' => first [tac f | find_field tac l']
  end.

Ltac rewrite_absent Hkw Hv :=
  match type of Hv with
  | validate_field ?m ?f ?kw = _ => rewrite (validate_field_absent m f kw Hkw) in Hv
  end.

Section ConfigTheorems.
Context `{PyLibs}.

(** A float field with both bounds takes an input exactly when the input
    converts to a float within the bounds. *)
Lemma bounded_float_param n lo hi args kw v :
  Field n Tfloat args ∈ model_fields CBaseSystemParams →
  Field n Tfloat args = mk_FieldInfo n Tfloat None (Some lo) (Some hi)
                          None (serialization_alias (Field n Tfloat args)) →
  (∃ sys, model_init CBaseSystemParams kw = Ok sys) →
  (∃ sys, model_init CBaseSystemParams (<[n := v]> kw) = Ok sys)
  ↔ ∃ x, as_float v = Some x
         ∧ PrimFloat.leb (Z_to_float lo) x = true ∧ PrimFloat.leb x (Z_to_float hi) = true.
Proof.
  intros Hin Hf Hkw.
  assert (Hk : validation_key (Field n Tfloat args) = n) by (rewrite Hf; reflexivity).
  pose proof (model_init_insert CBaseSystemParams kw (Field n Tfloat args) v Hin
                (λ g Hg, CBaseSystemParams_keys _ _ Hin Hg) Hkw) as Hins.
  rewrite Hk in Hins. rewrite Hins. rewrite Hf.
  set (f := mk_FieldInfo _ _ _ _ _ _ _).
  rewrite (validate_field_present CBaseSystemParams f (<[n := v]> kw) v)
    by apply lookup_insert_eq.
  simpl. unfold check_bounds, check_le, check_ge. simpl.
  destruct (as_float v) as [x|]; simpl.
  - destruct (PrimFloat.leb x (Z_to_float hi)) eqn:Hhi; simpl;
      [destruct (PrimFloat.leb (Z_to_float lo) x) eqn:Hlo; simpl|].
    + split; [|by eauto]. intros _. by exists x.
    + split; [by intros [? ?]|]. intros (x' & [= <-] & Hx & _). congruence.
    + split; [by intros [? ?]|]. intros (x' & [= <-] & _ & Hx). congruence.
  - split; [by intros [? ?] | by intros (? & ? & _)].
Qed.

(** The bounds the code puts on the two coordinates: both from -90 to 90. *)
Lemma coordinates_bounds kw v :
  (∃ sys, model_init CBaseSystemParams kw = Ok sys) →
  ((∃ sys, model_init CBaseSystemParams (<["latitude" := v]> kw) = Ok sys)
     ↔ ∃ x, as_float v = Some x
            ∧ PrimFloat.leb (-90)%float x = true ∧ PrimFloat.leb x 90%float = true)
  ∧ ((∃ sys, model_init CBaseSystemParams (<["longitude" := v]> kw) = Ok sys)
       ↔ ∃ x, as_float v = Some x
              ∧ PrimFloat.leb (-90)%float x = true ∧ PrimFloat.leb x 90%float = true).
Proof.
  intros Hkw. split.
  - apply (bounded_float_param "latitude" (-90) 90
             [ge_ (-90); le_ 90; serialization_alias_ "lat"]);
      [simpl; repeat constructor | reflexivity | done].
  - apply (bounded_float_param "longitude" (-90) 90
             [ge_ (-90); le_ 90; serialization_alias_ "lon"]);
      [simpl; repeat constructor | reflexivity | done].
Qed.

(** C5, at the failing input: a site at latitude 35.5 and longitude 139.75
    is refused, the longitude being above 90. *)
Theorem longitude_above_90_rejected :
  model_init CBaseSystemParams
    {[ "latitude" := PFloat 35.5%float; "longitude" := PFloat 139.75%float;
       "slope" := PInt 30; "azimuth" := PInt 180;
       "panel_output" := PInt 300; "panel_quantity" := PInt 12 ]}
  = Raise (ValidationError [mk_line_error ["longitude"] (less_than_equal 90)]).
Proof. vm_compute. reflexivity. Qed.

(** C6, at the failing input: an [influxdb] section with the host alone is
    refused, the retention policy being required. *)
Theorem influxdb_host_only_rejected :
  model_init InfluxDBConfig {[ "host" := PStr "localhost" ]}
  = Raise (ValidationError [mk_line_error ["retention_policy"] missing]).
Proof. vm_compute. reflexivity. Qed.

(** With the retention policy given as null the section loads, and the
    port and the database take their defaults. *)
Lemma influxdb_defaults :
  model_init InfluxDBConfig {[ "host" := PStr "localhost"; "retention_policy" := PNone ]}
  = Ok [("host", PStr "localhost"); ("port", PInt 8086); ("database", PStr "cbase");
        ("retention_policy", PNone)].
Proof. vm_compute. reflexivity. Qed.

(** A validated [CBaseSystemParams] holds its eight attributes, each of
    its annotated type. *)
Lemma CBaseSystemParams_shape kw sys :
  model_init CBaseSystemParams kw = Ok sys →
  ∃ lat lon slope azi t out qty cap,
    sys = [("latitude", PFloat lat); ("longitude", PFloat lon); ("slope", PInt slope);
           ("azimuth", PInt azi); ("tracking", PEnum t); ("panel_output", PInt out);
           ("panel_quantity", PInt qty); ("inverter_capacity", PInt cap)]
    ∧ Forall2 (λ f nv, validate_field CBaseSystemParams f kw = Valid (snd nv))
        (model_fields CBaseSystemParams) sys.
Proof.
  intros Hm. apply model_init_Ok in Hm.
  assert (Hall : Forall2 (λ f nv, validate_field CBaseSystemParams f kw = Valid (snd nv))
                   (model_fields CBaseSystemParams) sys).
  { eapply Forall2_impl; [done|]. by intros f nv [_ ?]. }
  simpl in Hm. invert_fields Hm.
  repeat match goal with
  | Ht : ∃ _, _ = _ |- _ => destruct Ht as [? ->]
  end.
  eexists _, _, _, _, _, _, _, _. split; [reflexivity | done].
Qed.

(** C9: the parameters of the GET are, in this order, [lat], [lon],
    [slope], [azi], [tracking], [panel_out], [panel_qty], [inv_cap] and
    [apikey]; each of the first eight holds the system's attribute of that
    wire name; [tracking] holds the system's mode, which is the mode of
    the configured code ([FIXED] without one) and is written as its code,
    0, 1, 2 or 3; [apikey] is the key of the environment; and no
    attribute's internal name is a key. *)
Theorem request_params_wire_names (kw : gmap string pyval) (sys : instance)
    (API_KEY : string) :
  model_init CBaseSystemParams kw = Ok sys →
  fst <$> request_params sys API_KEY
    = ["lat"; "lon"; "slope"; "azi"; "tracking"; "panel_out"; "panel_qty"; "inv_cap"; "apikey"]
  ∧ Forall (λ wire_attr,
       getattr (request_params sys API_KEY) (fst wire_attr) = getattr sys (snd wire_attr))
      [("lat", "latitude"); ("lon", "longitude"); ("slope", "slope"); ("azi", "azimuth");
       ("tracking", "tracking"); ("panel_out", "panel_output");
       ("panel_qty", "panel_quantity"); ("inv_cap", "inverter_capacity")]
  ∧ (∃ t, getattr sys "tracking" = Some (PEnum t)
          ∧ getattr (request_params sys API_KEY) "tracking" = Some (PEnum t)
          ∧ (∀ z, kw !! "tracking" = Some (PInt z) → tracking_value t = z ∧ 0 ≤ z ≤ 3)
          ∧ (kw !! "tracking" = None → t = FIXED)
          ∧ query_var (PEnum t)
            = Ok match t with
                 | FIXED => "0"
                 | Y_AXIS_TRACKING => "1"
                 | X_AXIS_TRACKING => "2"
                 | DUAL_AXIS_TRACKING => "3"
                 end)
  ∧ getattr (request_params sys API_KEY) "apikey" = Some (PStr API_KEY)
  ∧ Forall (λ n, n ∉ fst <$> request_params sys API_KEY)
      ["latitude"; "longitude"; "azimuth"; "panel_output"; "panel_quantity";
       "inverter_capacity"].
Proof.
  intros Hm. apply CBaseSystemParams_shape in Hm
    as (lat & lon & slope & azi & t & out & qty & cap & -> & Hall).
  split; [reflexivity|]. split; [|split; [|split; [reflexivity|]]].
  - repeat (apply Forall_cons; split; [reflexivity|]). apply Forall_nil_2.
  - exists t. split; [reflexivity|]. split; [reflexivity|].
    simpl in Hall. do 4 apply Forall2_cons_1 in Hall as [_ Hall].
    apply Forall2_cons_1 in Hall as [Ht _]. cbn [snd] in Ht.
    split; [|split].
    + intros z Hkw.
      rewrite (validate_field_present _
                 (Field "tracking" TCBaseTrackingParam [default_ (PEnum FIXED)]) kw _ Hkw)
        in Ht.
      simpl in Ht. destruct (tracking_of_value z) as [t'|] eqn:Hz; [|done].
      injection Ht as ->. apply tracking_of_value_Some in Hz.
      split; [done|]. destruct t; simpl in Hz; lia.
    + intros Hkw. rewrite_absent Hkw Ht. by injection Ht as <-.
    + by destruct t.
  - change (fst <$> request_params _ API_KEY)
      with ["lat"; "lon"; "slope"; "azi"; "tracking"; "panel_out"; "panel_qty"; "inv_cap";
            "apikey"].
    repeat (apply Forall_cons; split; [apply (bool_decide_unpack _); vm_compute; exact I|]).
    apply Forall_nil_2.
Qed.


End ConfigTheorems.

(** ** The run with a CSV file *)

Section RunFacts.
Context `{PyLibs}.

Lemma json_array_of_points_opens points :
  opens_array_of_objects (json_array_of_points points) = true.
Proof. destruct points as [|p [|q points]]; reflexivity. Qed.

(** C8, as the code has it: with a CSV file named on the command line and
    the API key in the environment, the script opens that file and nothing
    else, makes no request and no write, and what it does depends on the
    text of that file alone, not on the dry-run flag, the configuration
    file or the rest of the environment; when the text parses, it prints
    one line, the [repr] of the list of the points' JSON texts, and ends
    normally. *)
Theorem csv_file_mode (w : World) (args : AppArgs) (path API_KEY : string) :
  csv_file args = Some path →
  path ≠ "" →
  environ w !! "CBASE_API_KEY" = Some API_KEY →
  Forall (λ ev, ev = Open path ∨ ∃ text, ev = Print text) (fst (script w args))
  ∧ (∀ w' args' API_KEY',
       csv_file args' = Some path →
       environ w' !! "CBASE_API_KEY" = Some API_KEY' →
       files w' !! path = files w !! path →
       script w' args' = script w args)
  ∧ (∀ csv_text points,
       files w !! path = Some csv_text →
       csv_to_influxdb_points csv_text = Ok points →
       script w args
       = ([Open path; Print (repr_list (model_dump_json <$> points))], Ok ())).
Proof.
  intros Hcsv Hpath Hkey.
  assert (Hrun : ∀ w' args' API_KEY',
            csv_file args' = Some path →
            environ w' !! "CBASE_API_KEY" = Some API_KEY' →
            script w' args'
            = match files w' !! path with
              | None => ([Open path], Raise (FileNotFoundError path))
              | Some csv_text =>
                  match csv_to_influxdb_points csv_text with
                  | Ok points =>
                      ([Open path; Print (repr_list (model_dump_json <$> points))], Ok ())
                  | Raise e => ([Open path], Raise e)
                  end
              end).
  { intros w' args' API_KEY' Hcsv' Hkey'. unfold script, main. rewrite Hkey', Hcsv'.
    rewrite bool_decide_true by done.
    unfold read_file, mbind, prog_bind, lift, emit. simpl.
    destruct (files w' !! path) as [csv_text|]; simpl; [|done].
    destruct (csv_to_influxdb_points csv_text); done. }
  split; [|split].
  - rewrite (Hrun w args API_KEY Hcsv Hkey).
    destruct (files w !! path) as [csv_text|];
      [destruct (csv_to_influxdb_points csv_text)|];
      repeat (apply Forall_cons; split; [eauto|]); apply Forall_nil_2.
  - intros w' args' API_KEY' Hcsv' Hkey' Hfiles.
    rewrite (Hrun w args API_KEY Hcsv Hkey), (Hrun w' args' API_KEY' Hcsv' Hkey').
    by rewrite Hfiles.
  - intros csv_text points Hfile Hpoints.
    rewrite (Hrun w args API_KEY Hcsv Hkey), Hfile, Hpoints. done.
Qed.

End RunFacts.

(** ** The runs of the script *)

(** Takes a run apart: every outcome of the environment, the libraries and
    the script's own steps. *)
Ltac run_cases w args :=
  unfold script, main, run, collect_data, read_file, lift, emit, mbind, prog_bind, mret,
    prog_ret; cbn [fst snd];
  repeat match goal with
  | |- context [match ?x with _ => _ end] =>
      lazymatch x with
      | context [match _ with _ => _ end] => fail
      | _ => destruct x eqn:?
      end; cbn [fst snd app]
  end.

Ltac destruct_unit :=
  repeat match goal with u : unit |- _ => destruct u end; done.

Section RunTheorems.
Context `{PyLibs}.

(** X1: whatever the environment and the arguments, the script opens at
    most one file, sends at most one request, and writes or logs the
    points at most once, after the request; the session's closing, when
    there is one, is the last event. *)
Theorem script_trace_shape (w : World) (args : AppArgs) :
  trace_shape (fst (script w args)).
Proof. run_cases w args; constructor. Qed.

(** Settles the membership of an event in a trace that is written out. *)
Ltac in_trace Hin :=
  repeat (apply elem_of_cons in Hin as [Hin|Hin]; [try discriminate|]);
  try (by apply elem_of_nil in Hin).

(** X2: the session is closed exactly when [run] returns normally: after
    any failure, of the request, of the parsing or of the write, it is
    left open. *)
Theorem run_closes_iff_success (w : World) (API_KEY : string) (args : AppArgs) :
  Close ∈ fst (run w API_KEY args) ↔ snd (run w API_KEY args) = Ok ().
Proof.
  run_cases w args;
    (split;
     [ intros Hin; first [ by destruct_unit | exfalso; in_trace Hin ]
     | intros Hok; first [ discriminate
                         | solve [repeat constructor] ] ]).
Qed.

(** X3: a write to the database happens only in a run without the dry-run
    flag and without a CSV file, and it carries the points parsed from
    the body of the API's answer and the retention policy of the
    configuration. *)
Theorem write_carries_response_points (w : World) (args : AppArgs)
    (body : list InfluxDBPoint) (policy : option string) :
  WritePoints body policy ∈ fst (script w args) →
  dry_run args = false
  ∧ (csv_file args = None ∨ csv_file args = Some "")
  ∧ ∃ API_KEY text config app_config query response,
      environ w !! "CBASE_API_KEY" = Some API_KEY
      ∧ files w !! config_file args = Some text
      ∧ yaml_safe_load text = Ok config
      ∧ AppConfig_of config = Ok app_config
      ∧ query_of (request_params (system (cbase app_config)) API_KEY) = Ok query
      ∧ http_get w (API_URL (api_host (cbase app_config))) query = Ok (Ok response)
      ∧ csv_to_influxdb_points response = Ok body
      ∧ policy = retention_policy_of (influxdb app_config).
Proof.
  unfold query_of. destruct args as [cfg csv dry]. cbn [dry_run csv_file config_file].
  assert (Hcsv : csv = None ∨ csv = Some "" ∨ ∃ path, csv = Some path ∧ path ≠ "").
  { destruct csv as [path|]; [|by left]. destruct (decide (path = "")) as [->|?]; eauto. }
  destruct Hcsv as [->|[->|(path & -> & Hpath)]].
  - run_cases w args; intros Hin; in_trace Hin;
      injection Hin as -> ->; (refine (conj _ (conj _ _)); [done | by left | eauto 15]).
  - run_cases w args; intros Hin; in_trace Hin;
      injection Hin as -> ->; (refine (conj _ (conj _ _)); [done | by right | eauto 15]).
  - unfold script, main. cbn [csv_file]. rewrite bool_decide_true by done.
    run_cases w args; intros Hin; in_trace Hin.
Qed.

(** X4: a request is sent only after the API key was found and the
    configuration file was read, loaded and validated; it goes to the
    path [/api/pvfcst_request] of the configured host, with the system
    parameters and the key as its query. *)
Theorem request_after_configuration (w : World) (args : AppArgs)
    (url : string) (query : list (string * string)) :
  Get url query ∈ fst (script w args) →
  ∃ API_KEY text config app_config,
    environ w !! "CBASE_API_KEY" = Some API_KEY
    ∧ files w !! config_file args = Some text
    ∧ yaml_safe_load text = Ok config
    ∧ AppConfig_of config = Ok app_config
    ∧ url = "https://" +:+ api_host (cbase app_config) +:+ "/api/pvfcst_request"
    ∧ query_of (request_params (system (cbase app_config)) API_KEY) = Ok query.
Proof.
  unfold query_of, API_URL.
  run_cases w args; intros Hin; in_trace Hin; injection Hin as -> ->; eauto 10.
Qed.

(** X5: [run] returns normally exactly when the configuration file is
    read, loaded and validated, the request is answered, the body of the
    answer is read and parses, and, unless the run is dry, the database
    takes the write. *)
Theorem run_succeeds_iff (w : World) (API_KEY : string) (args : AppArgs) :
  snd (run w API_KEY args) = Ok ()
  ↔ ∃ text config app_config query response points,
      files w !! config_file args = Some text
      ∧ yaml_safe_load text = Ok config
      ∧ AppConfig_of config = Ok app_config
      ∧ query_of (request_params (system (cbase app_config)) API_KEY) = Ok query
      ∧ http_get w (API_URL (api_host (cbase app_config))) query = Ok (Ok response)
      ∧ csv_to_influxdb_points response = Ok points
      ∧ (dry_run args = true
         ∨ influx_write w points (retention_policy_of (influxdb app_config)) = Ok ()).
Proof.
  unfold query_of. split.
  - run_cases w args; intros Hok; try discriminate; try destruct_unit; eauto 15.
    repeat match goal with u : unit |- _ => destruct u end. eauto 15.
  - intros (text & config & app_config & query & response & points
            & Hfile & Hyaml & Hcfg & Hquery & Hget & Hpts & Hwrite).
    unfold run, collect_data, read_file, lift, emit, mbind, prog_bind. cbn [fst snd].
    rewrite Hfile. cbn [fst snd]. rewrite Hyaml. cbn [fst snd]. rewrite Hcfg. cbn [fst snd].
    rewrite Hquery. cbn [fst snd]. rewrite Hget. cbn [fst snd]. rewrite Hpts. cbn [fst snd].
    destruct (dry_run args); [done|].
    destruct Hwrite as [?|Hwrite]; [done|]. cbn [fst snd]. by rewrite Hwrite.
Qed.

(** X20: the points are logged as a dry run only when the run is dry;
    they are then the points of the API's answer, nothing is written to
    the database, and the run ends normally. *)
Theorem dry_run_logs_response_points (w : World) (args : AppArgs)
    (body : list InfluxDBPoint) :
  Log (send_data_dry_run body) ∈ fst (script w args) →
  dry_run args = true
  ∧ snd (script w args) = Ok ()
  ∧ (∀ body' policy, WritePoints body' policy ∉ fst (script w args))
  ∧ ∃ API_KEY text config app_config query response,
      environ w !! "CBASE_API_KEY" = Some API_KEY
      ∧ files w !! config_file args = Some text
      ∧ yaml_safe_load text = Ok config
      ∧ AppConfig_of config = Ok app_config
      ∧ query_of (request_params (system (cbase app_config)) API_KEY) = Ok query
      ∧ http_get w (API_URL (api_host (cbase app_config))) query = Ok (Ok response)
      ∧ csv_to_influxdb_points response = Ok body.
Proof.
  unfold query_of.
  run_cases w args; intros Hin; in_trace Hin; injection Hin as ->;
    (refine (conj _ (conj _ (conj _ _)));
     [ done | done | intros body' policy Hw; in_trace Hw | eauto 15 ]).
Qed.

(** X21: an empty path for the CSV file is no CSV file: the script does
    what it does without the option. *)
Theorem empty_csv_path_is_no_csv_file (w : World) (config_file : string) (dry_run : bool) :
  script w (mk_AppArgs config_file (Some "") dry_run)
  = script w (mk_AppArgs config_file None dry_run).
Proof.
  unfold script, main. cbn [csv_file]. by rewrite bool_decide_false by (by intros ?).
Qed.

(** X22: without the API key in the environment the script raises a
    [KeyError] before it does anything, whatever its arguments; with the
    key it never ends that way. *)
Theorem api_key_is_read_first (w : World) (args : AppArgs) :
  environ w !! "CBASE_API_KEY" = None
  ↔ script w args = ([], Raise (KeyError "CBASE_API_KEY")).
Proof.
  split.
  - intros Hkey. unfold script. by rewrite Hkey.
  - run_cases w args; first [ done | discriminate ].
Qed.

(** X23: an error of the database is not ignored: when the write raises,
    the run ends with that exception and the session is not closed. *)
Theorem write_error_ends_the_run (w : World) (args : AppArgs)
    (body : list InfluxDBPoint) (policy : option string) (e : exn) :
  WritePoints body policy ∈ fst (script w args) →
  influx_write w body policy = Raise e →
  snd (script w args) = Raise e ∧ Close ∉ fst (script w args).
Proof.
  run_cases w args; intros Hin; in_trace Hin; injection Hin as -> ->; intros Hw;
    first [ congruence | split; [congruence | intros Hc; in_trace Hc] ].
Qed.

(** X24: the script prints only when a CSV file is named: the file was
    read, its text gave points, the line printed is the [repr] of the list
    of their JSON texts, and nothing else happened. *)
Theorem print_only_with_csv_file (w : World) (args : AppArgs) (text : string) :
  Print text ∈ fst (script w args) →
  ∃ path csv_text points,
    csv_file args = Some path ∧ path ≠ ""
    ∧ files w !! path = Some csv_text
    ∧ csv_to_influxdb_points csv_text = Ok points
    ∧ text = repr_list (model_dump_json <$> points)
    ∧ script w args = ([Open path; Print text], Ok ()).
Proof.
  destruct args as [cfg csv dry]. cbn [csv_file].
  assert (Hcsv : csv = None ∨ csv = Some "" ∨ ∃ path, csv = Some path ∧ path ≠ "").
  { destruct csv as [path|]; [|by left]. destruct (decide (path = "")) as [->|?]; eauto. }
  destruct Hcsv as [->|[->|(path & -> & Hpath)]].
  - unfold script, main. cbn [csv_file]. run_cases w args; intros Hin; in_trace Hin.
  - unfold script, main. cbn [csv_file]. rewrite bool_decide_false by (by intros ?).
    run_cases w args; intros Hin; in_trace Hin.
  - unfold script, main. cbn [csv_file]. rewrite bool_decide_true by done.
    run_cases w args; intros Hin; in_trace Hin. injection Hin as ->.
    exists path. eauto 10.
Qed.

End RunTheorems.

(** ** Further statements on the configuration *)

Section ConfigExtras.
Context `{PyLibs}.

Lemma validate_annotation_no_raise t v e : validate_annotation t v ≠ Raises e.
Proof.
  revert v. induction t as [| | | | |t IH]; intros v; simpl.
  - by destruct v.
  - by destruct (as_int v).
  - by destruct (as_float v).
  - by destruct (as_datetime v).
  - by destruct (as_tracking v).
  - destruct v; try apply IH. done.
Qed.

Lemma check_bounds_no_raise f v e : check_bounds f v ≠ Raises e.
Proof.
  unfold check_bounds, check_le, check_ge.
  destruct (le f) as [b|]; [destruct (le_holds b v)|]; simpl; try done;
    (destruct (ge f) as [c|]; [destruct (ge_holds c v)|]; done).
Qed.

(** A model without validators of its own never raises anything but the
    collected errors. *)
Lemma validate_field_no_validators m f kw e :
  before_validators m = [] → validate_field m f kw ≠ Raises e.
Proof.
  intros Hm. unfold validate_field. rewrite Hm.
  destruct (kw !! validation_key f) as [v|]; [|by destruct (default f)].
  simpl. destruct (validate_annotation (ann f) v) eqn:Ha; simpl.
  - apply check_bounds_no_raise.
  - done.
  - by apply validate_annotation_no_raise in Ha.
Qed.

Lemma validate_fields_errors m fs kw :
  before_validators m = [] →
  ∃ obj, validate_fields m fs kw
         = Ok (obj, omap (λ f, match validate_field m f kw with
                               | Invalid t => Some (mk_line_error [validation_key f] t)
                               | _ => None
                               end) fs).
Proof.
  intros Hm. induction fs as [|f fs [obj IH]]; simpl; [by eexists|].
  destruct (validate_field m f kw) as [v|t|e] eqn:Hv.
  - rewrite IH. simpl. by eexists.
  - rewrite IH. simpl. by eexists.
  - by apply validate_field_no_validators in Hv.
Qed.

Lemma model_init_errors m kw :
  before_validators m = [] →
  (field_errors m kw = [] ∧ ∃ obj, model_init m kw = Ok obj)
  ∨ (field_errors m kw ≠ [] ∧ model_init m kw = Raise (ValidationError (field_errors m kw))).
Proof.
  intros Hm. unfold model_init, field_errors.
  destruct (validate_fields_errors m (model_fields m) kw Hm) as [obj ->]. simpl.
  destruct (omap _ _); [left; eauto | right; done].
Qed.

Lemma nested_model_Some {A} key (init : gmap string pyval → result A) v a errs :
  nested_model key init v = Ok (Some a, errs) → ∃ d, v = Some (PDict d) ∧ init d = Ok a.
Proof.
  unfold nested_model. destruct v as [[]|]; try done.
  destruct (init _) as [a'|[]] eqn:Hi; try done. intros [= <- <-]. eauto.
Qed.

Lemma api_host_field kw :
  validate_field (mk_BaseModel [] []) (Field "api_host" Tstr []) kw
  = match kw !! "api_host" with
    | None => Invalid missing
    | Some (PStr h) => Valid (PStr h)
    | Some _ => Invalid string_type
    end.
Proof.
  unfold validate_field. change (validation_key _) with "api_host".
  by destruct (kw !! "api_host") as [[]|].
Qed.

Lemma CBaseConfig_init_Ok cb c :
  CBaseConfig_init cb = Ok c
  ↔ cb !! "api_host" = Some (PStr (api_host c))
    ∧ ∃ sys, cb !! "system" = Some (PDict sys)
             ∧ model_init CBaseSystemParams sys = Ok (system c).
Proof.
  unfold CBaseConfig_init. rewrite api_host_field. split.
  - intros Hb. apply bind_Ok in Hb as ([o errs] & Hn & Hm). cbn [fst snd] in Hm.
    destruct (cb !! "api_host") as [[]|]; destruct o; try done.
    injection Hm as <-. apply nested_model_Some in Hn as (d & Hd & Hi).
    cbn [api_host system]. eauto.
  - intros (-> & sys & -> & Hi). unfold nested_model. rewrite Hi. by destruct c.
Qed.

(** X6: the configuration loads exactly when it has an [influxdb] section
    that loads and a [cbase] section with a text as [api_host] and a
    [system] section that loads; the loaded configuration holds what the
    sections loaded as. *)
Theorem AppConfig_loads_iff (kw : gmap string pyval) (cfg : AppConfig) :
  AppConfig_init kw = Ok cfg
  ↔ ∃ db cb sys,
      kw !! "influxdb" = Some (PDict db)
      ∧ kw !! "cbase" = Some (PDict cb)
      ∧ cb !! "system" = Some (PDict sys)
      ∧ model_init InfluxDBConfig db = Ok (influxdb cfg)
      ∧ cb !! "api_host" = Some (PStr (api_host (cbase cfg)))
      ∧ model_init CBaseSystemParams sys = Ok (system (cbase cfg)).
Proof.
  unfold AppConfig_init. split.
  - intros Hb. apply bind_Ok in Hb as ([o1 e1] & Hdb & Hb).
    apply bind_Ok in Hb as ([o2 e2] & Hcb & Hm). cbn [fst snd] in Hm.
    destruct o1 as [i|], o2 as [c|]; try done. injection Hm as <-.
    apply nested_model_Some in Hdb as (db & Hdb & Hi).
    apply nested_model_Some in Hcb as (cb & Hcb & Hc).
    apply CBaseConfig_init_Ok in Hc as (Hh & sys & Hs & Hsys).
    exists db, cb, sys. done.
  - intros (db & cb & sys & -> & -> & Hs & Hdb & Hh & Hsys).
    unfold nested_model. rewrite Hdb.
    assert (CBaseConfig_init cb = Ok (cbase cfg)) as -> by (apply CBaseConfig_init_Ok; eauto).
    by destruct cfg.
Qed.

(** X7: when both sections and the [system] section are mappings and the
    host is a text, the configuration loads exactly when no field of the
    [influxdb] and of the [system] section is in error; otherwise one
    [ValidationError] reports every field in error, those of [influxdb]
    first, each under its section's path. *)
Theorem config_errors_collected (kw db cb sys : gmap string pyval) (h : string) :
  kw !! "influxdb" = Some (PDict db) →
  kw !! "cbase" = Some (PDict cb) →
  cb !! "api_host" = Some (PStr h) →
  cb !! "system" = Some (PDict sys) →
  let errs := ((located ["influxdb"] <$> field_errors InfluxDBConfig db)
               ++ (located ["cbase"; "system"] <$> field_errors CBaseSystemParams sys))%list in
  (errs = [] ∧ ∃ cfg, AppConfig_init kw = Ok cfg)
  ∨ (errs ≠ [] ∧ AppConfig_init kw = Raise (ValidationError errs)).
Proof.
  intros Hdb Hcb Hh Hs errs. subst errs.
  unfold AppConfig_init, CBaseConfig_init. rewrite Hdb, Hcb. unfold nested_model.
  rewrite api_host_field, Hh, Hs.
  destruct (model_init_errors InfluxDBConfig db eq_refl) as [[-> [i ->]]|[Hne1 ->]];
    destruct (model_init_errors CBaseSystemParams sys eq_refl) as [[-> [s ->]]|[Hne2 ->]];
    cbn [mbind result_bind fst snd fmap list_fmap app].
  - left. eauto.
  - right. split.
    + by destruct (field_errors CBaseSystemParams sys).
    + rewrite <- list_fmap_compose. done.
  - right. split.
    + by destruct (field_errors InfluxDBConfig db).
    + reflexivity.
  - right. split.
    + by destruct (field_errors InfluxDBConfig db).
    + rewrite <- list_fmap_compose. done.
Qed.

(** X8: in a configuration that loads, a value for the slope is accepted
    exactly when it converts to an integer from 0 to 90, and one for the
    azimuth exactly when it converts to an integer from 0 to 359. *)
Theorem orientation_bounds (kw : gmap string pyval) (v : pyval) :
  (∃ sys, model_init CBaseSystemParams kw = Ok sys) →
  ((∃ sys, model_init CBaseSystemParams (<["slope" := v]> kw) = Ok sys)
     ↔ ∃ z, as_int v = Some z ∧ 0 ≤ z ≤ 90)
  ∧ ((∃ sys, model_init CBaseSystemParams (<["azimuth" := v]> kw) = Ok sys)
       ↔ ∃ z, as_int v = Some z ∧ 0 ≤ z ≤ 359).
Proof.
  intros Hkw. split.
  - apply (bounded_int_param "slope" 0 90 [ge_ 0; le_ 90]);
      [simpl; repeat constructor | reflexivity | done].
  - apply (bounded_int_param "azimuth" 0 359 [ge_ 0; le_ 359; serialization_alias_ "azi"]);
      [simpl; repeat constructor | reflexivity | done].
Qed.

(** X9: in a configuration that loads, an integer for the tracking mode
    is accepted exactly when it is 0, 1, 2 or 3, and the loaded
    configuration then holds the mode with that code. *)
Theorem tracking_codes (kw : gmap string pyval) (z : Z) :
  (∃ sys, model_init CBaseSystemParams kw = Ok sys) →
  ((∃ sys, model_init CBaseSystemParams (<["tracking" := PInt z]> kw) = Ok sys) ↔ 0 ≤ z ≤ 3)
  ∧ (∀ sys, model_init CBaseSystemParams (<["tracking" := PInt z]> kw) = Ok sys →
       ∃ t, getattr sys "tracking" = Some (PEnum t) ∧ tracking_value t = z).
Proof.
  intros Hkw.
  set (f := Field "tracking" TCBaseTrackingParam [default_ (PEnum FIXED)]).
  assert (Hin : f ∈ model_fields CBaseSystemParams) by (simpl; repeat constructor).
  assert (Hv : validate_field CBaseSystemParams f (<["tracking" := PInt z]> kw)
               = match tracking_of_value z with
                 | Some t => Valid (PEnum t)
                 | None => Invalid enum_invalid
                 end).
  { rewrite (validate_field_present _ f _ (PInt z)) by apply lookup_insert_eq.
    simpl. by destruct (tracking_of_value z). }
  split.
  - pose proof (model_init_insert CBaseSystemParams kw f (PInt z) Hin
                  (λ g Hg, CBaseSystemParams_keys _ _ Hin Hg) Hkw) as Hins.
    change (validation_key f) with "tracking" in Hins. rewrite Hins, Hv.
    destruct (tracking_of_value z) as [t|] eqn:Ht.
    + apply tracking_of_value_Some in Ht. split; [|by eauto].
      intros _. destruct t; simpl in Ht; lia.
    + split; [by intros [? ?]|]. intros Hz. exfalso.
      assert (Hz' : z = 0 ∨ z = 1 ∨ z = 2 ∨ z = 3) by lia.
      destruct Hz' as [-> | [-> | [-> | ->]]]; done.
  - intros sys Hm. apply CBaseSystemParams_shape in Hm
      as (lat & lon & slope & azi & t & out & qty & cap & -> & Hall).
    exists t. split; [reflexivity|].
    simpl in Hall.
    do 4 apply Forall2_cons_1 in Hall as [_ Hall].
    apply Forall2_cons_1 in Hall as [Ht _]. cbn [snd] in Ht.
    fold f in Ht. rewrite Hv in Ht.
    destruct (tracking_of_value z) as [t'|] eqn:Hz; [|done].
    injection Ht as ->. by apply tracking_of_value_Some.
Qed.

(** X10: the [influxdb] section needs a host and a retention policy: it
    does not load without either key; with a text as host, a text or
    null as retention policy and neither a port nor a database, it loads
    with the port 8086 and the database [cbase]. *)
Theorem influxdb_section_defaults (kw : gmap string pyval) :
  (kw !! "host" = None ∨ kw !! "retention_policy" = None →
   ∃ e, model_init InfluxDBConfig kw = Raise e)
  ∧ (∀ h rp, kw !! "host" = Some (PStr h) →
       kw !! "retention_policy" = Some rp → (rp = PNone ∨ ∃ s, rp = PStr s) →
       kw !! "port" = None → kw !! "database" = None →
       model_init InfluxDBConfig kw
       = Ok [("host", PStr h); ("port", PInt 8086); ("database", PStr "cbase");
             ("retention_policy", rp)]).
Proof.
  split.
  - intros [Hkw|Hkw].
    + apply (model_init_Raise InfluxDBConfig kw (Field "host" Tstr []));
        [simpl; repeat constructor|].
      intros v. by rewrite (validate_field_missing _ (Field "host" Tstr []) kw Hkw eq_refl).
    + apply (model_init_Raise InfluxDBConfig kw (Field "retention_policy" (TOptional Tstr) []));
        [simpl; repeat constructor|].
      intros v.
      by rewrite (validate_field_missing _ (Field "retention_policy" (TOptional Tstr) []) kw
                    Hkw eq_refl).
  - intros h rp Hh Hrp Hty Hport Hdb. apply model_init_Ok. simpl.
    repeat (apply List.Forall2_cons; [split; [reflexivity|]|]); try apply List.Forall2_nil;
      cbn [snd].
    + by rewrite (validate_field_present _ (Field "host" Tstr []) kw _ Hh).
    + by rewrite (validate_field_absent _ (Field "port" Tint [default_ (PInt 8086)]) kw Hport).
    + by rewrite (validate_field_absent _ (Field "database" Tstr [default_ (PStr "cbase")]) kw
                    Hdb).
    + rewrite (validate_field_present _ (Field "retention_policy" (TOptional Tstr) []) kw _ Hrp).
      by destruct Hty as [->|[s ->]].
Qed.

End ConfigExtras.

(** ** Further statements on the rows *)

Lemma str_keys_insert (d : gmap (option string) pyval) (k : string) (v : pyval) :
  str_keys (<[Some k := v]> d) = <[k := v]> (str_keys d).
Proof.
  apply map_eq. intros k'. rewrite lookup_str_keys.
  destruct (decide (k = k')) as [->|Hne].
  - by rewrite !lookup_insert_eq.
  - rewrite !lookup_insert_ne by congruence. by rewrite lookup_str_keys.
Qed.

Lemma foldl_zip_lookup_ne (fs row : list string) (d : gmap (option string) pyval) k :
  (∀ n, k = Some n → n ∉ fs) →
  foldl (λ d kv, <[Some (fst kv) := PStr (snd kv)]> d) d (zip fs row) !! k = d !! k.
Proof.
  revert row d. induction fs as [|a fs IH]; intros row d Hk; [done|].
  destruct row as [|b row]; [done|]. simpl. rewrite IH.
  - apply lookup_insert_ne. intros <-. apply (Hk a eq_refl). by left.
  - intros n Hn Hin. apply (Hk n Hn). by right.
Qed.

Lemma foldl_restval_lookup_ne (l : list string) (d : gmap (option string) pyval) k :
  (∀ n, k = Some n → n ∉ l) →
  foldl (λ d k, <[Some k := PNone]> d) d l !! k = d !! k.
Proof.
  revert d. induction l as [|a l IH]; intros d Hk; [done|].
  simpl. rewrite IH.
  - apply lookup_insert_ne. intros <-. apply (Hk a eq_refl). by left.
  - intros n Hn Hin. apply (Hk n Hn). by right.
Qed.

(** The cell a name is bound to: the one in the name's column, the last
    such column when the header repeats the name. *)
Lemma foldl_zip_lookup (fs row : list string) (d : gmap (option string) pyval) i k s :
  fs !! i = Some k → row !! i = Some s → (∀ j, (i < j)%nat → fs !! j ≠ Some k) →
  foldl (λ d kv, <[Some (fst kv) := PStr (snd kv)]> d) d (zip fs row) !! Some k
  = Some (PStr s).
Proof.
  revert row d i. induction fs as [|a fs IH]; intros row d i Hk Hs Hlast; [done|].
  destruct row as [|b row]; [done|]. destruct i as [|i]; simpl in *.
  - injection Hk as ->. injection Hs as ->. rewrite foldl_zip_lookup_ne.
    + apply lookup_insert_eq.
    + intros n [= <-] Hin. apply list_elem_of_lookup in Hin as [j Hj].
      apply (Hlast (S j)); [lia | done].
  - apply (IH row _ i); [done | done|]. intros j Hj. apply (Hlast (S j)). lia.
Qed.

Lemma row_dict_lookup (fieldnames row : list string) i k s :
  fieldnames !! i = Some k → row !! i = Some s →
  (∀ j, (i < j)%nat → fieldnames !! j ≠ Some k) →
  csv.row_dict fieldnames row !! Some k = Some (PStr s).
Proof.
  intros Hk Hs Hlast. unfold csv.row_dict. cbv zeta.
  destruct (bool_decide (length fieldnames < length row)%nat).
  - rewrite lookup_insert_ne by done. by eapply foldl_zip_lookup.
  - destruct (bool_decide (length row < length fieldnames)%nat);
      [|by eapply foldl_zip_lookup].
    rewrite foldl_restval_lookup_ne; [by eapply foldl_zip_lookup|].
    intros n [= <-] Hin. apply list_elem_of_lookup in Hin as [j Hj].
    rewrite lookup_drop in Hj. apply (Hlast (length row + j)%nat); [|done].
    apply lookup_lt_Some in Hs. lia.
Qed.

Lemma row_dict_None (fieldnames row : list string) :
  (length row ≤ length fieldnames)%nat → csv.row_dict fieldnames row !! None = None.
Proof.
  intros Hlen. unfold csv.row_dict. cbv zeta.
  rewrite bool_decide_false by lia.
  destruct (bool_decide (length row < length fieldnames)%nat).
  - rewrite foldl_restval_lookup_ne by done. by rewrite foldl_zip_lookup_ne.
  - by rewrite foldl_zip_lookup_ne.
Qed.

(** A row shorter than the header binds the header's last name to
    [None]. *)
Lemma row_dict_short_last (names row : list string) (k : string) :
  (length row ≤ length names)%nat →
  csv.row_dict (names ++ [k]) row !! Some k = Some PNone.
Proof.
  intros Hlen. unfold csv.row_dict. cbv zeta.
  rewrite length_app. simpl.
  rewrite bool_decide_false by lia. rewrite bool_decide_true by lia.
  rewrite drop_app_le by done. rewrite foldl_app. simpl. apply lookup_insert_eq.
Qed.

(** In a header without a repeated name, a name's column is its last. *)
Lemma NoDup_last_column (fieldnames : list string) (j : nat) (n : string) :
  NoDup fieldnames → fieldnames !! j = Some n →
  ∀ j', (j < j')%nat → fieldnames !! j' ≠ Some n.
Proof.
  intros Hnd Hj j' Hlt Hj'. pose proof (NoDup_lookup _ _ _ _ Hnd Hj Hj'). lia.
Qed.

Section RowExtras.
Context `{PyLibs}.

Lemma parse_csv_row_Raise csv_text fieldnames rows err row e :
  csv.reader (splitlines csv_text) = (fieldnames :: rows, err) →
  row ∈ rows → row ≠ [] →
  CBaseResponseData_init (csv.row_dict fieldnames row) = Raise e →
  ∃ e', parse_csv csv_text = Raise e'.
Proof.
  intros Hreader Hin Hne He.
  unfold parse_csv, csv.DictReader. rewrite Hreader. simpl.
  destruct (comprehension_Raise CBaseResponseData_init
              (csv.row_dict fieldnames <$> filter (λ row, row ≠ []) rows)
              (csv.row_dict fieldnames row) e) as [e' ->]; [|done|by eauto].
  apply list_elem_of_fmap. exists row. split; [done|].
  by apply list_elem_of_filter.
Qed.

(** X11: a row with more fields than the header has names makes the
    construction of its record raise a [TypeError], the surplus being
    bound to the key [None]; so [parse_csv] raises on a text with such a
    row. *)
Theorem surplus_fields_raise_TypeError (csv_text : string) (fieldnames : list string)
    (rows : list (list string)) (err : option exn) (row : list string) :
  csv.reader (splitlines csv_text) = (fieldnames :: rows, err) →
  row ∈ rows →
  (length fieldnames < length row)%nat →
  CBaseResponseData_init (csv.row_dict fieldnames row) = Raise TypeError
  ∧ ∃ e, parse_csv csv_text = Raise e.
Proof.
  intros Hreader Hin Hlen.
  assert (He : CBaseResponseData_init (csv.row_dict fieldnames row) = Raise TypeError).
  { unfold CBaseResponseData_init, unpack, csv.row_dict. cbv zeta.
    rewrite bool_decide_true by done. by rewrite lookup_insert_eq. }
  split; [done|]. eapply parse_csv_row_Raise; [done | done | | done].
  intros ->. simpl in Hlen. lia.
Qed.

(** A field no validator is registered for does not raise. *)
Lemma validate_field_unvalidated m f kw e :
  (∀ names fn, (names, fn) ∈ before_validators m → name f ∉ names) →
  validate_field m f kw ≠ Raises e.
Proof.
  intros Hbefore. unfold validate_field.
  destruct (kw !! validation_key f) as [v|]; [|by destruct (default f)].
  assert (Hrun : run_before (before_validators m) (name f) v = Valid v).
  { induction (before_validators m) as [|[names fn] vs IH]; simpl; [done|].
    rewrite bool_decide_false by (eapply Hbefore; left).
    apply IH. intros names' fn' Hin. eapply Hbefore. by right. }
  rewrite Hrun. simpl. destruct (validate_annotation (ann f) v) eqn:Ha; simpl.
  - apply check_bounds_no_raise.
  - done.
  - by apply validate_annotation_no_raise in Ha.
Qed.

(** All exceptions of the validation are the first field's that raises. *)
Lemma validate_fields_Raise m fs1 f fs2 kw e :
  Forall (λ g, ∀ e', validate_field m g kw = Raises e' → e' = e) fs1 →
  validate_field m f kw = Raises e →
  validate_fields m (fs1 ++ f :: fs2) kw = Raise e.
Proof.
  intros Hfs Hf. induction Hfs as [|g fs1 Hg _ IH]; simpl.
  - by rewrite Hf.
  - destruct (validate_field m g kw) as [v|t|e'] eqn:Hv.
    + by rewrite IH.
    + by rewrite IH.
    + by rewrite (Hg e' eq_refl).
Qed.

(** The validator of the nullable fields raises nothing but the
    [TypeError] of [float]. *)
Lemma nullable_field_raises n kw e :
  n ∈ nullable_names →
  validate_field CBaseResponseData (Field n (TOptional Tfloat) []) kw = Raises e →
  e = TypeError.
Proof.
  intros Hn. unfold validate_field.
  change (validation_key _) with n. change (name (Field n _ _)) with n.
  destruct (kw !! n) as [v|]; [|done].
  assert (Hrun : run_before (before_validators CBaseResponseData) n v
                 = CBaseResponseData_parse_na v).
  { simpl. rewrite bool_decide_true by done. by destruct (CBaseResponseData_parse_na v). }
  rewrite Hrun. unfold CBaseResponseData_parse_na.
  destruct (eq_str v "NA"); [done|].
  destruct v as [| | | |s| | | |]; simpl; try done; try (by intros [= <-]).
  destruct (float_of_str s); done.
Qed.

Lemma nullable_field_None n kw :
  n ∈ nullable_names → kw !! n = Some PNone →
  validate_field CBaseResponseData (Field n (TOptional Tfloat) []) kw = Raises TypeError.
Proof.
  intros Hn Hkw.
  rewrite (validate_field_present _ (Field n (TOptional Tfloat) []) kw _ Hkw).
  change (name (Field n _ _)) with n. simpl. by rewrite bool_decide_true by done.
Qed.

(** X12: under the header of the API's answer, a row with fewer fields
    than the header has names makes the construction of its record raise
    a [TypeError]: the missing fields are bound to [None], which the
    validator of [pv_eta] hands to [float]; so [parse_csv] raises on a
    text with such a row. *)
Theorem short_row_raises_TypeError (csv_text : string) (rows : list (list string))
    (err : option exn) (row : list string) :
  csv.reader (splitlines csv_text) = (column_names :: rows, err) →
  row ∈ rows →
  row ≠ [] →
  (length row < length column_names)%nat →
  CBaseResponseData_init (csv.row_dict column_names row) = Raise TypeError
  ∧ ∃ e, parse_csv csv_text = Raise e.
Proof.
  intros Hreader Hin Hne Hlen.
  assert (He : CBaseResponseData_init (csv.row_dict column_names row) = Raise TypeError).
  { unfold CBaseResponseData_init, unpack.
    rewrite row_dict_None by lia. simpl.
    set (kw := str_keys _).
    assert (Heta : kw !! "pv_eta" = Some PNone).
    { unfold kw. rewrite lookup_str_keys.
      change column_names
        with (("Time.UTC" :: required_float_names ++ ["pv_T"]) ++ ["pv_eta"])%list.
      apply row_dict_short_last. change (length column_names) with 22%nat in Hlen.
      change (length _) with 21%nat at 2. lia. }
    unfold model_init.
    change (model_fields CBaseResponseData)
      with (take 21 (model_fields CBaseResponseData)
            ++ Field "pv_eta" (TOptional Tfloat) [] :: [])%list.
    rewrite (validate_fields_Raise _ _ _ _ _ TypeError); [done| |].
    - simpl. repeat (apply Forall_cons; split; [|]); try apply Forall_nil_2;
        intros e' He';
        first [ by eapply nullable_field_raises; [|exact He']; repeat constructor
              | exfalso; revert He'; apply validate_field_unvalidated;
                intros names fn Hx; simpl in Hx;
                apply list_elem_of_singleton in Hx; injection Hx as -> ->;
                apply (bool_decide_unpack _); vm_compute; exact I ].
    - apply nullable_field_None; [|done]. repeat constructor. }
  split; [done|]. by eapply parse_csv_row_Raise.
Qed.

(** X13: a row that lacks one of the twenty-two columns of the API's
    answer gives no record: the construction raises. *)
Theorem missing_column_raises (row : gmap (option string) pyval) (n : string) :
  n ∈ column_names →
  row !! Some n = None →
  ∃ e, CBaseResponseData_init row = Raise e.
Proof.
  intros Hn Hrow. unfold CBaseResponseData_init, unpack.
  destruct (row !! None); simpl; [eauto|].
  rewrite <- lookup_str_keys in Hrow. set (kw := str_keys row) in *.
  unfold column_names, required_float_names, nullable_names in Hn. simpl in Hn.
  repeat (apply elem_of_cons in Hn as [->|Hn];
    [let fs := eval cbv beta iota delta [CBaseResponseData model_fields]
               in (model_fields CBaseResponseData) in
     find_field ltac:(fun f =>
       apply (model_init_Raise CBaseResponseData kw f); [simpl; repeat constructor|];
       intros v; rewrite (validate_field_missing CBaseResponseData f kw Hrow eq_refl);
       discriminate) fs|]).
  by apply elem_of_nil in Hn.
Qed.

Lemma validate_fields_insert_extra m fs kw k v :
  Forall (λ f, validation_key f ≠ k) fs →
  validate_fields m fs (<[k := v]> kw) = validate_fields m fs kw.
Proof.
  intros Hfs. induction Hfs as [|f fs Hf _ IH]; simpl; [done|].
  by rewrite validate_field_insert_ne, IH.
Qed.

(** X14: a column of another name than the twenty-two of the API's answer
    changes nothing: the row gives the record, or the exception, it gives
    without that column. *)
Theorem extra_column_ignored (row : gmap (option string) pyval) (k : string) (v : pyval) :
  k ∉ column_names →
  CBaseResponseData_init (<[Some k := v]> row) = CBaseResponseData_init row.
Proof.
  intros Hk. unfold CBaseResponseData_init, unpack.
  rewrite lookup_insert_ne by done. destruct (row !! None); [done|]. simpl.
  rewrite str_keys_insert. unfold model_init.
  rewrite validate_fields_insert_extra; [done|].
  apply Forall_forall. intros f Hf <-. apply Hk.
  change column_names with (validation_key <$> model_fields CBaseResponseData).
  apply list_elem_of_fmap. eauto.
Qed.

(** X15: what the script prints for one point or more does not open as
    a JSON array of objects does: after the bracket comes the quote of a
    Python string, the [repr] of the first point's JSON text. *)
Theorem printed_points_open_with_a_quote (p : InfluxDBPoint) (points : list InfluxDBPoint) :
  opens_array_of_objects (repr_list (model_dump_json <$> p :: points)) = false
  ∧ ∃ rest, repr_list (model_dump_json <$> p :: points) = String "[" (String "'" rest).
Proof.
  unfold repr_list. rewrite fmap_cons. rewrite fmap_cons.
  assert (Hq : ∃ rest, repr_str (model_dump_json p) = String "'" rest).
  { unfold repr_str.
    assert (Hc : contains "034" (model_dump_json p) = true) by reflexivity.
    rewrite Hc, andb_false_r. simpl. eauto. }
  destruct Hq as [rest Hq].
  assert (Hj : ∃ rest', join ", " (repr_str (model_dump_json p)
                                   :: (repr_str <$> (model_dump_json <$> points)))
                        = String "'" rest').
  { rewrite Hq. destruct (repr_str <$> _); simpl; eauto. }
  destruct Hj as [rest' ->]. split; [reflexivity|]. simpl. eauto.
Qed.

Lemma getattr_validated m fs kw obj f :
  Forall2 (λ f nv, fst nv = name f ∧ validate_field m f kw = Valid (snd nv)) fs obj →
  NoDup (name <$> fs) → f ∈ fs →
  ∃ v, getattr obj (name f) = Some v ∧ validate_field m f kw = Valid v.
Proof.
  intros Hall. induction Hall as [|g [n v] fs obj [Hn Hv] _ IH]; intros Hnd Hin.
  - by apply elem_of_nil in Hin.
  - simpl in *. subst n. apply NoDup_cons in Hnd as [Hg Hnd].
    destruct (String.eqb_spec (name g) (name f)) as [Heq|Hne].
    + apply elem_of_cons in Hin as [->|Hin]; [eauto|].
      exfalso. apply Hg. rewrite Heq. apply list_elem_of_fmap. eauto.
    + apply elem_of_cons in Hin as [->|Hin]; [done|]. by apply IH.
Qed.

(** What a record holds under an attribute, from the row it was built
    from. *)
Lemma record_attribute kw data f :
  model_init CBaseResponseData kw = Ok data → f ∈ model_fields CBaseResponseData →
  ∃ v, getattr data (name f) = Some v ∧ validate_field CBaseResponseData f kw = Valid v.
Proof.
  intros Hm Hf. apply model_init_Ok in Hm.
  eapply getattr_validated; [done| |done].
  apply (bool_decide_unpack _). vm_compute. exact I.
Qed.

(** X16: a record holds, under each attribute, what the cell of the
    attribute's column reads as: the date-time of the text in the column
    [Time.UTC]; the float of the text in a numeric column; in the columns
    [pv_T] and [pv_eta], [None] for the text [NA] and otherwise the float
    [float] makes of the text.  The column is found by its name in the
    header, wherever it stands. *)
Theorem record_holds_parsed_cells (csv_text : string) (fieldnames : list string)
    (rows : list (list string)) (err : option exn) (data_list : list instance)
    (i j : nat) (row : list string) (data : instance) (n s : string) :
  parse_csv csv_text = Ok data_list →
  csv.reader (splitlines csv_text) = (fieldnames :: rows, err) →
  filter (λ row, row ≠ []) rows !! i = Some row →
  data_list !! i = Some data →
  fieldnames !! j = Some n →
  (∀ j', (j < j')%nat → fieldnames !! j' ≠ Some n) →
  row !! j = Some s →
  (n = "Time.UTC" →
     ∃ d, str_as_datetime s = Some d ∧ getattr data "Time_UTC" = Some (PDatetime d))
  ∧ (n ∈ required_float_names →
       ∃ x, str_as_float s = Some x ∧ getattr data n = Some (PFloat x))
  ∧ (n ∈ nullable_names →
       if String.eqb s "NA" then getattr data n = Some PNone
       else ∃ x, float_of_str s = Some x ∧ getattr data n = Some (PFloat x)).
Proof.
  intros Hdata Hreader Hrow Hdi Hn Hlast Hs.
  apply parse_csv_Ok in Hdata as [_ Hdata].
  unfold csv.DictReader in Hdata. rewrite Hreader in Hdata. simpl in Hdata.
  apply Forall2_fmap_l in Hdata.
  destruct (Forall2_lookup_l _ _ _ _ _ Hdata Hrow) as (data' & Hdi' & Hinit).
  assert (data' = data) as -> by congruence.
  apply CBaseResponseData_init_Ok in Hinit as [_ Hinit].
  pose proof (row_dict_lookup fieldnames row j n s Hn Hs Hlast) as Hcell.
  rewrite <- lookup_str_keys in Hcell. set (kw := str_keys _) in *.
  split; [|split].
  - intros ->.
    destruct (record_attribute kw data (Field "Time_UTC" Tdatetime [alias_ "Time.UTC"]) Hinit)
      as (v & Hget & Hv); [simpl; repeat constructor|].
    rewrite (validate_field_present _ (Field "Time_UTC" Tdatetime [alias_ "Time.UTC"]) kw _
               Hcell) in Hv.
    simpl in Hv. destruct (str_as_datetime s) as [d|]; [|done]. simpl in Hv.
    apply check_bounds_Valid in Hv as [-> _]. eauto.
  - intros Hreq.
    destruct (record_attribute kw data (Field n Tfloat []) Hinit) as (v & Hget & Hv).
    { unfold required_float_names in Hreq.
      repeat (apply elem_of_cons in Hreq as [->|Hreq]; [simpl; repeat constructor|]).
      by apply elem_of_nil in Hreq. }
    change (name (Field n Tfloat [])) with n in Hget.
    rewrite (validate_field_present _ (Field n Tfloat []) kw _ Hcell) in Hv.
    change (name (Field n Tfloat [])) with n in Hv.
    assert (Hrun : run_before (before_validators CBaseResponseData) n (PStr s) = Valid (PStr s)).
    { simpl. rewrite bool_decide_false; [done|].
      unfold required_float_names in Hreq. intros Hx.
      repeat (apply elem_of_cons in Hx as [->|Hx];
              [by repeat (apply elem_of_cons in Hreq as [?|Hreq]; [done|]);
                  apply elem_of_nil in Hreq|]).
      by apply elem_of_nil in Hx. }
    rewrite Hrun in Hv. simpl in Hv.
    destruct (str_as_float s) as [x|]; [|done]. simpl in Hv.
    apply check_bounds_Valid in Hv as [-> _]. eauto.
  - intros Hnull.
    destruct (record_attribute kw data (Field n (TOptional Tfloat) []) Hinit) as (v & Hget & Hv).
    { unfold nullable_names in Hnull.
      repeat (apply elem_of_cons in Hnull as [->|Hnull]; [simpl; repeat constructor|]).
      by apply elem_of_nil in Hnull. }
    change (name (Field n (TOptional Tfloat) [])) with n in Hget.
    rewrite (validate_field_present _ (Field n (TOptional Tfloat) []) kw _ Hcell) in Hv.
    change (name (Field n (TOptional Tfloat) [])) with n in Hv.
    assert (Hrun : run_before (before_validators CBaseResponseData) n (PStr s)
                   = CBaseResponseData_parse_na (PStr s)).
    { simpl. rewrite bool_decide_true by done.
      by destruct (CBaseResponseData_parse_na (PStr s)). }
    rewrite Hrun in Hv. unfold CBaseResponseData_parse_na in Hv. simpl in Hv.
    destruct (String.eqb s "NA").
    + simpl in Hv. apply check_bounds_Valid in Hv as [-> _]. done.
    + simpl in Hv. destruct (float_of_str s) as [x|]; [|done]. simpl in Hv.
      apply check_bounds_Valid in Hv as [-> _]. eauto.
Qed.

(** X17: the conversion to points adds no failure of its own: it raises
    exactly when [parse_csv] does, and then the same exception. *)
Theorem points_raise_as_parse_csv (csv_text : string) (e : exn) :
  csv_to_influxdb_points csv_text = Raise e ↔ parse_csv csv_text = Raise e.
Proof.
  unfold csv_to_influxdb_points.
  destruct (parse_csv csv_text) as [data_list|e'] eqn:Hdata; simpl;
    [|split; intros [= ->]; done].
  split; [|done]. intros Hraise. exfalso.
  apply parse_csv_Ok in Hdata as [_ Hrows].
  assert (Hall : Forall (λ data, ∃ p, to_point data = Ok p) data_list).
  { apply Forall_forall. intros data Hin. apply list_elem_of_lookup in Hin as [i Hi].
    destruct (Forall2_lookup_r _ _ _ _ _ Hrows Hi) as (row & _ & Hinit).
    apply CBaseResponseData_init_Ok in Hinit as [_ Hinit].
    destruct (to_point_validated _ _ Hinit) as (p & Hp & _). eauto. }
  clear Hrows. revert e Hraise. induction Hall as [|data l [p Hp] _ IH]; intros e; simpl; [done|].
  rewrite Hp. simpl. destruct (comprehension to_point l); [done|]. simpl.
  intros [= <-]. by eapply IH.
Qed.

End RowExtras.

(** ** The query of the request *)

Lemma SFcompare_finite_refl s m e :
  SFcompare (S754_finite s m e) (S754_finite s m e) = Some Eq.
Proof.
  simpl. destruct s; rewrite Z.compare_refl.
  - by rewrite Pos.compare_cont_refl.
  - by rewrite Pos.compare_cont_refl.
Qed.

(** A float from -90 to 90 is finite: no infinity and no NaN. *)
Lemma between_90_is_finite (x : float) :
  PrimFloat.leb (Z_to_float (-90)) x = true → PrimFloat.leb x (Z_to_float 90) = true →
  PrimFloat.is_finite x = true.
Proof.
  rewrite !FloatAxioms.leb_spec.
  unfold PrimFloat.is_finite, PrimFloat.is_nan, PrimFloat.is_infinity.
  rewrite !FloatAxioms.eqb_spec, FloatAxioms.abs_spec.
  assert (Prim2SF (Z_to_float (-90)) = S754_finite true 6333186975989760 (-46)) as ->
    by (vm_compute; reflexivity).
  assert (Prim2SF (Z_to_float 90) = S754_finite false 6333186975989760 (-46)) as ->
    by (vm_compute; reflexivity).
  assert (Prim2SF infinity = S754_infinity false) as -> by (vm_compute; reflexivity).
  destruct (Prim2SF x) as [s|s| |s m e].
  - by destruct s.
  - by destruct s.
  - done.
  - intros _ _. unfold SFeqb at 1. rewrite SFcompare_finite_refl. reflexivity.
Qed.

Section QueryExtras.
Context `{PyLibs}.

Lemma bounded_coordinate n args kw x :
  Field n Tfloat args = mk_FieldInfo n Tfloat None (Some (-90)) (Some 90)
                          None (serialization_alias (Field n Tfloat args)) →
  validate_field CBaseSystemParams (Field n Tfloat args) kw = Valid (PFloat x) →
  PrimFloat.is_finite x = true.
Proof.
  intros Hf Hv. rewrite Hf in Hv.
  apply validate_field_Valid in Hv as [[_ Hd]|(v & v1 & _ & _ & _ & Hle & Hge)]; [done|].
  unfold check_le, check_ge in Hle, Hge. simpl in Hle, Hge.
  apply between_90_is_finite.
  - by destruct (PrimFloat.leb (Z_to_float (-90)) x).
  - by destruct (PrimFloat.leb x (Z_to_float 90)).
Qed.

(** The coordinates of a validated system are finite floats. *)
Lemma system_coordinates_finite kw sys :
  model_init CBaseSystemParams kw = Ok sys →
  ∃ lat lon slope azi t out qty cap,
    sys = [("latitude", PFloat lat); ("longitude", PFloat lon); ("slope", PInt slope);
           ("azimuth", PInt azi); ("tracking", PEnum t); ("panel_output", PInt out);
           ("panel_quantity", PInt qty); ("inverter_capacity", PInt cap)]
    ∧ PrimFloat.is_finite lat = true ∧ PrimFloat.is_finite lon = true.
Proof.
  intros Hm. apply CBaseSystemParams_shape in Hm
    as (lat & lon & slope & azi & t & out & qty & cap & -> & Hall).
  simpl in Hall.
  apply Forall2_cons_1 in Hall as [Hlat Hall]. apply Forall2_cons_1 in Hall as [Hlon _].
  cbn [snd] in Hlat, Hlon.
  exists lat, lon, slope, azi, t, out, qty, cap. split; [done|]. split.
  - by eapply (bounded_coordinate "latitude" [ge_ (-90); le_ 90; serialization_alias_ "lat"]).
  - by eapply (bounded_coordinate "longitude" [ge_ (-90); le_ 90; serialization_alias_ "lon"]).
Qed.

(** The parameters of the GET for a system. *)
Lemma request_params_of lat lon slope azi t out qty cap API_KEY :
  request_params
    [("latitude", PFloat lat); ("longitude", PFloat lon); ("slope", PInt slope);
     ("azimuth", PInt azi); ("tracking", PEnum t); ("panel_output", PInt out);
     ("panel_quantity", PInt qty); ("inverter_capacity", PInt cap)] API_KEY
  = [("lat", PFloat lat); ("lon", PFloat lon); ("slope", PInt slope); ("azi", PInt azi);
     ("tracking", PEnum t); ("panel_out", PInt out); ("panel_qty", PInt qty);
     ("inv_cap", PInt cap); ("apikey", PStr API_KEY)].
Proof. reflexivity. Qed.

Lemma AppConfig_init_system kw cfg :
  AppConfig_init kw = Ok cfg → ∃ sys, model_init CBaseSystemParams sys = Ok (system (cbase cfg)).
Proof.
  unfold AppConfig_init. intros Hb. apply bind_Ok in Hb as ([o1 e1] & _ & Hb).
  apply bind_Ok in Hb as ([o2 e2] & Hcb & Hm). cbn [fst snd] in Hm.
  destruct o1 as [i|], o2 as [c|]; try done. injection Hm as <-.
  apply nested_model_Some in Hcb as (cb & _ & Hc).
  apply CBaseConfig_init_Ok in Hc as (_ & sys & _ & Hsys). eauto.
Qed.

(** X18: the query of the request for a validated system: the two
    coordinates as [str] writes the floats, the integers in decimal, the
    tracking mode as its code, then the API key; the conversion cannot
    fail, the bounds of the coordinates leaving no infinity and no NaN. *)
Theorem request_query_values (kw : gmap string pyval) (sys : instance) (API_KEY : string) :
  model_init CBaseSystemParams kw = Ok sys →
  ∃ lat lon slope azi t out qty cap,
    sys = [("latitude", PFloat lat); ("longitude", PFloat lon); ("slope", PInt slope);
           ("azimuth", PInt azi); ("tracking", PEnum t); ("panel_output", PInt out);
           ("panel_quantity", PInt qty); ("inverter_capacity", PInt cap)]
    ∧ query_of (request_params sys API_KEY)
      = Ok [("lat", float_str lat); ("lon", float_str lon); ("slope", pretty slope);
            ("azi", pretty azi); ("tracking", pretty (tracking_value t));
            ("panel_out", pretty out); ("panel_qty", pretty qty); ("inv_cap", pretty cap);
            ("apikey", API_KEY)].
Proof.
  intros Hm. apply system_coordinates_finite in Hm
    as (lat & lon & slope & azi & t & out & qty & cap & -> & Hlat & Hlon).
  exists lat, lon, slope, azi, t, out, qty, cap. split; [done|].
  unfold query_of. rewrite request_params_of.
  cbn -[PrimFloat.is_finite pretty]. rewrite Hlat, Hlon. reflexivity.
Qed.

(** X19: a run whose configuration file is read and loads always sends
    the request: after opening the file, the GET to the configured host. *)
Theorem configured_run_requests (w : World) (API_KEY : string) (args : AppArgs)
    (text : string) (config : pyval) (app_config : AppConfig) :
  files w !! config_file args = Some text →
  yaml_safe_load text = Ok config →
  AppConfig_of config = Ok app_config →
  ∃ query rest,
    query_of (request_params (system (cbase app_config)) API_KEY) = Ok query
    ∧ fst (run w API_KEY args)
      = Open (config_file args) :: Get (API_URL (api_host (cbase app_config))) query :: rest.
Proof.
  intros Hfile Hyaml Hcfg.
  assert (Hq : ∃ query,
            query_of (request_params (system (cbase app_config)) API_KEY) = Ok query).
  { destruct config; try done. simpl in Hcfg.
    apply AppConfig_init_system in Hcfg as [kw Hsys].
    apply system_coordinates_finite in Hsys
      as (lat & lon & slope & azi & t & out & qty & cap & -> & Hlat & Hlon).
    unfold query_of. rewrite request_params_of.
    cbn -[PrimFloat.is_finite pretty]. rewrite Hlat, Hlon. by eexists. }
  destruct Hq as [query Hquery]. exists query.
  unfold query_of in Hquery.
  unfold run, collect_data, read_file, lift, emit, mbind, prog_bind. cbn [fst snd].
  rewrite Hfile. cbn [fst snd]. rewrite Hyaml. cbn [fst snd]. rewrite Hcfg. cbn [fst snd].
  rewrite Hquery. cbn [fst snd].
  repeat match goal with
  | |- context [match ?x with _ => _ end] =>
      lazymatch x with
      | context [match _ with _ => _ end] => fail
      | _ => destruct x eqn:?
      end; cbn [fst snd app]
  end; eauto.
Qed.

End QueryExtras.

(** * The examples

    The theorems at the inputs of [Examples], with [sample_libs] for the
    libraries. *)

#[local] Existing Instance sample_libs.

Ltac solve_plain_field :=
  split; [vm_compute; reflexivity | vm_compute; discriminate].

Ltac solve_plain_row :=
  split; [repeat (apply List.Forall_cons; [solve_plain_field|]); apply List.Forall_nil
         | discriminate].

(** The text of the examples parses to the two records and gives the two
    points: the first without a key for the panel temperature, which the
    row gives as [NA]. *)
Example parse_csv_example :
  parse_csv Examples.csv_text = Ok [Examples.record_1; Examples.record_2].
Proof. vm_compute. reflexivity. Qed.

Example csv_to_influxdb_points_example :
  csv_to_influxdb_points Examples.csv_text = Ok [Examples.point_1; Examples.point_2].
Proof. vm_compute. reflexivity. Qed.

(** The system parameters of the examples load, with the two defaults. *)
Example system_params_example :
  model_init CBaseSystemParams Examples.system_params = Ok Examples.system.
Proof. vm_compute. reflexivity. Qed.

(** A latitude of 95 is refused when the configuration is loaded, and the
    error names the field. *)
Example latitude_95_example :
  AppConfig_of (Examples.config_with (<["latitude" := PInt 95]> Examples.system_params))
  = Raise (ValidationError
             [mk_line_error ["cbase"; "system"; "latitude"] (less_than_equal 90)]).
Proof. vm_compute. reflexivity. Qed.

(** A dry run: the configuration is read, the API is asked once, and the
    points are logged, not written. *)
Example dry_run_example :
  script (Examples.world Examples.csv_text_one_row) (mk_AppArgs "config.yaml" None true)
  = ([Open "config.yaml";
      Get "https://api.example.org/api/pvfcst_request"
        [("lat", "60.25"); ("lon", "24.5"); ("slope", "30"); ("azi", "180");
         ("tracking", "0"); ("panel_out", "300"); ("panel_qty", "12"); ("inv_cap", "0");
         ("apikey", "secret")];
      Log response_logged;
      Log (send_data_dry_run [Examples.point_1]);
      Close],
     Ok ()).
Proof. vm_compute. reflexivity. Qed.

(** C1 at the first row of the example: [pv_T] is [NA] in the row and has
    no key in the point, [pv_eta] is [3.2] and is bound to that float. *)
Lemma nullable_fields_of_points_witness :
  fields_map Examples.point_1 !! "pv_T" = None
  ∧ fields_map Examples.point_1 !! "pv_eta" = Some 0x1.999999999999ap+1%float.
Proof.
  assert (Hpts : csv_to_influxdb_points Examples.csv_text
                 = Ok [Examples.point_1; Examples.point_2]) by (vm_compute; reflexivity).
  assert (Hreader : csv.reader (splitlines Examples.csv_text)
                    = (Examples.fieldnames :: [Examples.row_1; Examples.row_2], None))
    by (vm_compute; reflexivity).
  assert (HT : csv.row_dict Examples.fieldnames Examples.row_1 !! Some "pv_T"
               = Some (PStr "NA")) by (vm_compute; reflexivity).
  assert (Heta : csv.row_dict Examples.fieldnames Examples.row_1 !! Some "pv_eta"
                 = Some (PStr "3.2")) by (vm_compute; reflexivity).
  assert (Hx : float_of_str "3.2" = Some 0x1.999999999999ap+1%float)
    by (vm_compute; reflexivity).
  pose proof (nullable_fields_of_points Examples.csv_text _ _ _ _ 0 Examples.row_1
                Examples.point_1 "pv_T" Hpts Hreader eq_refl eq_refl
                ltac:(repeat constructor)) as [HNA _].
  pose proof (nullable_fields_of_points Examples.csv_text _ _ _ _ 0 Examples.row_1
                Examples.point_1 "pv_eta" Hpts Hreader eq_refl eq_refl
                ltac:(repeat constructor)) as [_ Hnum].
  split.
  - exact (HNA HT).
  - exact (Hnum "3.2" _ Heta ltac:(discriminate) Hx).
Defined.

(** C2 at the example: the two records give two points. *)
Lemma points_of_records_witness :
  ∃ pts, csv_to_influxdb_points Examples.csv_text = Ok pts
    ∧ Forall2 point_of_record [Examples.record_1; Examples.record_2] pts.
Proof.
  assert (Hdata : parse_csv Examples.csv_text = Ok [Examples.record_1; Examples.record_2])
    by (vm_compute; reflexivity).
  exact (points_of_records Examples.csv_text _ Hdata).
Defined.

(** C3 at the example with a malformed third line. *)
Lemma parse_csv_aborts_on_malformed_row_witness :
  ∃ e, parse_csv Examples.csv_text_bad = Raise e.
Proof.
  assert (Hreader : csv.reader (splitlines Examples.csv_text_bad)
                    = (Examples.fieldnames
                       :: [Examples.row_1; Examples.row_bad; Examples.row_2], None))
    by (vm_compute; reflexivity).
  assert (Hin : Examples.row_bad ∈ [Examples.row_1; Examples.row_bad; Examples.row_2])
    by (repeat constructor).
  assert (Hbad : malformed (csv.row_dict Examples.fieldnames Examples.row_bad)).
  { left. exists "temp_avg", "n/a". split; [repeat constructor|].
    split; vm_compute; reflexivity. }
  exact (parse_csv_aborts_on_malformed_row Examples.csv_text_bad _ _ _ _ Hreader Hin Hbad).
Defined.

(** C4 at the example: two well-formed rows, two records, those the rows
    stand for. *)
Lemma parse_csv_one_record_per_row_witness :
  ∃ data, parse_csv Examples.csv_text = Ok data
    ∧ length data = 2%nat
    ∧ Forall2 (λ row d, record_of_row (csv.row_dict Examples.fieldnames row) = Some d)
        [Examples.row_1; Examples.row_2] data.
Proof.
  assert (Hplain : Forall plain_row [Examples.fieldnames; Examples.row_1; Examples.row_2]).
  { cbv [Examples.fieldnames Examples.row_1 Examples.row_2 required_float_names
         nullable_names app].
    repeat (apply List.Forall_cons; [solve_plain_row|]). apply List.Forall_nil. }
  assert (H1 : well_formed (csv.row_dict Examples.fieldnames Examples.row_1)).
  { apply well_formed_record. split; [vm_compute; reflexivity|].
    exists Examples.record_1. vm_compute. reflexivity. }
  assert (H2 : well_formed (csv.row_dict Examples.fieldnames Examples.row_2)).
  { apply well_formed_record. split; [vm_compute; reflexivity|].
    exists Examples.record_2. vm_compute. reflexivity. }
  assert (Hall : Forall (λ row, well_formed (csv.row_dict Examples.fieldnames row))
                   [Examples.row_1; Examples.row_2]).
  { apply List.Forall_cons; [exact H1|]. apply List.Forall_cons; [exact H2|].
    apply List.Forall_nil. }
  destruct parse_csv_one_record_per_row as (_ & Hrows & _).
  exact (Hrows Examples.fieldnames [Examples.row_1; Examples.row_2] Hplain Hall).
Defined.

(** C7 as stated fails: a panel output of 1001 is not negative and is
    refused. *)
Lemma panel_output_1001_rejected :
  model_init CBaseSystemParams (<["panel_output" := PInt 1001]> Examples.system_params)
  = Raise (ValidationError [mk_line_error ["panel_output"] (less_than_equal 1000)]).
Proof. vm_compute. reflexivity. Qed.

(** C7, as the code has it, at the example: 1000 is taken. *)
Lemma panel_fields_bounds_witness :
  ∃ sys, model_init CBaseSystemParams (<["panel_output" := PInt 1000]> Examples.system_params)
         = Ok sys.
Proof.
  assert (Hloads : ∃ sys, model_init CBaseSystemParams Examples.system_params = Ok sys).
  { exists Examples.system. vm_compute. reflexivity. }
  destruct (panel_fields_bounds Examples.system_params (PInt 1000) Hloads) as [[_ Hout] _].
  apply Hout. exists 1000. split; [reflexivity | lia].
Defined.

(** C8 as stated fails: for the file with one row the script prints a
    line that opens with a bracket and a single quote, which no JSON array
    of objects does. *)
Lemma csv_file_mode_prints_no_json_array :
  script (Examples.world Examples.csv_text_one_row)
    (mk_AppArgs "config.yaml" (Some "data.csv") false)
  = ([Open "data.csv"; Print Examples.printed_one_row], Ok ())
  ∧ opens_array_of_objects Examples.printed_one_row = false
  ∧ Examples.printed_one_row ≠ json_array_of_points [Examples.point_1].
Proof.
  split; [vm_compute; reflexivity|]. split; [vm_compute; reflexivity|].
  intros Heq. apply (f_equal (λ s, String.get 1 s)) in Heq. vm_compute in Heq. discriminate.
Qed.

(** C8, as the code has it, at the example. *)
Lemma csv_file_mode_witness :
  script (Examples.world Examples.csv_text_one_row)
    (mk_AppArgs "config.yaml" (Some "data.csv") true)
  = ([Open "data.csv"; Print (repr_list (model_dump_json <$> [Examples.point_1]))], Ok ()).
Proof.
  assert (Hfile : files (Examples.world Examples.csv_text_one_row) !! "data.csv"
                  = Some Examples.csv_text_one_row) by (vm_compute; reflexivity).
  assert (Hpts : csv_to_influxdb_points Examples.csv_text_one_row = Ok [Examples.point_1])
    by (vm_compute; reflexivity).
  assert (Hkey : environ (Examples.world Examples.csv_text_one_row) !! "CBASE_API_KEY"
                 = Some "secret") by (vm_compute; reflexivity).
  destruct (csv_file_mode (Examples.world Examples.csv_text_one_row)
              (mk_AppArgs "config.yaml" (Some "data.csv") true) "data.csv" "secret"
              eq_refl ltac:(discriminate) Hkey) as (_ & _ & Hprint).
  exact (Hprint _ _ Hfile Hpts).
Defined.

(** C9 at the example with the tracking code 2: the mode is sent as 2. *)
Lemma request_params_wire_names_witness :
  fst <$> request_params Cases.system_x_axis "secret"
  = ["lat"; "lon"; "slope"; "azi"; "tracking"; "panel_out"; "panel_qty"; "inv_cap"; "apikey"]
  ∧ getattr (request_params Cases.system_x_axis "secret") "tracking"
    = Some (PEnum X_AXIS_TRACKING)
  ∧ query_var (PEnum X_AXIS_TRACKING) = Ok "2".
Proof.
  assert (Hsys : model_init CBaseSystemParams (<["tracking" := PInt 2]> Examples.system_params)
                 = Ok Cases.system_x_axis) by (vm_compute; reflexivity).
  destruct (request_params_wire_names _ Cases.system_x_axis "secret" Hsys)
    as (Hkeys & _ & (t & Ht & Hp & _ & _ & Hq) & _).
  assert (Hmode : t = X_AXIS_TRACKING) by (by injection Ht as <-).
  rewrite Hmode in Hp, Hq. split; [exact Hkeys|]. split; [exact Hp | exact Hq].
Defined.


(** ** The further statements at the examples *)

(** X3 at the example: a run that writes. *)
Lemma write_carries_response_points_witness :
  dry_run (mk_AppArgs "config.yaml" None false) = false
  ∧ (csv_file (mk_AppArgs "config.yaml" None false) = None
     ∨ csv_file (mk_AppArgs "config.yaml" None false) = Some "")
  ∧ ∃ API_KEY text config app_config query response,
      environ (Examples.world Examples.csv_text_one_row) !! "CBASE_API_KEY" = Some API_KEY
      ∧ files (Examples.world Examples.csv_text_one_row) !! "config.yaml" = Some text
      ∧ yaml_safe_load text = Ok config
      ∧ AppConfig_of config = Ok app_config
      ∧ query_of (request_params (system (cbase app_config)) API_KEY) = Ok query
      ∧ http_get (Examples.world Examples.csv_text_one_row)
          (API_URL (api_host (cbase app_config))) query = Ok (Ok response)
      ∧ csv_to_influxdb_points response = Ok [Examples.point_1]
      ∧ None = retention_policy_of (influxdb app_config).
Proof.
  assert (Hrun : fst (script (Examples.world Examples.csv_text_one_row)
                        (mk_AppArgs "config.yaml" None false))
                 = [Open "config.yaml";
                    Get "https://api.example.org/api/pvfcst_request" Cases.query;
                    Log response_logged; WritePoints [Examples.point_1] None; Close])
    by (vm_compute; reflexivity).
  assert (Hin : WritePoints [Examples.point_1] None
                ∈ fst (script (Examples.world Examples.csv_text_one_row)
                         (mk_AppArgs "config.yaml" None false)))
    by (rewrite Hrun; repeat constructor).
  exact (write_carries_response_points _ _ _ _ Hin).
Defined.

(** X4 at the example: the request of a dry run. *)
Lemma request_after_configuration_witness :
  ∃ API_KEY text config app_config,
    environ (Examples.world Examples.csv_text_one_row) !! "CBASE_API_KEY" = Some API_KEY
    ∧ files (Examples.world Examples.csv_text_one_row) !! "config.yaml" = Some text
    ∧ yaml_safe_load text = Ok config
    ∧ AppConfig_of config = Ok app_config
    ∧ "https://api.example.org/api/pvfcst_request"
      = "https://" +:+ api_host (cbase app_config) +:+ "/api/pvfcst_request"
    ∧ query_of (request_params (system (cbase app_config)) API_KEY) = Ok Cases.query.
Proof.
  assert (Hrun : fst (script (Examples.world Examples.csv_text_one_row)
                        (mk_AppArgs "config.yaml" None true))
                 = [Open "config.yaml";
                    Get "https://api.example.org/api/pvfcst_request" Cases.query;
                    Log response_logged; Log (send_data_dry_run [Examples.point_1]); Close])
    by (vm_compute; reflexivity).
  assert (Hin : Get "https://api.example.org/api/pvfcst_request" Cases.query
                ∈ fst (script (Examples.world Examples.csv_text_one_row)
                         (mk_AppArgs "config.yaml" None true)))
    by (rewrite Hrun; repeat constructor).
  exact (request_after_configuration _ _ _ _ Hin).
Defined.

(** X7 at the example: both errors of the configuration are reported. *)
Lemma config_errors_collected_witness :
  AppConfig_init Cases.config
  = Raise (ValidationError
             [mk_line_error ["influxdb"; "retention_policy"] missing;
              mk_line_error ["cbase"; "system"; "latitude"] (less_than_equal 90)]).
Proof.
  assert (Hdb : Cases.config !! "influxdb" = Some (PDict Cases.influxdb_section))
    by apply lookup_insert_eq.
  assert (Hcb : Cases.config !! "cbase" = Some (PDict Cases.cbase_section)).
  { unfold Cases.config. rewrite lookup_insert_ne by done. apply lookup_singleton_eq. }
  assert (Hh : Cases.cbase_section !! "api_host" = Some (PStr "api.example.org"))
    by apply lookup_insert_eq.
  assert (Hs : Cases.cbase_section !! "system" = Some (PDict Cases.system_section)).
  { unfold Cases.cbase_section. rewrite lookup_insert_ne by done. apply lookup_singleton_eq. }
  assert (Herrs : ((located ["influxdb"] <$> field_errors InfluxDBConfig Cases.influxdb_section)
                   ++ (located ["cbase"; "system"]
                       <$> field_errors CBaseSystemParams Cases.system_section))%list
                  = [mk_line_error ["influxdb"; "retention_policy"] missing;
                     mk_line_error ["cbase"; "system"; "latitude"] (less_than_equal 90)])
    by (vm_compute; reflexivity).
  destruct (config_errors_collected Cases.config _ _ _ _ Hdb Hcb Hh Hs)
    as [[Hnil _]|[_ Hraise]].
  - rewrite Herrs in Hnil. discriminate.
  - rewrite Herrs in Hraise. exact Hraise.
Defined.

(** X8 at the example: a slope of 90 is taken. *)
Lemma orientation_bounds_witness :
  ∃ sys, model_init CBaseSystemParams (<["slope" := PInt 90]> Examples.system_params) = Ok sys.
Proof.
  assert (Hloads : ∃ sys, model_init CBaseSystemParams Examples.system_params = Ok sys).
  { exists Examples.system. vm_compute. reflexivity. }
  destruct (orientation_bounds Examples.system_params (PInt 90) Hloads) as [[_ Hslope] _].
  apply Hslope. exists 90. split; [reflexivity | lia].
Defined.

(** X9 at the example: the code 2 is taken. *)
Lemma tracking_codes_witness :
  ∃ sys, model_init CBaseSystemParams (<["tracking" := PInt 2]> Examples.system_params) = Ok sys.
Proof.
  assert (Hloads : ∃ sys, model_init CBaseSystemParams Examples.system_params = Ok sys).
  { exists Examples.system. vm_compute. reflexivity. }
  destruct (tracking_codes Examples.system_params 2 Hloads) as [[_ Hcode] _].
  apply Hcode. lia.
Defined.

(** X10 at the example: a section with a host and a retention policy. *)
Lemma influxdb_section_defaults_witness :
  model_init InfluxDBConfig {[ "host" := PStr "localhost"; "retention_policy" := PStr "weekly" ]}
  = Ok [("host", PStr "localhost"); ("port", PInt 8086); ("database", PStr "cbase");
        ("retention_policy", PStr "weekly")].
Proof.
  destruct (influxdb_section_defaults
              {[ "host" := PStr "localhost"; "retention_policy" := PStr "weekly" ]})
    as [_ Hloads].
  apply Hloads; [reflexivity | reflexivity | right; by eexists | reflexivity | reflexivity].
Defined.

(** X11 at the example: a row with a field too many. *)
Lemma surplus_fields_raise_TypeError_witness :
  CBaseResponseData_init (csv.row_dict column_names Cases.row_long) = Raise TypeError
  ∧ ∃ e, parse_csv Cases.csv_text_long = Raise e.
Proof.
  assert (Hreader : csv.reader (splitlines Cases.csv_text_long)
                    = (column_names :: [Examples.row_1; Cases.row_long], None))
    by (vm_compute; reflexivity).
  assert (Hin : Cases.row_long ∈ [Examples.row_1; Cases.row_long]) by (repeat constructor).
  assert (Hlen : (length column_names < length Cases.row_long)%nat) by (vm_compute; lia).
  exact (surplus_fields_raise_TypeError Cases.csv_text_long _ _ _ _ Hreader Hin Hlen).
Defined.

(** X12 at the example: a row of two fields. *)
Lemma short_row_raises_TypeError_witness :
  CBaseResponseData_init (csv.row_dict column_names Cases.row_short) = Raise TypeError
  ∧ ∃ e, parse_csv Cases.csv_text_short = Raise e.
Proof.
  assert (Hreader : csv.reader (splitlines Cases.csv_text_short)
                    = (column_names :: [Examples.row_1; Cases.row_short], None))
    by (vm_compute; reflexivity).
  assert (Hin : Cases.row_short ∈ [Examples.row_1; Cases.row_short]) by (repeat constructor).
  assert (Hlen : (length Cases.row_short < length column_names)%nat) by (vm_compute; lia).
  exact (short_row_raises_TypeError Cases.csv_text_short _ _ _ Hreader Hin
           ltac:(discriminate) Hlen).
Defined.

(** X13 at the example: a row with the timestamp alone. *)
Lemma missing_column_raises_witness :
  ∃ e, CBaseResponseData_init (csv.row_dict ["Time.UTC"] ["2024-06-01 12:00:00"]) = Raise e.
Proof.
  assert (Hrow : csv.row_dict ["Time.UTC"] ["2024-06-01 12:00:00"] !! Some "temp_avg" = None)
    by (vm_compute; reflexivity).
  assert (Hn : "temp_avg" ∈ column_names) by (repeat constructor).
  exact (missing_column_raises _ "temp_avg" Hn Hrow).
Defined.

(** X14 at the example: a column of comments. *)
Lemma extra_column_ignored_witness :
  CBaseResponseData_init
    (<[Some "comment" := PStr "cloudy"]> (csv.row_dict column_names Examples.row_1))
  = CBaseResponseData_init (csv.row_dict column_names Examples.row_1).
Proof.
  assert (Hk : "comment" ∉ column_names)
    by (apply (bool_decide_unpack _); vm_compute; exact I).
  exact (extra_column_ignored _ "comment" (PStr "cloudy") Hk).
Defined.

(** X16 at the example: the average temperature of the first row. *)
Lemma record_holds_parsed_cells_witness :
  ∃ x, str_as_float "18.5" = Some x ∧ getattr Examples.record_1 "temp_avg" = Some (PFloat x).
Proof.
  assert (Hdata : parse_csv Examples.csv_text = Ok [Examples.record_1; Examples.record_2])
    by (vm_compute; reflexivity).
  assert (Hreader : csv.reader (splitlines Examples.csv_text)
                    = (column_names :: [Examples.row_1; Examples.row_2], None))
    by (vm_compute; reflexivity).
  assert (Hnd : NoDup column_names) by (apply (bool_decide_unpack _); vm_compute; exact I).
  destruct (record_holds_parsed_cells Examples.csv_text _ _ _ _ 0 1 Examples.row_1
              Examples.record_1 "temp_avg" "18.5" Hdata Hreader eq_refl eq_refl eq_refl
              (NoDup_last_column _ 1 "temp_avg" Hnd eq_refl) eq_refl) as (_ & Hfloat & _).
  apply Hfloat. repeat constructor.
Defined.

(** X18 at the example. *)
Lemma request_query_values_witness :
  ∃ lat lon slope azi t out qty cap,
    Examples.system
    = [("latitude", PFloat lat); ("longitude", PFloat lon); ("slope", PInt slope);
       ("azimuth", PInt azi); ("tracking", PEnum t); ("panel_output", PInt out);
       ("panel_quantity", PInt qty); ("inverter_capacity", PInt cap)]
    ∧ query_of (request_params Examples.system "secret")
      = Ok [("lat", float_str lat); ("lon", float_str lon); ("slope", pretty slope);
            ("azi", pretty azi); ("tracking", pretty (tracking_value t));
            ("panel_out", pretty out); ("panel_qty", pretty qty); ("inv_cap", pretty cap);
            ("apikey", "secret")].
Proof.
  assert (Hsys : model_init CBaseSystemParams Examples.system_params = Ok Examples.system)
    by (vm_compute; reflexivity).
  exact (request_query_values Examples.system_params Examples.system "secret" Hsys).
Defined.

(** X19 at the example. *)
Lemma configured_run_requests_witness :
  ∃ query rest,
    query_of (request_params (system (cbase Cases.app_config)) "secret") = Ok query
    ∧ fst (run (Examples.world Examples.csv_text_one_row) "secret"
             (mk_AppArgs "config.yaml" None true))
      = Open "config.yaml"
        :: Get (API_URL (api_host (cbase Cases.app_config))) query :: rest.
Proof.
  assert (Hfile : files (Examples.world Examples.csv_text_one_row) !! "config.yaml"
                  = Some Sample.config_yaml) by (vm_compute; reflexivity).
  assert (Hyaml : yaml_safe_load Sample.config_yaml = Ok Sample.config_document).
  { unfold yaml_safe_load, sample_libs, Sample.safe_load.
    by rewrite bool_decide_true by reflexivity. }
  assert (Hcfg : AppConfig_of Sample.config_document = Ok Cases.app_config)
    by (vm_compute; reflexivity).
  exact (configured_run_requests (Examples.world Examples.csv_text_one_row) "secret"
           (mk_AppArgs "config.yaml" None true) _ _ _ Hfile Hyaml Hcfg).
Defined.

(** X20 at the example: a dry run. *)
Lemma dry_run_logs_response_points_witness :
  dry_run (mk_AppArgs "config.yaml" None true) = true
  ∧ snd (script (Examples.world Examples.csv_text_one_row)
           (mk_AppArgs "config.yaml" None true)) = Ok ()
  ∧ (∀ body' policy,
       WritePoints body' policy
       ∉ fst (script (Examples.world Examples.csv_text_one_row)
                (mk_AppArgs "config.yaml" None true)))
  ∧ ∃ API_KEY text config app_config query response,
      environ (Examples.world Examples.csv_text_one_row) !! "CBASE_API_KEY" = Some API_KEY
      ∧ files (Examples.world Examples.csv_text_one_row) !! "config.yaml" = Some text
      ∧ yaml_safe_load text = Ok config
      ∧ AppConfig_of config = Ok app_config
      ∧ query_of (request_params (system (cbase app_config)) API_KEY) = Ok query
      ∧ http_get (Examples.world Examples.csv_text_one_row)
          (API_URL (api_host (cbase app_config))) query = Ok (Ok response)
      ∧ csv_to_influxdb_points response = Ok [Examples.point_1].
Proof.
  assert (Hrun : fst (script (Examples.world Examples.csv_text_one_row)
                        (mk_AppArgs "config.yaml" None true))
                 = [Open "config.yaml";
                    Get "https://api.example.org/api/pvfcst_request" Cases.query;
                    Log response_logged; Log (send_data_dry_run [Examples.point_1]); Close])
    by (vm_compute; reflexivity).
  assert (Hin : Log (send_data_dry_run [Examples.point_1])
                ∈ fst (script (Examples.world Examples.csv_text_one_row)
                         (mk_AppArgs "config.yaml" None true)))
    by (rewrite Hrun; repeat constructor).
  exact (dry_run_logs_response_points _ _ _ Hin).
Defined.

(** X23 at the example: the database refuses the write. *)
Lemma write_error_ends_the_run_witness :
  snd (script Cases.world_write_fails (mk_AppArgs "config.yaml" None false))
  = Raise InfluxDBClientError
  ∧ Close ∉ fst (script Cases.world_write_fails (mk_AppArgs "config.yaml" None false)).
Proof.
  assert (Hrun : fst (script Cases.world_write_fails (mk_AppArgs "config.yaml" None false))
                 = [Open "config.yaml";
                    Get "https://api.example.org/api/pvfcst_request" Cases.query;
                    Log response_logged; WritePoints [Examples.point_1] None])
    by (vm_compute; reflexivity).
  assert (Hin : WritePoints [Examples.point_1] None
                ∈ fst (script Cases.world_write_fails (mk_AppArgs "config.yaml" None false)))
    by (rewrite Hrun; repeat constructor).
  exact (write_error_ends_the_run Cases.world_write_fails _ _ _ InfluxDBClientError Hin
           eq_refl).
Defined.

(** X24 at the example: the line printed for the file with one row. *)
Lemma print_only_with_csv_file_witness :
  ∃ path csv_text points,
    csv_file (mk_AppArgs "config.yaml" (Some "data.csv") false) = Some path ∧ path ≠ ""
    ∧ files (Examples.world Examples.csv_text_one_row) !! path = Some csv_text
    ∧ csv_to_influxdb_points csv_text = Ok points
    ∧ Examples.printed_one_row = repr_list (model_dump_json <$> points)
    ∧ script (Examples.world Examples.csv_text_one_row)
        (mk_AppArgs "config.yaml" (Some "data.csv") false)
      = ([Open path; Print Examples.printed_one_row], Ok ()).
Proof.
  assert (Hrun : fst (script (Examples.world Examples.csv_text_one_row)
                        (mk_AppArgs "config.yaml" (Some "data.csv") false))
                 = [Open "data.csv"; Print Examples.printed_one_row])
    by (vm_compute; reflexivity).
  assert (Hin : Print Examples.printed_one_row
                ∈ fst (script (Examples.world Examples.csv_text_one_row)
                         (mk_AppArgs "config.yaml" (Some "data.csv") false)))
    by (rewrite Hrun; repeat constructor).
  exact (print_only_with_csv_file _ _ _ Hin).
Defined.
